(** * ZepConversationDB: a shallow embedding of [legacy/conversation_database.py]

    The Python class [ZepConversationDB] is a thin synchronous client of a
    remote memory service.  Every method builds one HTTP request with the
    [requests] library, calls [raise_for_status] on the response and returns
    either the decoded JSON body or a value it had computed beforehand.

    The embedding keeps that shape.  Python values are a small inductive type
    with dictionaries as finite maps; a method is a computation in a state and
    exception monad over a [World] that holds the client object, the state of
    the remote service, the log of HTTP exchanges, the random source read by
    [uuid.uuid4] and the wall clock read by [datetime.now]. *)

From Stdlib Require Import ZArith NArith List Ascii String Lia.
From stdpp Require Import base option list gmap strings pretty.

Local Open Scope string_scope.
Local Open Scope list_scope.
Local Open Scope Z_scope.

(** ** Python values *)

(** The values that flow through the client: what [json.dumps] accepts and
    [response.json()] produces (floats are not used by the client). *)
#[warnings="-register-all"]
Inductive pyval : Type :=
| PNone
| PBool (b : bool)
| PInt (n : Z)
| PStr (s : string)
| PList (items : list pyval)
| PDict (entries : gmap string pyval).

Abbreviation dict := (gmap string pyval).

(** A [string] holds the UTF-8 encoding of a Python [str].  Python counts
    and slices a [str] by characters (code points); in the encoding a
    character is one byte that is not a continuation byte ([10xxxxxx])
    followed by its continuation bytes. *)
Definition is_continuation (c : ascii) : bool :=
  match c with
  | Ascii _ _ _ _ _ _ b6 b7 => b7 && negb b6
  end.

(** [len(s)] for a [str]: the number of characters. *)
Fixpoint str_len (s : string) : nat :=
  match s with
  | EmptyString => 0
  | String c rest =>
      if is_continuation c then str_len rest else S (str_len rest)
  end.

(** [s[:n]] for a [str]: the first [n] characters, all of [s] when it has
    fewer. *)
Fixpoint str_prefix (n : nat) (s : string) : string :=
  match s with
  | EmptyString => EmptyString
  | String c rest =>
      if is_continuation c then String c (str_prefix n rest)
      else match n with
           | O => EmptyString
           | S k => String c (str_prefix k rest)
           end
  end.

(** Python truthiness, as used by [x or y] and [if not x]. *)
Definition truthy (v : pyval) : bool :=
  match v with
  | PNone => false
  | PBool b => b
  | PInt n => negb (n =? 0)
  | PStr s => negb (String.eqb s "")
  | PList items => match items with [] => false | _ => true end
  | PDict entries => negb (bool_decide (entries = ∅))
  end.

(** [x or y] *)
Definition py_or (x y : pyval) : pyval := if truthy x then x else y.

(** An optional argument with default [None]. *)
Definition opt_str (o : option string) : pyval :=
  match o with Some s => PStr s | None => PNone end.

Definition opt_dict (o : option dict) : pyval :=
  match o with Some d => PDict d | None => PNone end.

(** [d.get(key, default)] on a dictionary. *)
Definition dict_get (d : dict) (key : string) (default : pyval) : pyval :=
  match d !! key with Some v => v | None => default end.

(** [str(n)] for an [int], as interpolated by an f-string. *)
Definition py_str_int (n : Z) : string := pretty n.

(** ** HTTP requests and responses *)

Inductive http_method : Type := GET | POST.

(** What [requests.get(url, headers=...)] and
    [requests.post(url, headers=..., json=...)] put on the wire.  The [json=]
    argument is kept as the value it encodes. *)
Record Request : Type := mkRequest {
  method : http_method;
  url : string;
  req_headers : gmap string string;
  json : option pyval
}.

(** The [requests.Response] object as the client observes it: the status
    code, the raw body, and what [response.json()] yields ([None] when the
    body is not a JSON document). *)
Record Response : Type := mkResponse {
  status_code : Z;
  text : string;
  payload : option pyval
}.

(** A request either gets a response or fails in transport (connection
    refused, DNS failure, timeout), with a diagnostic. *)
Inductive Outcome : Type :=
| Replied (response : Response)
| Failed (reason : string).

(** The exceptions the client's methods can raise. *)
Inductive exn : Type :=
| HTTPError (response : Response)
| ConnectionError (reason : string)
| JSONDecodeError (doc : string)
| KeyError (key : string)
| AttributeError (name : string)
| TypeError (what : string).

Inductive result (A : Type) : Type :=
| Ok (value : A)
| Raise (e : exn).
Arguments Ok {A} value.
Arguments Raise {A} e.

(** ** Local sources: random bytes and the wall clock *)

(** A naive local [datetime]. *)
Record datetime : Type := mkDatetime {
  year : N; month : N; day : N;
  hour : N; minute : N; second : N; microsecond : N
}.

(** Decimal rendering padded with zeros on the left to [width] characters. *)
Definition zero_pad (width : nat) (n : N) : string :=
  let digits := pretty n in
  String.concat "" (replicate (width - String.length digits) "0") +:+ digits.

(** [datetime.isoformat()]: the fraction is printed only when the
    microsecond field is not zero. *)
Definition isoformat (t : datetime) : string :=
  zero_pad 4 (year t) +:+ "-" +:+ zero_pad 2 (month t) +:+ "-" +:+
  zero_pad 2 (day t) +:+ "T" +:+ zero_pad 2 (hour t) +:+ ":" +:+
  zero_pad 2 (minute t) +:+ ":" +:+ zero_pad 2 (second t) +:+
  (if (microsecond t =? 0)%N then "" else "." +:+ zero_pad 6 (microsecond t)).

Definition hex_char (d : N) : ascii :=
  match d with
  | 0 => "0" | 1 => "1" | 2 => "2" | 3 => "3" | 4 => "4" | 5 => "5"
  | 6 => "6" | 7 => "7" | 8 => "8" | 9 => "9" | 10 => "a" | 11 => "b"
  | 12 => "c" | 13 => "d" | 14 => "e" | _ => "f"
  end%char%N.

(** The [width] low hexadecimal digits of [n], most significant first. *)
Fixpoint hex_digits (width : nat) (n : N) (acc : string) : string :=
  match width with
  | O => acc
  | S k => hex_digits k (n / 16)%N (String (hex_char (n mod 16)%N) acc)
  end.

(** [UUID.hex], the format ['%032x' % self.int]. *)
Definition uuid_hex (int : N) : string := hex_digits 32 int "".

(** [UUID(bytes=..., version=4)]: the variant and version bits are forced
    into the 128-bit integer read from the random bytes. *)
Definition uuid_v4_of_int (int : N) : N :=
  let int := N.ldiff int (N.shiftl 0xc000 48) in
  let int := N.lor int (N.shiftl 0x8000 48) in
  let int := N.ldiff int (N.shiftl 0xf000 64) in
  N.lor int (N.shiftl 4 76).

(** ** The client object *)

Record ZepConversationDB : Type := mkZepConversationDB {
  base_url : string;
  headers : gmap string string
}.

(** [__init__] *)
Definition init (base_url api_key : string) : ZepConversationDB :=
  {| base_url := base_url;
     headers := {[ "Authorization" := "Api-Key " +:+ api_key;
                   "Content-Type" := "application/json" ]} |}.

Definition default_base_url : string := "http://localhost:8000/api/v2".
Definition default_api_key : string := "zep-local-secret-key-12345".

(** The statuses for which [raise_for_status] raises:
    [400 <= status_code < 500] (client error) and
    [500 <= status_code < 600] (server error). *)
Definition is_error_status (status : Z) : bool :=
  ((400 <=? status) && (status <? 500)) || ((500 <=? status) && (status <? 600)).

(** ** The world a method runs in *)

Section Client.

(** The remote service is a black box: some state and a transition that
    answers one request at a time. *)
Context {Store : Type}.
Variable serve : Store → Request → Store * Outcome.

Record World : Type := mkWorld {
  self : ZepConversationDB;          (* the client object *)
  remote : Store;                    (* state of the remote service *)
  wire : list (Request * Outcome);   (* HTTP exchanges so far, oldest first *)
  urandom : nat → N;                 (* the operating system's random source *)
  urandom_reads : nat;
  clock : nat → datetime;            (* successive readings of the wall clock *)
  clock_reads : nat
}.

(** A computation may change the world and either returns or raises. *)
Definition M (A : Type) : Type := World → World * result A.

Definition ret {A} (a : A) : M A := λ w, (w, Ok a).
Definition raise {A} (e : exn) : M A := λ w, (w, Raise e).
Definition bind {A B} (m : M A) (k : A → M B) : M B :=
  λ w, match m w with
       | (w', Ok a) => k a w'
       | (w', Raise e) => (w', Raise e)
       end.

Notation "'let*' x ':=' m 'in' k" := (bind m (λ x, k))
  (at level 10, x name, m at level 100, k at level 200,
   format "'[v' 'let*'  x  ':='  m  'in'  '/' k ']'").

(** Reading the attributes of [self]. *)
Definition get_self : M ZepConversationDB := λ w, (w, Ok (self w)).

(** The world after one more exchange with the service. *)
Definition exchanged (w : World) (store' : Store) (req : Request)
    (out : Outcome) : World :=
  {| self := self w; remote := store'; wire := wire w ++ [(req, out)];
     urandom := urandom w; urandom_reads := urandom_reads w;
     clock := clock w; clock_reads := clock_reads w |}.

(** One round trip.  The exchange is logged; a transport failure surfaces as
    an exception of the [requests] library. *)
Definition http (req : Request) : M Response :=
  λ w, let '(store', out) := serve (remote w) req in
       match out with
       | Replied response => (exchanged w store' req out, Ok response)
       | Failed reason =>
           (exchanged w store' req out, Raise (ConnectionError reason))
       end.

Definition requests_post (url : string) (headers : gmap string string)
    (json : pyval) : M Response :=
  http {| method := POST; url := url; req_headers := headers;
          json := Some json |}.

Definition requests_get (url : string) (headers : gmap string string)
    : M Response :=
  http {| method := GET; url := url; req_headers := headers; json := None |}.

(** [Response.raise_for_status()] of the [requests] library: client errors
    (4xx) and server errors (5xx) raise [HTTPError] with the response
    attached; every other status passes. *)
Definition raise_for_status (response : Response) : M unit :=
  if is_error_status (status_code response)
  then raise (HTTPError response)
  else ret tt.

(** [Response.json()] *)
Definition response_json (response : Response) : M pyval :=
  match payload response with
  | Some v => ret v
  | None => raise (JSONDecodeError (text response))
  end.

(** [uuid.uuid4()]: sixteen bytes from the random source, as an integer. *)
Definition uuid4 : M N :=
  λ w, ({| self := self w; remote := remote w; wire := wire w;
           urandom := urandom w; urandom_reads := S (urandom_reads w);
           clock := clock w; clock_reads := clock_reads w |},
        Ok (uuid_v4_of_int (urandom w (urandom_reads w) mod 2 ^ 128)%N)).

(** [datetime.now()] *)
Definition datetime_now : M datetime :=
  λ w, ({| self := self w; remote := remote w; wire := wire w;
           urandom := urandom w; urandom_reads := urandom_reads w;
           clock := clock w; clock_reads := S (clock_reads w) |},
        Ok (clock w (clock_reads w))).

(** [msg[key]] *)
Definition getitem (d : dict) (key : string) : M pyval :=
  match d !! key with
  | Some v => ret v
  | None => raise (KeyError key)
  end.

(** [value.get(key, default)] on a value that may not be a dictionary. *)
Definition py_get (value : pyval) (key : string) (default : pyval) : M pyval :=
  match value with
  | PDict d => ret (dict_get d key default)
  | _ => raise (AttributeError "get")
  end.

(** [len(value)] *)
Definition py_len (value : pyval) : M Z :=
  match value with
  | PList items => ret (Z.of_nat (length items))
  | PStr s => ret (Z.of_nat (str_len s))
  | PDict d => ret (Z.of_nat (size d))
  | _ => raise (TypeError "len")
  end.

(** ** The methods of [ZepConversationDB] *)

Definition create_user (user_id : string)
    (email first_name last_name : option string) (metadata : option dict)
    : M pyval :=
  let* this := get_self in
  let user_data := PDict {[
    "user_id" := PStr user_id;
    "email" := opt_str email;
    "first_name" := opt_str first_name;
    "last_name" := opt_str last_name;
    "metadata" := py_or (opt_dict metadata) (PDict ∅) ]} in
  let* response := requests_post (base_url this +:+ "/users") (headers this)
                           user_data in
  let* _ := raise_for_status response in
  response_json response.

(** The identifier made up when the caller gives none:
    [f"conv-{uuid.uuid4().hex[:8]}"]. *)
Definition generated_session_id (uuid : N) : string :=
  "conv-" +:+ String.substring 0 8 (uuid_hex uuid).

Definition create_conversation (user_id : string)
    (session_id : option string) (metadata : option dict) : M string :=
  let* session_id := (if negb (truthy (opt_str session_id))
     then let* uuid := uuid4 in ret (generated_session_id uuid)
     else ret (default "" session_id)) in
  let* this := get_self in
  let session_data := PDict {[
    "user_id" := PStr user_id;
    "session_id" := PStr session_id;
    "metadata" := py_or (opt_dict metadata) (PDict ∅) ]} in
  let* response := requests_post (base_url this +:+ "/sessions") (headers this)
                           session_data in
  let* _ := raise_for_status response in
  ret session_id.

Definition add_message (session_id role content : string)
    (metadata : option dict) : M pyval :=
  let* this := get_self in
  let message_data := PDict {[
    "messages" := PList [ PDict {[
      "role" := PStr role;
      "role_type" := PStr role;
      "content" := PStr content;
      "metadata" := py_or (opt_dict metadata) (PDict ∅) ]} ] ]} in
  let* response := requests_post
    (base_url this +:+ "/sessions/" +:+ session_id +:+ "/memory")
    (headers this) message_data in
  let* _ := raise_for_status response in
  response_json response.

(** The body of the [for msg in messages] loop: one entry of the request,
    built from one message of the caller. *)
Definition format_message (msg : dict) : M pyval :=
  let* role := getitem msg "role" in
  let* role_type := getitem msg "role" in
  let* content := getitem msg "content" in
  ret (PDict {[
    "role" := role;
    "role_type" := role_type;
    "content" := content;
    "metadata" := dict_get msg "metadata" (PDict ∅) ]}).

Fixpoint format_messages (messages : list dict) (formatted_messages : list pyval)
    : M (list pyval) :=
  match messages with
  | [] => ret formatted_messages
  | msg :: rest =>
      let* entry := format_message msg in
      format_messages rest (formatted_messages ++ [entry])
  end.

Definition add_conversation_batch (session_id : string) (messages : list dict)
    : M pyval :=
  let* formatted_messages := format_messages messages [] in
  let message_data := PDict {[ "messages" := PList formatted_messages ]} in
  let* this := get_self in
  let* response := requests_post
    (base_url this +:+ "/sessions/" +:+ session_id +:+ "/memory")
    (headers this) message_data in
  let* _ := raise_for_status response in
  response_json response.

Definition get_conversation_context (session_id : string) (last_n : Z)
    : M pyval :=
  let* this := get_self in
  let* response := requests_get
    (base_url this +:+ "/sessions/" +:+ session_id +:+ "/memory?lastn=" +:+
     py_str_int last_n)
    (headers this) in
  let* _ := raise_for_status response in
  response_json response.

(** The default of the [last_n] parameter. *)
Definition default_last_n : Z := 10.

Definition get_user_conversations (user_id : string) : M pyval :=
  let* this := get_self in
  let* response := requests_get
    (base_url this +:+ "/users/" +:+ user_id +:+ "/sessions") (headers this) in
  let* _ := raise_for_status response in
  response_json response.

Definition search_conversations (user_id query : string) : M pyval :=
  let* conversations := get_user_conversations user_id in
  ret conversations.

Definition get_conversation_summary (session_id : string) : M pyval :=
  let* context := get_conversation_context session_id default_last_n in
  let* messages := py_get context "messages" (PList []) in
  let* message_count := py_len messages in
  let* relevant_facts := py_get context "relevant_facts" (PList []) in
  let* context_text := py_get context "context" (PStr "") in
  let* now := datetime_now in
  ret (PDict {[
    "session_id" := PStr session_id;
    "message_count" := PInt message_count;
    "relevant_facts" := relevant_facts;
    "context" := context_text;
    "last_updated" := PStr (isoformat now) ]}).

(** ** Calls of the public interface *)

(** One call of a method, with its arguments. *)
Inductive Op : Type :=
| CreateUser (user_id : string) (email first_name last_name : option string)
    (metadata : option dict)
| CreateConversation (user_id : string) (session_id : option string)
    (metadata : option dict)
| AddMessage (session_id role content : string) (metadata : option dict)
| AddConversationBatch (session_id : string) (messages : list dict)
| GetConversationContext (session_id : string) (last_n : Z)
| GetUserConversations (user_id : string)
| SearchConversations (user_id query : string)
| GetConversationSummary (session_id : string).

Definition run_op (op : Op) : M pyval :=
  match op with
  | CreateUser user_id email first_name last_name metadata =>
      create_user user_id email first_name last_name metadata
  | CreateConversation user_id session_id metadata =>
      let* session_id := create_conversation user_id session_id metadata in
      ret (PStr session_id)
  | AddMessage session_id role content metadata =>
      add_message session_id role content metadata
  | AddConversationBatch session_id messages =>
      add_conversation_batch session_id messages
  | GetConversationContext session_id last_n =>
      get_conversation_context session_id last_n
  | GetUserConversations user_id => get_user_conversations user_id
  | SearchConversations user_id query => search_conversations user_id query
  | GetConversationSummary session_id => get_conversation_summary session_id
  end.

(** A caller that makes the calls one after the other and carries on after
    an exception, as the demo scripts do. *)
Fixpoint run_ops (ops : list Op) (w : World) : World :=
  match ops with
  | [] => w
  | op :: rest => run_ops rest (fst (run_op op w))
  end.

(** The exchanges a computation adds to the log. *)
Definition sent {A} (m : M A) (w : World) : list (Request * Outcome) :=
  drop (length (wire w)) (wire (fst (m w))).

(** What a method that ends in [raise_for_status] and [response.json()]
    makes of the outcome of its request. *)
Definition decoded (out : Outcome) : result pyval :=
  match out with
  | Failed reason => Raise (ConnectionError reason)
  | Replied response =>
      if is_error_status (status_code response)
      then Raise (HTTPError response)
      else match payload response with
           | Some v => Ok v
           | None => Raise (JSONDecodeError (text response))
           end
  end.

(** A request, the check of its status and the decoding of its body, as one
    step. *)
Definition round_trip (req : Request) : M pyval :=
  λ w, let '(store', out) := serve (remote w) req in
       (exchanged w store' req out, decoded out).

(** A computation that leaves the client object as it found it. *)
Definition keeps_self {A} (m : M A) : Prop :=
  ∀ w, self (fst (m w)) = self w.

End Client.

Arguments World : clear implicits.
Arguments M : clear implicits.

(** ** Messages *)

(** The messages array of a request body, if it has one. *)
Definition request_messages (req : Request) : list pyval :=
  match json req with
  | Some (PDict body) =>
      match body !! "messages" with
      | Some (PList entries) => entries
      | _ => []
      end
  | _ => []
  end.

(** A caller's message [{role, content, metadata?}]: the optional field is
    left out when there is no metadata. *)
Definition single_message (role content : string) (metadata : option dict)
    : dict :=
  match metadata with
  | Some d => {[ "role" := PStr role; "content" := PStr content;
                 "metadata" := PDict d ]}
  | None => {[ "role" := PStr role; "content" := PStr content ]}
  end.

(** A message has the two mandatory fields. *)
Definition well_formed (msg : dict) : Prop :=
  is_Some (msg !! "role") ∧ is_Some (msg !! "content").

(** The entry of the request body that [add_conversation_batch] builds from
    a well-formed message, read off [format_message]. *)
Definition entry_of (msg : dict) : pyval :=
  PDict {[
    "role" := dict_get msg "role" PNone;
    "role_type" := dict_get msg "role" PNone;
    "content" := dict_get msg "content" PNone;
    "metadata" := dict_get msg "metadata" (PDict ∅) ]}.

(** An entry of a request body whose [role_type] repeats its [role]. *)
Definition role_fields_agree (entry : pyval) : Prop :=
  ∃ (e : dict) (role : pyval),
    entry = PDict e ∧ e !! "role" = Some role ∧ e !! "role_type" = Some role.

(** Two messages that differ at most in a [role_type] field. *)
Definition same_but_role_type (msg msg' : dict) : Prop :=
  ∀ key : string, key ≠ "role_type" → msg !! key = msg' !! key.

(** ** A conforming memory service *)

(** The [k] most recent elements of a history. *)
Definition last_n_of {A} (k : nat) (history : list A) : list A :=
  drop (length history - k) history.

(** Modelled from the spec: the remote memory service, which is not part of
    this repository.  Messages of a session are "append-only and
    insertion-order-significant" and a context request yields "the most recent
    [lastN] messages" (spec sections 3 and 4.1).  [held st path] is the history
    the service keeps for the memory resource at [path]; a reply counts as
    success when [raise_for_status] lets it pass. *)
Record MemoryService {Store : Type}
    (serve : Store → Request → Store * Outcome)
    (held : Store → string → list pyval) : Prop := {
  service_appends : ∀ st path hs entries st' r,
    serve st {| method := POST; url := path; req_headers := hs;
                json := Some (PDict {[ "messages" := PList entries ]}) |}
      = (st', Replied r) →
    is_error_status (status_code r) = false →
    held st' path = held st path ++ entries;
  service_recalls : ∀ st path hs k st' r,
    0 < k →
    serve st {| method := GET; url := path +:+ "?lastn=" +:+ py_str_int k;
                req_headers := hs; json := None |}
      = (st', Replied r) →
    is_error_status (status_code r) = false →
    ∃ d, payload r = Some (PDict d) ∧
         d !! "messages"
           = Some (PList (last_n_of (Z.to_nat k) (held st path)))
}.

(** *** An in-memory stand-in for the service *)

Module Mock.

Definition is_digit (c : ascii) : bool :=
  ((48 <=? N_of_ascii c) && (N_of_ascii c <=? 57))%N.

Definition digit_value (c : ascii) : N := (N_of_ascii c - 48)%N.

(** The leading run of digits of a character list, and what follows it. *)
Fixpoint span_digits (cs : list ascii) : list ascii * list ascii :=
  match cs with
  | c :: rest =>
      if is_digit c
      then let '(ds, tl) := span_digits rest in (c :: ds, tl)
      else ([], cs)
  | [] => ([], [])
  end.

(** The number written by decimal digits given least significant first. *)
Fixpoint lsf_value (ds : list ascii) : N :=
  match ds with
  | [] => 0%N
  | c :: rest => (digit_value c + 10 * lsf_value rest)%N
  end.

Fixpoint strip_prefix (p cs : list ascii) : option (list ascii) :=
  match p with
  | [] => Some cs
  | a :: p' =>
      match cs with
      | c :: cs' => if Ascii.eqb a c then strip_prefix p' cs' else None
      | [] => None
      end
  end.

(** Splits [path?lastn=k] into [path] and [k], reading from the end. *)
Definition parse_lastn (u : string) : option (string * N) :=
  let '(ds, rest) := span_digits (rev (list_ascii_of_string u)) in
  match ds with
  | [] => None
  | _ =>
      match strip_prefix (rev (list_ascii_of_string "?lastn=")) rest with
      | Some p => Some (string_of_list_ascii (rev p), lsf_value ds)
      | None => None
      end
  end.

(** The store: the batches received so far, oldest first, each with the path
    it was posted to.  The history of a memory resource is what was posted
    to its path, in order of arrival. *)
Definition held (st : list (string * list pyval)) (path : string)
    : list pyval :=
  flat_map (λ batch, if String.eqb (fst batch) path then snd batch else []) st.

Definition reply (status : Z) (v : pyval) : Outcome :=
  Replied {| status_code := status; text := ""; payload := Some v |}.

(** A post with a messages array appends to the resource at its path; any
    other post is acknowledged with its own body; a get with a [lastn] query
    returns the most recent messages of the resource.  The raw text of the
    bodies is not produced. *)
Definition serve (st : list (string * list pyval)) (req : Request)
    : list (string * list pyval) * Outcome :=
  match method req with
  | POST =>
      match json req with
      | Some (PDict body) =>
          match body !! "messages" with
          | Some (PList entries) =>
              (st ++ [(url req, entries)], reply 200 (PDict ∅))
          | _ => (st, reply 201 (PDict body))
          end
      | _ => (st, reply 400 PNone)
      end
  | GET =>
      match parse_lastn (url req) with
      | Some (path, k) =>
          (st, reply 200 (PDict {[
                 "messages" := PList (last_n_of (N.to_nat k) (held st path));
                 "relevant_facts" := PList [];
                 "context" := PStr "" ]}))
      | None => (st, reply 200 (PList []))
      end
  end.

(** A world with a fresh client, an empty service, a random source that
    repeats itself and a clock that stands still. *)
Definition world0 : World (list (string * list pyval)) :=
  {| self := init default_base_url default_api_key;
     remote := [];
     wire := [];
     urandom := λ _, 0x0123456789abcdef0123456789abcdef%N;
     urandom_reads := 0;
     clock := λ _, {| year := 2024; month := 1; day := 2; hour := 3;
                      minute := 4; second := 5; microsecond := 0 |};
     clock_reads := 0 |}.

(** A service that gives the same answer to every request. *)
Definition always (response : Response) (st : unit) (req : Request)
    : unit * Outcome :=
  (st, Replied response).

(** [304 Not Modified], which has no body. *)
Definition not_modified : Response :=
  {| status_code := 304; text := ""; payload := None |}.

(** [201 Created] with an empty JSON object. *)
Definition created : Response :=
  {| status_code := 201; text := "{}"; payload := Some (PDict ∅) |}.

(** [401 Unauthorized] with a plain-text body. *)
Definition unauthorized : Response :=
  {| status_code := 401; text := "unauthorized"; payload := None |}.

Definition world1 : World unit :=
  {| self := init default_base_url default_api_key;
     remote := tt;
     wire := [];
     urandom := λ _, 0x0123456789abcdef0123456789abcdef%N;
     urandom_reads := 0;
     clock := λ _, {| year := 2024; month := 1; day := 2; hour := 3;
                      minute := 4; second := 5; microsecond := 0 |};
     clock_reads := 0 |}.

(** The scenario of the specification: two messages for session [s1]. *)
Definition hello : dict := single_message "user" "hello" None.
Definition hi : dict := single_message "assistant" "hi" None.

Definition world2 : World (list (string * list pyval)) :=
  fst (add_conversation_batch serve "s1" [hello; hi] world0).

(** What the stand-in service holds for [s1] then, and the context it
    returns when asked for the last [k] messages. *)
Definition messages_s1 : list pyval := [entry_of hello; entry_of hi].

Definition context_s1 (k : nat) : dict :=
  {[ "messages" := PList (last_n_of k messages_s1);
     "relevant_facts" := PList [];
     "context" := PStr "" ]}.

(** The requests of two calls made with the default configuration. *)
Definition sessions_request : Request :=
  {| method := GET;
     url := "http://localhost:8000/api/v2/users/u1/sessions";
     req_headers := headers (init default_base_url default_api_key);
     json := None |}.

Definition create_session_request : Request :=
  {| method := POST;
     url := "http://localhost:8000/api/v2/sessions";
     req_headers := headers (init default_base_url default_api_key);
     json := Some (PDict {[
       "user_id" := PStr "u1";
       "session_id" := PStr "s1";
       "metadata" := PDict ∅ ]}) |}.

End Mock.

(** ** Generated session identifiers *)

(** The identifier that [create_conversation] derives from the sixteen
    random bytes read by [uuid.uuid4], given as an integer. *)
Definition session_id_of_random (r : N) : string :=
  generated_session_id (uuid_v4_of_int (r mod 2 ^ 128)%N).

(** The first four of the sixteen bytes. *)
Definition top32 (r : N) : N := ((r mod 2 ^ 128) / 2 ^ 96)%N.

(** Every value the sixteen bytes can take. *)
Definition sixteen_bytes : list N := Z.to_N <$> seqZ 0 (2 ^ 128).

(** Every run of [n] values drawn from [U], each run once. *)
Fixpoint draws {A} (U : list A) (n : nat) : list (list A) :=
  match n with
  | O => [[]]
  | S n => flat_map (λ s, (λ u, u :: s) <$> U) (draws U n)
  end.

(** A run in which two draws get the same key. *)
Definition collides {A K} (key : A → K) (s : list A) : Prop :=
  ¬ NoDup (key <$> s).

#[global] Instance collides_dec {A K} `{EqDecision K} (key : A → K)
    (s : list A) : Decision (collides key s).
Proof. unfold collides. apply _. Defined.

(** The session identifier named in the body of a request. *)
Definition session_id_sent (req : Request) : option string :=
  match json req with
  | Some (PDict body) =>
      match body !! "session_id" with
      | Some (PStr s) => Some s
      | _ => None
      end
  | _ => None
  end.

(** The session identifiers named in a run of exchanges, oldest first. *)
Definition ids_sent (exchanges : list (Request * Outcome)) : list string :=
  omap (λ exchange, session_id_sent (fst exchange)) exchanges.

(** * The chat application of [legacy/simple_integration_example.py] *)

(** ** Values whose type is only known at run time *)

(** The application passes on what the service returned, so a user
    identifier may be any JSON value.  [repr] stands for Python's rendering
    of lists and dictionaries, which the scripts do not depend on. *)
Section Dynamic.

Context {Store : Type}.
Variable serve : Store → Request → Store * Outcome.
Variable repr : pyval → string.

(** [str(v)], as interpolated by an f-string. *)
Definition py_str (v : pyval) : string :=
  match v with
  | PStr s => s
  | PNone => "None"
  | PBool true => "True"
  | PBool false => "False"
  | PInt n => py_str_int n
  | _ => repr v
  end.

(** [v[key]] for a string key. *)
Definition py_getitem (v : pyval) (key : string) : M Store pyval :=
  match v with
  | PDict d => getitem d key
  | PList _ => raise (TypeError "list indices must be integers")
  | PStr _ => raise (TypeError "string indices must be integers")
  | _ => raise (TypeError "not subscriptable")
  end.

(** [create_conversation] called with a user identifier of any type. *)
Definition create_conversation_dyn (user_id : pyval)
    (session_id : option string) (metadata : option dict) : M Store string :=
  bind (if negb (truthy (opt_str session_id))
        then bind uuid4 (λ uuid, ret (generated_session_id uuid))
        else ret (default "" session_id))
    (λ session_id,
  bind get_self (λ this,
  let session_data := PDict {[
    "user_id" := user_id;
    "session_id" := PStr session_id;
    "metadata" := py_or (opt_dict metadata) (PDict ∅) ]} in
  bind (requests_post serve (base_url this +:+ "/sessions") (headers this)
          session_data) (λ response,
  bind (raise_for_status response) (λ _,
  ret session_id)))).

(** [get_user_conversations] called with a user identifier of any type. *)
Definition get_user_conversations_dyn (user_id : pyval) : M Store pyval :=
  bind get_self (λ this,
  bind (requests_get serve
          (base_url this +:+ "/users/" +:+ py_str user_id +:+ "/sessions")
          (headers this)) (λ response,
  bind (raise_for_status response) (λ _,
  response_json response))).

End Dynamic.

(** [x or y] for an optional string. *)
Definition str_or (x : option string) (y : string) : string :=
  match x with
  | Some s => if String.eqb s "" then y else s
  | None => y
  end.

(** ** The application object and its console *)

Module ChatApp.

Record SimpleChatApp : Type := mkSimpleChatApp {
  current_user : pyval;
  current_session : option string
}.

(** [__init__]: nobody logged in, no conversation; the database client is
    the object [self] of the world, built with the default configuration. *)
Definition new_app : SimpleChatApp :=
  {| current_user := PNone; current_session := None |}.

Section App.

Context {Store : Type}.
Variable serve : Store → Request → Store * Outcome.
Variable repr : pyval → string.
(** [str(e)] for an exception. *)
Variable exn_str : exn → string.

(** A running program: the world of the client, the application object and
    the lines printed so far. *)
Record Process : Type := mkProcess {
  env : World Store;
  app : SimpleChatApp;
  stdout : list string
}.

Definition App (A : Type) : Type := Process → Process * result A.

Definition aret {A} (a : A) : App A := λ p, (p, Ok a).
Definition abind {A B} (m : App A) (k : A → App B) : App B :=
  λ p, match m p with
       | (p', Ok a) => k a p'
       | (p', Raise e) => (p', Raise e)
       end.

Notation "'do' x '<-' m ';' k" := (abind m (λ x, k))
  (at level 10, x name, m at level 100, k at level 200,
   format "'[v' 'do'  x  '<-'  m ';'  '/' k ']'").

(** A call of the database client. *)
Definition db {A} (m : M Store A) : App A :=
  λ p, let '(w', r) := m (env p) in
       ({| env := w'; app := app p; stdout := stdout p |}, r).

Definition print (line : string) : App unit :=
  λ p, ({| env := env p; app := app p; stdout := stdout p ++ [line] |}, Ok tt).

Definition get_app : App SimpleChatApp := λ p, (p, Ok (app p)).

Definition set_current_user (v : pyval) : App unit :=
  λ p, ({| env := env p;
           app := {| current_user := v;
                     current_session := current_session (app p) |};
           stdout := stdout p |}, Ok tt).

Definition set_current_session (s : string) : App unit :=
  λ p, ({| env := env p;
           app := {| current_user := current_user (app p);
                     current_session := Some s |};
           stdout := stdout p |}, Ok tt).

(** [try: body except Exception as e: handler(e)] *)
Definition try_except {A} (body : App A) (handler : exn → App A) : App A :=
  λ p, match body p with
       | (p', Ok a) => (p', Ok a)
       | (p', Raise e) => handler e p'
       end.

Definition login_user (user_id : string) (name email : option string)
    : App pyval :=
  try_except
    (do this <- db get_self;
     do response <- db (requests_get serve
                          (base_url this +:+ "/users/" +:+ user_id)
                          (headers this));
     do _ <- (if status_code response =? 200
              then
                do user <- db (response_json response);
                do _ <- set_current_user user;
                do this_app <- get_app;
                do first_name <- db (py_get (current_user this_app)
                                       "first_name" (PStr user_id));
                print ("✅ Welcome back, " +:+ py_str repr first_name +:+ "!")
              else
                do user <- db (create_user serve user_id
                                 (Some (str_or email
                                          (user_id +:+ "@example.com")))
                                 (Some (str_or name user_id)) None None);
                do _ <- set_current_user user;
                print ("✅ New user created: " +:+ str_or name user_id));
     aret (PBool true))
    (λ e,
     do _ <- print ("❌ Login failed: " +:+ exn_str e);
     aret (PBool false)).

Definition start_conversation (topic : option string) : App pyval :=
  do this_app <- get_app;
  if negb (truthy (current_user this_app))
  then
    do _ <- print "❌ Please login first";
    aret (PBool false)
  else
    do user_id <- db (py_getitem (current_user this_app) "user_id");
    do now <- db datetime_now;
    do session_id <- db (create_conversation_dyn serve user_id None
                           (Some {[ "topic" := opt_str topic;
                                    "started_at" := PStr (isoformat now) ]}));
    do _ <- set_current_session session_id;
    do _ <- print ("💬 Started new conversation: " +:+ session_id);
    do _ <- (if truthy (opt_str topic)
             then print ("📝 Topic: " +:+ default "" topic)
             else aret tt);
    aret (PBool true).

Definition send_message (message role : string) : App pyval :=
  do this_app <- get_app;
  if negb (truthy (opt_str (current_session this_app)))
  then
    do _ <- print "❌ No active conversation. Start one first.";
    aret (PBool false)
  else
    try_except
      (do now <- db datetime_now;
       do _ <- db (add_message serve
                     (default "" (current_session this_app)) role message
                     (Some {[ "timestamp" := PStr (isoformat now) ]}));
       do _ <- print ("✅ Message sent: " +:+ str_prefix 50 message
                      +:+ "...");
       aret (PBool true))
      (λ e,
       do _ <- print ("❌ Failed to send message: " +:+ exn_str e);
       aret (PBool false)).

(** The default of the [role] parameter. *)
Definition default_role : string := "user".

Definition get_conversation_history (limit : Z) : App pyval :=
  do this_app <- get_app;
  if negb (truthy (opt_str (current_session this_app)))
  then
    do _ <- print "❌ No active conversation";
    aret (PList [])
  else
    try_except
      (do context <- db (get_conversation_context serve
                           (default "" (current_session this_app)) limit);
       db (py_get context "messages" (PList [])))
      (λ e,
       do _ <- print ("❌ Failed to get history: " +:+ exn_str e);
       aret (PList [])).

(** The default of the [limit] parameter. *)
Definition default_limit : Z := 10.

Definition get_conversation_summary : App pyval :=
  do this_app <- get_app;
  if negb (truthy (opt_str (current_session this_app)))
  then
    do _ <- print "❌ No active conversation";
    aret PNone
  else
    try_except
      (db (get_conversation_summary serve
             (default "" (current_session this_app))))
      (λ e,
       do _ <- print ("❌ Failed to get summary: " +:+ exn_str e);
       aret PNone).

Definition list_user_conversations : App pyval :=
  do this_app <- get_app;
  if negb (truthy (current_user this_app))
  then
    do _ <- print "❌ Please login first";
    aret (PList [])
  else
    try_except
      (do user_id <- db (py_getitem (current_user this_app) "user_id");
       db (get_user_conversations_dyn serve repr user_id))
      (λ e,
       do _ <- print ("❌ Failed to list conversations: " +:+ exn_str e);
       aret (PList [])).

(** One call of a method of the application. *)
Inductive Call : Type :=
| LoginUser (user_id : string) (name email : option string)
| StartConversation (topic : option string)
| SendMessage (message role : string)
| GetConversationHistory (limit : Z)
| GetSummary
| ListUserConversations.

Definition run_call (c : Call) : App pyval :=
  match c with
  | LoginUser user_id name email => login_user user_id name email
  | StartConversation topic => start_conversation topic
  | SendMessage message role => send_message message role
  | GetConversationHistory limit => get_conversation_history limit
  | GetSummary => get_conversation_summary
  | ListUserConversations => list_user_conversations
  end.

(** A caller that makes the calls one after the other and carries on after
    an exception, as the menu loop of the interactive demo would have to. *)
Fixpoint run_calls (calls : list Call) (p : Process) : Process :=
  match calls with
  | [] => p
  | c :: rest => run_calls rest (fst (run_call c p))
  end.

(** A computation that leaves some part [f] of the process as it was. *)
Definition preserves {X A} (f : Process → X) (m : App A) : Prop :=
  ∀ p, f (fst (m p)) = f p.

End App.

(** The recorded conversation, if any, has an identifier made by the
    client. *)
Definition session_generated (a : SimpleChatApp) : Prop :=
  current_session a = None ∨
  ∃ r, current_session a = Some (session_id_of_random r).

End ChatApp.

(** * The smoke test of [legacy/test_zep.py] *)

Module TestZep.

Definition ZEP_BASE_URL : string := "http://localhost:8000/api/v2".
Definition API_SECRET : string := "zep-local-secret-key-12345".

Definition headers : gmap string string :=
  {[ "Authorization" := "Api-Key " +:+ API_SECRET;
     "Content-Type" := "application/json" ]}.

(** The line feed that starts some of the printed lines. *)
Definition nl : string := String (ascii_of_nat 10) "".

(** ["=" * n] *)
Definition rule (n : nat) : string := String.concat "" (replicate n "=").

Section Script.

Context {Store : Type}.
Variable serve : Store → Request → Store * Outcome.
Variable repr : pyval → string.

(** The script has no object of its own: a run is the world and the lines
    printed so far. *)
Record Run : Type := mkRun {
  world : World Store;
  printed : list string
}.

Definition Script (A : Type) : Type := Run → Run * result A.

Definition sret {A} (a : A) : Script A := λ s, (s, Ok a).
Definition sbind {A B} (m : Script A) (k : A → Script B) : Script B :=
  λ s, match m s with
       | (s', Ok a) => k a s'
       | (s', Raise e) => (s', Raise e)
       end.

Notation "'do' x '<-' m ';' k" := (sbind m (λ x, k))
  (at level 10, x name, m at level 100, k at level 200,
   format "'[v' 'do'  x  '<-'  m ';'  '/' k ']'").

Definition call {A} (m : M Store A) : Script A :=
  λ s, let '(w', r) := m (world s) in
       ({| world := w'; printed := printed s |}, r).

Definition print (line : string) : Script unit :=
  λ s, ({| world := world s; printed := printed s ++ [line] |}, Ok tt).

Definition test_health : Script pyval :=
  do _ <- print "🔍 Testing Zep API health...";
  do response <- call (requests_get serve "http://localhost:8000/healthz" ∅);
  if status_code response =? 200
  then
    do _ <- print "✅ Zep API is healthy!";
    sret (PBool true)
  else
    do _ <- print ("❌ Zep API health check failed: "
                   +:+ py_str_int (status_code response));
    sret (PBool false).

Definition create_user : Script pyval :=
  do _ <- print (nl +:+ "👤 Creating test user...");
  do uuid <- call uuid4;
  let user_data := PDict {[
    "user_id" := PStr ("test-user-" +:+ String.substring 0 8 (uuid_hex uuid));
    "email" := PStr "test@example.com";
    "first_name" := PStr "Test";
    "last_name" := PStr "User" ]} in
  do response <- call (requests_post serve (ZEP_BASE_URL +:+ "/users")
                         headers user_data);
  if status_code response =? 201
  then
    do user <- call (response_json response);
    do shown <- call (py_getitem user "user_id");
    do _ <- print ("✅ User created: " +:+ py_str repr shown);
    call (py_getitem user "user_id")
  else
    do _ <- print ("❌ Failed to create user: "
                   +:+ py_str_int (status_code response) +:+ " - "
                   +:+ text response);
    sret PNone.

Definition create_session (user_id : pyval) : Script pyval :=
  do _ <- print (nl +:+ "💬 Creating session for user "
                 +:+ py_str repr user_id +:+ "...");
  do uuid <- call uuid4;
  let session_data := PDict {[
    "user_id" := user_id;
    "session_id"
      := PStr ("test-session-" +:+ String.substring 0 8 (uuid_hex uuid)) ]} in
  do response <- call (requests_post serve (ZEP_BASE_URL +:+ "/sessions")
                         headers session_data);
  if status_code response =? 201
  then
    do session <- call (response_json response);
    do shown <- call (py_getitem session "session_id");
    do _ <- print ("✅ Session created: " +:+ py_str repr shown);
    call (py_getitem session "session_id")
  else
    do _ <- print ("❌ Failed to create session: "
                   +:+ py_str_int (status_code response) +:+ " - "
                   +:+ text response);
    sret PNone.

(** The four messages of the canned conversation. *)
Definition memory_data : pyval :=
  PDict {[ "messages" := PList [
    PDict {[ "role" := PStr "user"; "role_type" := PStr "user";
             "content"
               := PStr "Hi! I'm looking for running shoes. I love Nike." ]};
    PDict {[ "role" := PStr "assistant"; "role_type" := PStr "assistant";
             "content" := PStr
               "Great! I can help you find Nike running shoes. What's your budget?" ]};
    PDict {[ "role" := PStr "user"; "role_type" := PStr "user";
             "content"
               := PStr "Around $100-150. I need them for marathon training." ]};
    PDict {[ "role" := PStr "assistant"; "role_type" := PStr "assistant";
             "content" := PStr
               "Perfect! I recommend the Nike Air Zoom Pegasus 40 for $120. It's excellent for marathon training." ]}
  ] ]}.

Definition add_memory (session_id : pyval) : Script pyval :=
  do _ <- print (nl +:+ "🧠 Adding memory to session "
                 +:+ py_str repr session_id +:+ "...");
  do response <- call (requests_post serve
                         (ZEP_BASE_URL +:+ "/sessions/"
                          +:+ py_str repr session_id +:+ "/memory")
                         headers memory_data);
  if status_code response =? 201
  then
    do _ <- print "✅ Memory added successfully!";
    sret (PBool true)
  else
    do _ <- print ("❌ Failed to add memory: "
                   +:+ py_str_int (status_code response) +:+ " - "
                   +:+ text response);
    sret (PBool false).

(** [len(memory.get(key, []))], printed. *)
Definition count_of (memory : pyval) (key : string) : Script string :=
  do items <- call (py_get memory key (PList []));
  do n <- call (py_len items);
  sret (py_str_int n).

Definition get_memory (session_id : pyval) : Script pyval :=
  do _ <- print (nl +:+ "🔍 Retrieving memory from session "
                 +:+ py_str repr session_id +:+ "...");
  do response <- call (requests_get serve
                         (ZEP_BASE_URL +:+ "/sessions/"
                          +:+ py_str repr session_id +:+ "/memory")
                         headers);
  if status_code response =? 200
  then
    do memory <- call (response_json response);
    do _ <- print "✅ Memory retrieved successfully!";
    do messages <- count_of memory "messages";
    do _ <- print ("📝 Messages: " +:+ messages);
    do facts <- count_of memory "relevant_facts";
    do _ <- print ("🧠 Facts: " +:+ facts);
    sret memory
  else
    do _ <- print ("❌ Failed to retrieve memory: "
                   +:+ py_str_int (status_code response) +:+ " - "
                   +:+ text response);
    sret PNone.

Definition main : Script unit :=
  do _ <- print "🚀 Starting Zep Community Edition Tests";
  do _ <- print (rule 50);
  do healthy <- test_health;
  if negb (truthy healthy) then sret tt else
  do user_id <- create_user;
  if negb (truthy user_id) then sret tt else
  do session_id <- create_session user_id;
  if negb (truthy session_id) then sret tt else
  do added <- add_memory session_id;
  if negb (truthy added) then sret tt else
  do memory <- get_memory session_id;
  if truthy memory
  then
    do _ <- print (nl +:+ "🎉 All tests passed! Zep Community Edition is working correctly.");
    do _ <- print (nl +:+ "📊 Summary:");
    do _ <- print ("   - User ID: " +:+ py_str repr user_id);
    do _ <- print ("   - Session ID: " +:+ py_str repr session_id);
    do messages <- count_of memory "messages";
    do _ <- print ("   - Messages stored: " +:+ messages);
    do facts <- count_of memory "relevant_facts";
    do _ <- print ("   - Facts extracted: " +:+ facts);
    do _ <- print (nl +:+ "🌐 Access points:");
    do _ <- print "   - Zep API: http://localhost:8000";
    do _ <- print "   - Neo4j Browser: http://localhost:7474";
    print "   - Graphiti Service: http://localhost:8003"
  else
    print (nl +:+ "❌ Some tests failed. Check the logs above.").

(** The statuses that let [main] go on after each of its five requests. *)
Definition expected_statuses : list Z := [200; 201; 201; 201; 200].

(** The status of an exchange, if there was a reply. *)
Definition status_of (exchange : Request * Outcome) : option Z :=
  match snd exchange with
  | Replied r => Some (status_code r)
  | Failed _ => None
  end.

(** A stretch of the script that makes no request. *)
Definition quiet {A} (m : Script A) : Prop :=
  ∀ s, wire (world (fst (m s))) = wire (world s) ∧
       remote (world (fst (m s))) = remote (world s).

(** Every exchange of a run of them got the status that lets [main] go
    on. *)
Definition on_track (exchanges : list (Request * Outcome)) : Prop :=
  status_of <$> exchanges
  = Some <$> take (length exchanges) expected_statuses.

(** The line that reports success. *)
Definition pass_line : string :=
  nl +:+ "🎉 All tests passed! Zep Community Edition is working correctly.".

(** The lines a stretch of the script prints all satisfy [P]. *)
Definition says_only (P : string → Prop) {A} (m : Script A) : Prop :=
  ∀ s, ∃ new, printed (fst (m s)) = printed s ++ new ∧ Forall P new.

(** From its [n]-th request on, the script reports success only after the
    statuses that let [main] go on. *)
Definition sound_from (n : nat) (m : Script unit) : Prop :=
  ∀ s, ∃ exchanges new,
    wire (world (fst (m s))) = wire (world s) ++ exchanges ∧
    printed (fst (m s)) = printed s ++ new ∧
    (pass_line ∈ new →
     status_of <$> exchanges = Some <$> drop n expected_statuses).

End Script.

End TestZep.

(** *** Further stand-ins *)

Module Stubs.

(** A service that cannot be reached. *)
Definition unreachable (st : unit) (req : Request) : unit * Outcome :=
  (st, Failed "connection refused").

(** [200 OK] with a JSON array for body. *)
Definition empty_array : Response :=
  {| status_code := 200; text := "[]"; payload := Some (PList []) |}.

(** [204 No Content]. *)
Definition no_content : Response :=
  {| status_code := 204; text := ""; payload := None |}.

(** A message without content. *)
Definition only_role : dict := {[ "role" := PStr "user" ]}.

(** [200 OK] with an empty JSON object for body. *)
Definition empty_object : Response :=
  {| status_code := 200; text := "{}"; payload := Some (PDict ∅) |}.

(** A service that gives its replies in turn, and then cannot be reached. *)
Definition in_turn (replies : list Response) (served : nat) (req : Request)
    : nat * Outcome :=
  (S served,
   match replies !! served with
   | Some r => Replied r
   | None => Failed "connection refused"
   end).

(** Renderings that do not look at the value: enough for runs whose values
    are strings. *)
Definition repr (v : pyval) : string := "<object>".
Definition exn_str (e : exn) : string := "<error>".

(** The application right after [SimpleChatApp()]. *)
Definition started : ChatApp.Process (Store:=unit) :=
  {| ChatApp.env := Mock.world1; ChatApp.app := ChatApp.new_app;
     ChatApp.stdout := [] |}.

Definition u1 : dict := {[ "user_id" := PStr "u1" ]}.

(** The application with user [u1] logged in. *)
Definition logged_in : ChatApp.Process (Store:=unit) :=
  {| ChatApp.env := Mock.world1;
     ChatApp.app := {| ChatApp.current_user := PDict u1;
                       ChatApp.current_session := None |};
     ChatApp.stdout := [] |}.

(** The application with a conversation running. *)
Definition talking : ChatApp.Process (Store:=unit) :=
  {| ChatApp.env := Mock.world1;
     ChatApp.app := {| ChatApp.current_user := PDict u1;
                       ChatApp.current_session := Some "s1" |};
     ChatApp.stdout := [] |}.

(** The replies of a service on which the smoke test passes. *)
Definition quote : string := String (ascii_of_nat 34) "".
Definition object_text (key value : string) : string :=
  "{" +:+ quote +:+ key +:+ quote +:+ ": " +:+ quote +:+ value +:+ quote
  +:+ "}".

(** [200 OK] with a context whose [messages] is a text of five
    characters, one of them of two bytes. *)
Definition text_for_messages : Response :=
  {| status_code := 200; text := object_text "messages" "héllo";
     payload := Some (PDict {[ "messages" := PStr "héllo" ]}) |}.

Definition passing : list Response :=
  [ {| status_code := 200; text := "."; payload := None |};
    {| status_code := 201; text := object_text "user_id" "u1";
       payload := Some (PDict u1) |};
    {| status_code := 201; text := object_text "session_id" "s1";
       payload := Some (PDict {[ "session_id" := PStr "s1" ]}) |};
    {| status_code := 201; text := "{}"; payload := Some (PDict ∅) |};
    {| status_code := 200; text := object_text "summary" "shoes";
       payload := Some (PDict {[ "summary" := PStr "shoes" ]}) |} ].

(** The same with a user that exists already: the second reply is
    [200]. *)
Definition user_exists : list Response :=
  [ {| status_code := 200; text := "."; payload := None |};
    {| status_code := 200; text := object_text "user_id" "u1";
       payload := Some (PDict u1) |} ].

Definition world3 : World nat :=
  {| self := init default_base_url default_api_key;
     remote := 0%nat;
     wire := [];
     urandom := λ _, 0x0123456789abcdef0123456789abcdef%N;
     urandom_reads := 0;
     clock := λ _, {| year := 2024; month := 1; day := 2; hour := 3;
                      minute := 4; second := 5; microsecond := 0 |};
     clock_reads := 0 |}.

(** The script before its first line. *)
Definition run0 : TestZep.Run (Store:=nat) :=
  {| TestZep.world := world3; TestZep.printed := [] |}.

End Stubs.

(** The calls that end in [return response.json()]. *)
Definition returns_json (op : Op) : bool :=
  match op with
  | CreateConversation _ _ _ | GetConversationSummary _ => false
  | _ => true
  end.

(** * Properties *)

Section ClientFacts.

Context {Store : Type}.
Variable serve : Store → Request → Store * Outcome.

Abbreviation M := (M Store).
Abbreviation World := (World Store).

(** ** The monad *)

Lemma bind_ok {A B} (m : M A) (k : A → M B) w w' a :
  m w = (w', Ok a) → bind m k w = k a w'.
Proof. unfold bind. by intros ->. Qed.

Lemma bind_raise {A B} (m : M A) (k : A → M B) w w' e :
  m w = (w', Raise e) → bind m k w = (w', Raise e).
Proof. unfold bind. by intros ->. Qed.

Lemma bind_ret_r {A} (m : M A) w : bind m ret w = m w.
Proof. unfold bind, ret. by destruct (m w) as [w' [a|e]]. Qed.

(** The tail shared by the methods that return [response.json()]. *)
Lemma round_trip_run req w :
  bind (http serve req)
       (λ response, bind (raise_for_status response)
                         (λ _, response_json response)) w
  = round_trip serve req w.
Proof.
  unfold bind, http, round_trip.
  destruct (serve (remote w) req) as [store' [response|reason]]; [|done].
  unfold decoded, raise_for_status, response_json, raise, ret.
  destruct (is_error_status (status_code response)); [done|].
  by destruct (payload response).
Qed.

Lemma round_trip_wire req w :
  wire (fst (round_trip serve req w))
  = wire w ++ [(req, snd (serve (remote w) req))].
Proof. unfold round_trip. by destruct (serve (remote w) req). Qed.

Lemma round_trip_sent req w :
  sent (round_trip serve req) w = [(req, snd (serve (remote w) req))].
Proof. unfold sent. by rewrite round_trip_wire, drop_app_length. Qed.

(** ** Each method as one round trip *)

Lemma create_user_run user_id email first_name last_name metadata w :
  create_user serve user_id email first_name last_name metadata w
  = round_trip serve
      {| method := POST; url := base_url (self w) +:+ "/users";
         req_headers := headers (self w);
         json := Some (PDict {[
           "user_id" := PStr user_id;
           "email" := opt_str email;
           "first_name" := opt_str first_name;
           "last_name" := opt_str last_name;
           "metadata" := py_or (opt_dict metadata) (PDict ∅) ]}) |} w.
Proof. unfold create_user. by rewrite <-round_trip_run. Qed.

Lemma add_message_run session_id role content metadata w :
  add_message serve session_id role content metadata w
  = round_trip serve
      {| method := POST;
         url := base_url (self w) +:+ "/sessions/" +:+ session_id +:+ "/memory";
         req_headers := headers (self w);
         json := Some (PDict {[
           "messages" := PList [ PDict {[
             "role" := PStr role;
             "role_type" := PStr role;
             "content" := PStr content;
             "metadata" := py_or (opt_dict metadata) (PDict ∅) ]} ] ]}) |} w.
Proof. unfold add_message. by rewrite <-round_trip_run. Qed.

Lemma get_conversation_context_run session_id last_n w :
  get_conversation_context serve session_id last_n w
  = round_trip serve
      {| method := GET;
         url := base_url (self w) +:+ "/sessions/" +:+ session_id +:+
                "/memory?lastn=" +:+ py_str_int last_n;
         req_headers := headers (self w); json := None |} w.
Proof. unfold get_conversation_context. by rewrite <-round_trip_run. Qed.

Lemma get_user_conversations_run user_id w :
  get_user_conversations serve user_id w
  = round_trip serve
      {| method := GET;
         url := base_url (self w) +:+ "/users/" +:+ user_id +:+ "/sessions";
         req_headers := headers (self w); json := None |} w.
Proof. unfold get_user_conversations. by rewrite <-round_trip_run. Qed.

Lemma search_conversations_run user_id query w :
  search_conversations serve user_id query w
  = get_user_conversations serve user_id w.
Proof. unfold search_conversations. apply bind_ret_r. Qed.

Lemma create_conversation_run user_id session_id metadata w :
  let fresh := negb (truthy (opt_str session_id)) in
  let sid :=
    if fresh
    then generated_session_id
           (uuid_v4_of_int (urandom w (urandom_reads w) mod 2 ^ 128)%N)
    else default "" session_id in
  let req :=
    {| method := POST; url := base_url (self w) +:+ "/sessions";
       req_headers := headers (self w);
       json := Some (PDict {[
         "user_id" := PStr user_id;
         "session_id" := PStr sid;
         "metadata" := py_or (opt_dict metadata) (PDict ∅) ]}) |} in
  let out := snd (serve (remote w) req) in
  create_conversation serve user_id session_id metadata w
  = (exchanged (if fresh then fst (uuid4 w) else w)
       (fst (serve (remote w) req)) req out,
     match out with
     | Failed reason => Raise (ConnectionError reason)
     | Replied response =>
         if is_error_status (status_code response)
         then Raise (HTTPError response)
         else Ok sid
     end).
Proof.
  intros fresh sid req out. unfold create_conversation.
  fold fresh. subst out req sid.
  destruct fresh; unfold bind, uuid4, ret, get_self, requests_post, http;
    simpl;
    match goal with
    | |- context [serve ?st ?rq] =>
        destruct (serve st rq) as [store' [response|reason]]
    end; simpl; try done;
    unfold raise_for_status, raise, ret;
    by destruct (is_error_status (status_code response)).
Qed.

(** ** The loop of [add_conversation_batch] *)

Lemma format_message_ok msg (w : World) :
  well_formed msg → format_message msg w = (w, Ok (entry_of msg)).
Proof.
  intros [[role Hrole] [content Hcontent]].
  unfold format_message, entry_of, bind, getitem, dict_get, ret.
  by rewrite Hrole, Hcontent.
Qed.

Lemma format_message_fails msg (w : World) :
  ¬ well_formed msg → ∃ key, format_message msg w = (w, Raise (KeyError key)).
Proof.
  intros Hbad. unfold format_message, bind, getitem, ret, raise.
  destruct (msg !! "role") as [role|] eqn:Hrole; [|by eexists].
  destruct (msg !! "content") as [content|] eqn:Hcontent; [|by eexists].
  destruct Hbad. split; by eexists.
Qed.

Lemma format_messages_ok messages formatted (w : World) :
  Forall well_formed messages →
  format_messages messages formatted w
  = (w, Ok (formatted ++ (entry_of <$> messages))).
Proof.
  intros Hall. revert formatted.
  induction Hall as [|msg rest Hmsg _ IH]; intros formatted; simpl.
  - unfold ret. by rewrite app_nil_r.
  - erewrite bind_ok by by apply format_message_ok.
    rewrite IH. by rewrite <-app_assoc.
Qed.

Lemma format_messages_fails messages formatted (w : World) :
  ¬ Forall well_formed messages →
  ∃ key, format_messages messages formatted w = (w, Raise (KeyError key)).
Proof.
  revert formatted.
  induction messages as [|msg rest IH]; intros formatted Hbad; simpl.
  - destruct Hbad. constructor.
  - destruct (decide (well_formed msg)) as [Hmsg|Hmsg].
    + erewrite bind_ok by by apply format_message_ok.
      apply IH. intros Hrest. apply Hbad. by constructor.
    + destruct (format_message_fails msg w Hmsg) as [key Hkey].
      exists key. by erewrite bind_raise.
Qed.

Lemma add_conversation_batch_run session_id messages w :
  Forall well_formed messages →
  add_conversation_batch serve session_id messages w
  = round_trip serve
      {| method := POST;
         url := base_url (self w) +:+ "/sessions/" +:+ session_id +:+ "/memory";
         req_headers := headers (self w);
         json := Some (PDict {[
           "messages" := PList (entry_of <$> messages) ]}) |} w.
Proof.
  intros Hall. unfold add_conversation_batch.
  erewrite bind_ok by by apply format_messages_ok.
  simpl. by rewrite <-round_trip_run.
Qed.

Lemma add_conversation_batch_malformed session_id messages w :
  ¬ Forall well_formed messages →
  ∃ key,
    add_conversation_batch serve session_id messages w
    = (w, Raise (KeyError key)).
Proof.
  intros Hbad. unfold add_conversation_batch.
  destruct (format_messages_fails messages [] w Hbad) as [key Hkey].
  exists key. by erewrite bind_raise.
Qed.

(** ** The summary *)

Lemma get_conversation_summary_run session_id w w1 context messages :
  get_conversation_context serve session_id default_last_n w
    = (w1, Ok (PDict context)) →
  dict_get context "messages" (PList []) = PList messages →
  get_conversation_summary serve session_id w
  = (fst (datetime_now w1),
     Ok (PDict {[
       "session_id" := PStr session_id;
       "message_count" := PInt (Z.of_nat (length messages));
       "relevant_facts" := dict_get context "relevant_facts" (PList []);
       "context" := dict_get context "context" (PStr "");
       "last_updated" := PStr (isoformat (clock w1 (clock_reads w1))) ]})).
Proof.
  intros Hcontext Hmessages. unfold get_conversation_summary.
  erewrite bind_ok by exact Hcontext.
  unfold bind, py_get, ret. rewrite Hmessages. done.
Qed.

Lemma get_conversation_summary_raises session_id w w1 e :
  get_conversation_context serve session_id default_last_n w = (w1, Raise e) →
  get_conversation_summary serve session_id w = (w1, Raise e).
Proof. intros H. unfold get_conversation_summary. by erewrite bind_raise. Qed.

Lemma get_conversation_summary_world session_id w :
  let w1 := fst (get_conversation_context serve session_id default_last_n w) in
  let w2 := fst (get_conversation_summary serve session_id w) in
  self w2 = self w1 ∧ remote w2 = remote w1 ∧ wire w2 = wire w1.
Proof.
  unfold get_conversation_summary, bind. simpl.
  destruct (get_conversation_context serve session_id default_last_n w)
    as [w1 [context|e]]; [|done].
  destruct context as [| | | | |d]; try done.
  unfold py_get, ret.
  by destruct (dict_get d "messages" (PList [])).
Qed.

(** ** The client object is only read *)

Lemma keeps_self_ret {A} (a : A) : keeps_self (Store:=Store) (ret a).
Proof. done. Qed.

Lemma keeps_self_raise {A} e : keeps_self (Store:=Store) (raise (A:=A) e).
Proof. done. Qed.

Lemma keeps_self_bind {A B} (m : M A) (k : A → M B) :
  keeps_self m → (∀ a, keeps_self (k a)) → keeps_self (bind m k).
Proof.
  intros Hm Hk w. unfold bind. specialize (Hm w).
  destruct (m w) as [w' [a|e]]; simpl in *; [|done].
  by rewrite Hk.
Qed.

Lemma keeps_self_get_self : keeps_self (Store:=Store) get_self.
Proof. done. Qed.

Lemma keeps_self_http req : keeps_self (http serve req).
Proof.
  intros w. unfold http.
  by destruct (serve (remote w) req) as [store' [response|reason]].
Qed.

Lemma keeps_self_raise_for_status response :
  keeps_self (Store:=Store) (raise_for_status response).
Proof.
  unfold raise_for_status.
  by destruct (is_error_status (status_code response)).
Qed.

Lemma keeps_self_response_json response :
  keeps_self (Store:=Store) (response_json response).
Proof. unfold response_json. by destruct (payload response). Qed.

Lemma keeps_self_uuid4 : keeps_self (Store:=Store) uuid4.
Proof. done. Qed.

Lemma keeps_self_datetime_now : keeps_self (Store:=Store) datetime_now.
Proof. done. Qed.

Lemma keeps_self_getitem d key : keeps_self (Store:=Store) (getitem d key).
Proof. unfold getitem. by destruct (d !! key). Qed.

Lemma keeps_self_py_get v key default :
  keeps_self (Store:=Store) (py_get v key default).
Proof. by destruct v. Qed.

Lemma keeps_self_py_len v : keeps_self (Store:=Store) (py_len v).
Proof. by destruct v. Qed.

Create HintDb keeps_self discriminated.
#[local] Hint Resolve keeps_self_ret keeps_self_raise keeps_self_get_self
  keeps_self_http keeps_self_raise_for_status keeps_self_response_json
  keeps_self_uuid4 keeps_self_datetime_now keeps_self_getitem
  keeps_self_py_get keeps_self_py_len : keeps_self.

(** Walks down a chain of binds, closing each step from the hint base. *)
Ltac keeps_self_chain :=
  repeat first
    [ progress auto with keeps_self
    | apply keeps_self_bind; [|intros ?]
    | match goal with
      | |- keeps_self (if ?b then _ else _) => destruct b
      end ].

Lemma keeps_self_format_messages messages formatted :
  keeps_self (Store:=Store) (format_messages messages formatted).
Proof.
  revert formatted. induction messages as [|msg rest IH]; intros formatted.
  - apply keeps_self_ret.
  - simpl. apply keeps_self_bind; [|intros entry; apply IH].
    unfold format_message. keeps_self_chain.
Qed.
#[local] Hint Resolve keeps_self_format_messages : keeps_self.

Lemma keeps_self_run_op op : keeps_self (run_op serve op).
Proof.
  destruct op; simpl;
    unfold create_user, create_conversation, add_message,
      add_conversation_batch, get_conversation_context,
      search_conversations, get_user_conversations,
      get_conversation_summary, get_conversation_context,
      requests_post, requests_get;
    keeps_self_chain.
Qed.

(** ** What a call puts on the wire *)

Lemma sent_nil {A} (m : M A) w : fst (m w) = w → sent m w = [].
Proof. intros H. unfold sent. rewrite H. by rewrite drop_all. Qed.

Lemma sent_exchanged {A} (m : M A) w w0 store' req out :
  fst (m w) = exchanged w0 store' req out → wire w0 = wire w →
  sent m w = [(req, out)].
Proof.
  intros H Hwire. unfold sent. rewrite H. simpl.
  by rewrite Hwire, drop_app_length.
Qed.

Lemma no_messages_agree req :
  request_messages req = [] → Forall role_fields_agree (request_messages req).
Proof. intros ->. constructor. Qed.

Lemma entry_of_agrees msg : well_formed msg → role_fields_agree (entry_of msg).
Proof.
  intros [[role Hrole] _]. eexists _, role. split; [reflexivity|].
  unfold dict_get. rewrite Hrole. split; reflexivity.
Qed.

(** A computation that amounts to one round trip. *)
Lemma one_round_trip (m : M pyval) w req :
  m w = round_trip serve req w →
  let out := snd (serve (remote w) req) in
  sent m w = [(req, out)] ∧
  (∀ reason, out = Failed reason → snd (m w) = Raise (ConnectionError reason)) ∧
  (∀ r, out = Replied r → is_error_status (status_code r) = true →
     snd (m w) = Raise (HTTPError r)).
Proof.
  intros Hm. simpl. split_and!.
  - unfold sent. rewrite Hm. by rewrite round_trip_wire, drop_app_length.
  - intros reason Hout. rewrite Hm. unfold round_trip.
    destruct (serve (remote w) req) as [store' out]. simpl in *. by subst.
  - intros r Hout Herr. rewrite Hm. unfold round_trip.
    destruct (serve (remote w) req) as [store' out]. simpl in *. subst.
    simpl. by rewrite Herr.
Qed.

(** Every call either stops before any request (a batch with a message that
    lacks a mandatory field) or makes exactly one exchange; a transport
    failure and an error status are raised to the caller. *)
Lemma run_op_cases op w :
  (sent (run_op serve op) w = [] ∧
   ∃ key, snd (run_op serve op w) = Raise (KeyError key)) ∨
  (∃ req, let out := snd (serve (remote w) req) in
     sent (run_op serve op) w = [(req, out)] ∧
     (∀ reason, out = Failed reason →
        snd (run_op serve op w) = Raise (ConnectionError reason)) ∧
     (∀ r, out = Replied r → is_error_status (status_code r) = true →
        snd (run_op serve op w) = Raise (HTTPError r)) ∧
     Forall role_fields_agree (request_messages req)).
Proof.
  destruct op as [user_id email first_name last_name metadata
                 |user_id session_id metadata
                 |session_id role content metadata
                 |session_id messages
                 |session_id last_n
                 |user_id
                 |user_id query
                 |session_id]; simpl.
  - right. eexists.
    pose proof (one_round_trip _ w _
      (create_user_run user_id email first_name last_name metadata w))
      as (Hsent & Hfail & Herr).
    split_and!; [exact Hsent|exact Hfail|exact Herr|].
    by apply no_messages_agree.
  - right.
    pose proof (create_conversation_run user_id session_id metadata w) as Hrun.
    cbv zeta in Hrun.
    match type of Hrun with
    | _ = (exchanged ?before _ ?rq _, _) =>
        set (req := rq) in *; set (w0 := before) in *
    end.
    assert (wire w0 = wire w) as Hwire
      by (subst w0; by destruct (negb (truthy (opt_str session_id)))).
    exists req. unfold bind. rewrite Hrun.
    destruct (serve (remote w) req) as [store' out] eqn:Hserve. simpl.
    split_and!.
    + eapply sent_exchanged; [|exact Hwire].
      unfold bind. rewrite Hrun. simpl.
      destruct out as [r|reason];
        [destruct (is_error_status (status_code r))|]; reflexivity.
    + by intros reason ->.
    + by intros r -> ->.
    + by apply no_messages_agree.
  - right. eexists.
    pose proof (one_round_trip _ w _
      (add_message_run session_id role content metadata w))
      as (Hsent & Hfail & Herr).
    split_and!; [exact Hsent|exact Hfail|exact Herr|].
    constructor; [|constructor].
    eexists _, (PStr role). split; [reflexivity|]. by split.
  - destruct (decide (Forall well_formed messages)) as [Hall|Hbad].
    + right. eexists.
      pose proof (one_round_trip _ w _
        (add_conversation_batch_run session_id messages w Hall))
        as (Hsent & Hfail & Herr).
      split_and!; [exact Hsent|exact Hfail|exact Herr|].
      unfold request_messages. simpl.
      rewrite lookup_singleton_eq. rewrite Forall_fmap.
      eapply Forall_impl; [exact Hall|]. intros msg. apply entry_of_agrees.
    + left.
      destruct (add_conversation_batch_malformed session_id messages w Hbad)
        as [key Hkey].
      split; [|exists key; by rewrite Hkey].
      apply sent_nil. by rewrite Hkey.
  - right. eexists.
    pose proof (one_round_trip _ w _
      (get_conversation_context_run session_id last_n w))
      as (Hsent & Hfail & Herr).
    split_and!; [exact Hsent|exact Hfail|exact Herr|constructor].
  - right. eexists.
    pose proof (one_round_trip _ w _ (get_user_conversations_run user_id w))
      as (Hsent & Hfail & Herr).
    split_and!; [exact Hsent|exact Hfail|exact Herr|constructor].
  - right. eexists.
    pose proof (one_round_trip (search_conversations serve user_id query) w _
      (eq_trans (search_conversations_run user_id query w)
                (get_user_conversations_run user_id w)))
      as (Hsent & Hfail & Herr).
    split_and!; [exact Hsent|exact Hfail|exact Herr|constructor].
  - right. eexists.
    pose proof (one_round_trip _ w _
      (get_conversation_context_run session_id default_last_n w))
      as (Hsent & Hfail & Herr).
    pose proof (get_conversation_summary_world session_id w)
      as (_ & _ & Hwire).
    assert (∀ e,
      snd (get_conversation_context serve session_id default_last_n w)
        = Raise e →
      snd (get_conversation_summary serve session_id w) = Raise e) as Hraise.
    { intros e He.
      destruct (get_conversation_context serve session_id default_last_n w)
        as [w1 res] eqn:Hcontext.
      simpl in He. subst res.
      by rewrite (get_conversation_summary_raises _ _ _ _ Hcontext). }
    split_and!.
    + unfold sent in *. by rewrite Hwire.
    + intros reason Hout. by apply Hraise, Hfail.
    + intros r Hout Hstatus. by apply Hraise, Herr.
    + constructor.
Qed.

Lemma is_error_status_range status :
  is_error_status status = true ↔ 400 ≤ status < 600.
Proof. unfold is_error_status. lia. Qed.

Lemma passing_status status :
  ¬ 400 ≤ status < 600 → is_error_status status = false.
Proof. unfold is_error_status. lia. Qed.

(** ** Claims about single calls *)

(** C2, amended: when the reply to the request of a call has a status
    between 400 and 599, the call raises [HTTPError] carrying that very
    response (status code and body), returns no value, and makes no other
    request. *)
Theorem error_status_raises_http_error op w req r :
  (req, Replied r) ∈ sent (run_op serve op) w →
  400 ≤ status_code r < 600 →
  snd (run_op serve op w) = Raise (HTTPError r) ∧
  sent (run_op serve op) w = [(req, Replied r)].
Proof.
  intros Hin Hstatus. apply is_error_status_range in Hstatus.
  destruct (run_op_cases op w) as [[Hnone _]|(req' & Hsent & _ & Herr & _)].
  - rewrite Hnone in Hin. by apply elem_of_nil in Hin.
  - simpl in *. rewrite Hsent in Hin. apply list_elem_of_singleton in Hin.
    injection Hin as -> Hout. rewrite Hsent, <-Hout. split; [|done].
    by apply Herr.
Qed.

(** C3: [search_conversations] is [get_user_conversations]: same request,
    same effect on the world, same result, whatever the query. *)
Theorem search_conversations_ignores_query user_id query query' w :
  search_conversations serve user_id query w
    = get_user_conversations serve user_id w ∧
  search_conversations serve user_id query w
    = search_conversations serve user_id query' w.
Proof.
  unfold search_conversations. split.
  - apply bind_ret_r.
  - reflexivity.
Qed.

(** C4: [add_message] issues the request that [add_conversation_batch]
    issues for the one-element batch holding the same message, and returns
    the same result. *)
Theorem add_message_is_one_element_batch session_id role content metadata w :
  add_message serve session_id role content metadata w
  = add_conversation_batch serve session_id
      [single_message role content metadata] w.
Proof.
  rewrite add_message_run.
  assert (well_formed (single_message role content metadata)) as Hwf.
  { destruct metadata; split; by eexists. }
  rewrite add_conversation_batch_run by (by constructor).
  do 5 f_equal. simpl. f_equal. unfold entry_of.
  destruct metadata as [d|]; simpl; [|done].
  unfold dict_get, py_or, truthy. simpl.
  case_bool_decide as Hd; simpl; [by subst|done].
Qed.

(** C9: no call changes the client object: after any sequence of calls,
    with any arguments and whether they return or raise, [base_url] and
    [headers] are what they were. *)
Theorem configuration_is_immutable ops w :
  base_url (self (run_ops serve ops w)) = base_url (self w) ∧
  headers (self (run_ops serve ops w)) = headers (self w).
Proof.
  cut (self (run_ops serve ops w) = self w); [by intros ->|].
  revert w. induction ops as [|op rest IH]; intros w; simpl; [done|].
  rewrite IH. apply keeps_self_run_op.
Qed.

(** C10: the entry that [add_message] sends carries the caller's role both
    as [role] and as [role_type]; each entry that [add_conversation_batch]
    sends carries, at its position, the [role] of the caller's message in
    both fields, whatever [role_type] that message may hold, and a batch
    with a malformed message sends nothing; so in every request of every
    call the two fields of an entry agree, and a [role_type] supplied by the
    caller has no effect on the call. *)
Theorem role_type_mirrors_role :
  (∀ session_id role content metadata w,
     ∃ req out (e : dict),
       sent (add_message serve session_id role content metadata) w
         = [(req, out)] ∧
       request_messages req = [PDict e] ∧
       e !! "role" = Some (PStr role) ∧
       e !! "role_type" = Some (PStr role)) ∧
  (∀ session_id messages w,
     Forall well_formed messages →
     ∃ req out,
       sent (add_conversation_batch serve session_id messages) w
         = [(req, out)] ∧
       length (request_messages req) = length messages ∧
       ∀ (i : nat) msg, messages !! i = Some msg →
         ∃ (e : dict) (role : pyval),
           request_messages req !! i = Some (PDict e) ∧
           msg !! "role" = Some role ∧
           e !! "role" = Some role ∧
           e !! "role_type" = Some role) ∧
  (∀ session_id messages w,
     ¬ Forall well_formed messages →
     sent (add_conversation_batch serve session_id messages) w = []) ∧
  (∀ op w req out entry,
     (req, out) ∈ sent (run_op serve op) w →
     entry ∈ request_messages req →
     ∃ (e : dict) (role : pyval),
       entry = PDict e ∧ e !! "role" = Some role ∧
       e !! "role_type" = Some role) ∧
  (∀ session_id messages messages' w,
     Forall2 same_but_role_type messages messages' →
     add_conversation_batch serve session_id messages w
     = add_conversation_batch serve session_id messages' w).
Proof.
  split_and!.
  - intros session_id role content metadata w.
    eexists _, _, _. split_and!.
    + unfold sent. rewrite add_message_run.
      by rewrite round_trip_wire, drop_app_length.
    + reflexivity.
    + done.
    + done.
  - intros session_id messages w Hall.
    eexists _, _. split_and!.
    + unfold sent. rewrite add_conversation_batch_run by done.
      by rewrite round_trip_wire, drop_app_length.
    + unfold request_messages. simpl. apply length_fmap.
    + intros i msg Hi.
      destruct (Forall_lookup_1 _ _ _ _ Hall Hi) as [[role Hrole] _].
      eexists _, role.
      match goal with
      | |- context [request_messages ?rq] =>
          change (request_messages rq) with (entry_of <$> messages)
      end.
      rewrite list_lookup_fmap, Hi. simpl.
      split_and!; [reflexivity|done|..];
        unfold dict_get; by rewrite Hrole.
  - intros session_id messages w Hbad.
    destruct (add_conversation_batch_malformed session_id messages w Hbad)
      as [key Hrun].
    unfold sent. by rewrite Hrun, drop_all.
  - intros op w req out entry Hin Hentry.
    destruct (run_op_cases op w) as [[Hnone _]|(req' & Hsent & _ & _ & Hagree)].
    + rewrite Hnone in Hin. by apply elem_of_nil in Hin.
    + simpl in *. rewrite Hsent in Hin. apply list_elem_of_singleton in Hin.
      injection Hin as -> _.
      rewrite Forall_forall in Hagree. by apply Hagree.
  - intros session_id messages messages' w Hsame.
    unfold add_conversation_batch.
    cut (∀ formatted (w0 : World),
      format_messages messages formatted w0
      = format_messages messages' formatted w0);
      [by unfold bind; intros ->|].
    induction Hsame as [|msg msg' rest rest' Hmsg _ IH]; intros formatted w0;
      simpl; [done|].
    assert (format_message (Store:=Store) msg = format_message msg') as ->.
    { unfold format_message, getitem, dict_get.
      by rewrite !(Hmsg "role"), !(Hmsg "content"), !(Hmsg "metadata"). }
    unfold bind. destruct (format_message msg' w0) as [w' [entry|e]]; [|done].
    apply IH.
Qed.

(** C5, amended: [create_conversation] makes one request, whose body names
    the session identifier; whenever the reply has no error status it returns
    that identifier, whatever the body of the reply.  The identifier is the
    caller's own when the caller gives a non-empty one, and otherwise
    ["conv-"] followed by the first eight hexadecimal digits of a fresh
    version-4 UUID, drawn before the request is made. *)
Theorem create_conversation_returns_request_id
    user_id session_id metadata w w' res :
  create_conversation serve user_id session_id metadata w = (w', res) →
  ∃ sid req out,
    sent (create_conversation serve user_id session_id metadata) w
      = [(req, out)] ∧
    method req = POST ∧
    url req = base_url (self w) +:+ "/sessions" ∧
    json req = Some (PDict {[
      "user_id" := PStr user_id;
      "session_id" := PStr sid;
      "metadata" := py_or (opt_dict metadata) (PDict ∅) ]}) ∧
    (∀ r, out = Replied r → ¬ 400 ≤ status_code r < 600 → res = Ok sid) ∧
    (∀ sid', res = Ok sid' → sid' = sid) ∧
    (∀ s, session_id = Some s → s ≠ "" →
       sid = s ∧ urandom_reads w' = urandom_reads w) ∧
    (session_id = None ∨ session_id = Some "" →
       sid = generated_session_id
               (uuid_v4_of_int (urandom w (urandom_reads w) mod 2 ^ 128)%N) ∧
       urandom_reads w' = S (urandom_reads w)).
Proof.
  intros Hrun.
  pose proof (create_conversation_run user_id session_id metadata w) as Hcc.
  cbv zeta in Hcc. rewrite Hrun in Hcc.
  match type of Hcc with
  | _ = (exchanged ?before _ ?rq _, _) =>
      set (req := rq) in *; set (w0 := before) in *
  end.
  destruct (serve (remote w) req) as [store' out] eqn:Hserve.
  simpl in Hcc. injection Hcc as Hw' Hres.
  eexists _, req, out. split_and!.
  - eapply sent_exchanged; [by rewrite Hrun|].
    subst w0. by destruct (negb (truthy (opt_str session_id))).
  - done.
  - done.
  - reflexivity.
  - intros r -> Hok. rewrite Hres.
    destruct (is_error_status (status_code r)) eqn:Herr; [|done].
    by apply is_error_status_range in Herr.
  - intros sid' ->. destruct out as [r|reason]; [|done].
    destruct (is_error_status (status_code r)); by simplify_eq.
  - intros s -> Hs. subst w' w0. simpl.
    destruct (String.eqb_spec s ""); done.
  - intros [->| ->]; subst w' w0; done.
Qed.

(** C7: the summary is computed from one call of
    [get_conversation_context] with the default [last_n] and makes no
    exchange of its own: it names the session it was asked about, counts the
    messages of that context, passes on its facts and context text as they
    are, and stamps the result with a reading of the local clock. *)
Theorem summary_is_derived_from_context session_id w w1 context messages :
  get_conversation_context serve session_id default_last_n w
    = (w1, Ok (PDict context)) →
  dict_get context "messages" (PList []) = PList messages →
  ∃ (summary : dict) w2,
    get_conversation_summary serve session_id w = (w2, Ok (PDict summary)) ∧
    wire w2 = wire w1 ∧ remote w2 = remote w1 ∧
    summary !! "session_id" = Some (PStr session_id) ∧
    summary !! "message_count" = Some (PInt (Z.of_nat (length messages))) ∧
    summary !! "relevant_facts"
      = Some (dict_get context "relevant_facts" (PList [])) ∧
    summary !! "context" = Some (dict_get context "context" (PStr "")) ∧
    summary !! "last_updated"
      = Some (PStr (isoformat (clock w (clock_reads w)))) ∧
    clock_reads w2 = S (clock_reads w).
Proof.
  intros Hcontext Hmessages.
  rewrite (get_conversation_summary_run _ _ _ _ _ Hcontext Hmessages).
  assert (clock w1 = clock w ∧ clock_reads w1 = clock_reads w) as [Hc Hr].
  { rewrite get_conversation_context_run in Hcontext.
    unfold round_trip in Hcontext.
    destruct (serve _ _) as [store' out]. by simplify_eq. }
  rewrite Hc, Hr. eexists _, _. split; [reflexivity|].
  simpl. rewrite Hr. split_and!; reflexivity.
Qed.

(** ** Claims that involve the service *)

Lemma string_app_assoc (s1 s2 s3 : string) :
  (s1 +:+ s2) +:+ s3 = s1 +:+ (s2 +:+ s3).
Proof.
  induction s1 as [|c s1 IH]; [done|].
  change (String c ((s1 +:+ s2) +:+ s3) = String c (s1 +:+ s2 +:+ s3)).
  by rewrite IH.
Qed.

Lemma memory_url_lastn (base session_id : string) (last_n : Z) :
  base +:+ "/sessions/" +:+ session_id +:+ "/memory?lastn=" +:+
    py_str_int last_n
  = (base +:+ "/sessions/" +:+ session_id +:+ "/memory") +:+ "?lastn=" +:+
    py_str_int last_n.
Proof. by rewrite !string_app_assoc. Qed.

Lemma last_n_of_length {A} (k : nat) (history : list A) :
  (length (last_n_of k history) ≤ k)%nat.
Proof. unfold last_n_of. rewrite length_drop. lia. Qed.

Lemma last_n_of_app {A} (k : nat) (history recent : list A) :
  (length recent ≤ k)%nat →
  last_n_of k (history ++ recent)
  = last_n_of (k - length recent) history ++ recent.
Proof.
  intros Hk. unfold last_n_of. rewrite length_app.
  rewrite drop_app_le by lia. do 2 f_equal. lia.
Qed.

(** What a context request returns when the service conforms. *)
Lemma get_conversation_context_recalls held session_id last_n w w' res req r :
  MemoryService serve held →
  0 < last_n →
  get_conversation_context serve session_id last_n w = (w', res) →
  sent (get_conversation_context serve session_id last_n) w
    = [(req, Replied r)] →
  is_error_status (status_code r) = false →
  ∃ d : dict,
    res = Ok (PDict d) ∧
    d !! "messages"
      = Some (PList (last_n_of (Z.to_nat last_n)
           (held (remote w)
              (base_url (self w) +:+ "/sessions/" +:+ session_id +:+
               "/memory")))).
Proof.
  intros Hservice Hpos Hrun Hsent Hok.
  unfold sent in Hsent. rewrite get_conversation_context_run in Hrun, Hsent.
  rewrite round_trip_wire, drop_app_length in Hsent.
  unfold round_trip in Hrun.
  destruct (serve (remote w) _) as [store' out] eqn:Hserve.
  simpl in Hsent. injection Hsent as _ ->. injection Hrun as _ <-.
  rewrite memory_url_lastn in Hserve.
  destruct (service_recalls _ _ Hservice _ _ _ _ _ _ Hpos Hserve Hok)
    as (d & Hpayload & Hmessages).
  exists d. simpl. by rewrite Hok, Hpayload.
Qed.

(** C1: a batch of well-formed messages goes out as one request whose
    messages array has one entry per message of the caller, in the caller's
    order: the entry at each position carries the role (twice, as [role] and
    as [role_type]), the content and the metadata (an empty object when
    there is none) of the message at that position.  So, with a service that
    keeps the history of a session in arrival order, a later context request
    for at least as many messages returns these entries last, in that same
    order. *)
Theorem add_conversation_batch_preserves_order
    held session_id messages w w1 res :
  MemoryService serve held →
  Forall well_formed messages →
  add_conversation_batch serve session_id messages w = (w1, res) →
  ∃ entries req out,
    sent (add_conversation_batch serve session_id messages) w
      = [(req, out)] ∧
    method req = POST ∧
    url req
      = base_url (self w) +:+ "/sessions/" +:+ session_id +:+ "/memory" ∧
    json req = Some (PDict {[ "messages" := PList entries ]}) ∧
    length entries = length messages ∧
    (∀ (i : nat) msg, messages !! i = Some msg →
       ∃ role content,
         msg !! "role" = Some role ∧ msg !! "content" = Some content ∧
         entries !! i = Some (PDict {[
           "role" := role;
           "role_type" := role;
           "content" := content;
           "metadata" := match msg !! "metadata" with
                         | Some metadata => metadata
                         | None => PDict ∅
                         end ]})) ∧
    (∀ r last_n w2 res2 req2 r2,
       out = Replied r → ¬ 400 ≤ status_code r < 600 →
       0 < last_n → Z.of_nat (length messages) ≤ last_n →
       get_conversation_context serve session_id last_n w1 = (w2, res2) →
       sent (get_conversation_context serve session_id last_n) w1
         = [(req2, Replied r2)] →
       ¬ 400 ≤ status_code r2 < 600 →
       ∃ (context : dict) earlier,
         res2 = Ok (PDict context) ∧
         context !! "messages" = Some (PList (earlier ++ entries))).
Proof.
  intros Hservice Hall Hrun.
  pose proof (add_conversation_batch_run session_id messages w Hall) as Hrt.
  exists (entry_of <$> messages). eexists _, _. split_and!.
  - unfold sent. rewrite Hrt. by rewrite round_trip_wire, drop_app_length.
  - done.
  - done.
  - done.
  - apply length_fmap.
  - intros i msg Hi.
    destruct (Forall_lookup_1 _ _ _ _ Hall Hi)
      as [[role Hrole] [content Hcontent]].
    exists role, content. split_and!; [done..|].
    rewrite list_lookup_fmap, Hi. simpl. unfold entry_of, dict_get.
    by rewrite Hrole, Hcontent.
  - intros r last_n w2 res2 req2 r2 Hout Hstatus Hpos Hn Hget Hsent Hstatus2.
    rewrite Hrt in Hrun. unfold round_trip in Hrun.
    destruct (serve (remote w) _) as [store' out] eqn:Hserve.
    simpl in Hout. subst out. injection Hrun as <- _.
    apply passing_status in Hstatus as Hok.
    apply passing_status in Hstatus2 as Hok2.
    pose proof (service_appends _ _ Hservice _ _ _ _ _ _ Hserve Hok)
      as Happend.
    destruct (get_conversation_context_recalls _ _ _ _ _ _ _ _
                Hservice Hpos Hget Hsent Hok2) as (d & -> & Hmessages).
    simpl in Hmessages. rewrite Happend in Hmessages.
    rewrite last_n_of_app in Hmessages by (rewrite length_fmap; lia).
    by eexists d, _.
Qed.

(** C6: with a service that answers a context request by the most recent
    [last_n] messages it holds, [get_conversation_context] with a positive
    [last_n] never returns more than [last_n] messages. *)
Theorem context_has_at_most_last_n held session_id last_n w w' context :
  MemoryService serve held →
  0 < last_n →
  get_conversation_context serve session_id last_n w = (w', Ok context) →
  ∃ (d : dict) messages,
    context = PDict d ∧
    d !! "messages" = Some (PList messages) ∧
    Z.of_nat (length messages) ≤ last_n.
Proof.
  intros Hservice Hpos Hrun.
  pose proof Hrun as Hrt. rewrite get_conversation_context_run in Hrt.
  unfold round_trip in Hrt.
  destruct (serve (remote w) _) as [store' out] eqn:Hserve.
  injection Hrt as _ Hres.
  destruct out as [r|reason]; [|done]. simpl in Hres.
  destruct (is_error_status (status_code r)) eqn:Hok; [done|].
  edestruct (get_conversation_context_recalls held session_id last_n w)
    as (d & Hd & Hmessages); [done|done|exact Hrun| |exact Hok|].
  { unfold sent. rewrite get_conversation_context_run, round_trip_wire.
    rewrite drop_app_length. by rewrite Hserve. }
  injection Hd as ->. eexists d, _. split_and!; [done|exact Hmessages|].
  pose proof (last_n_of_length (Z.to_nat last_n)
    (held (remote w)
       (base_url (self w) +:+ "/sessions/" +:+ session_id +:+ "/memory"))).
  lia.
Qed.

End ClientFacts.

(** ** The generated identifier *)

Section Hex.

Local Open Scope N_scope.

Lemma string_length_app (s t : string) :
  String.length (s +:+ t) = (String.length s + String.length t)%nat.
Proof.
  induction s as [|c s IH]; [done|].
  change (S (String.length (s +:+ t))
          = S (String.length s + String.length t)).
  by rewrite IH.
Qed.

Lemma string_app_inj_length (s1 s2 t1 t2 : string) :
  String.length s1 = String.length s2 →
  s1 +:+ t1 = s2 +:+ t2 → s1 = s2 ∧ t1 = t2.
Proof.
  revert s2. induction s1 as [|c s1 IH]; intros [|c2 s2] Hlen Heq;
    try discriminate.
  - done.
  - change (String c (s1 +:+ t1) = String c2 (s2 +:+ t2)) in Heq.
    injection Heq as -> Heq. injection Hlen as Hlen.
    destruct (IH s2 Hlen Heq) as [-> ->]. done.
Qed.

Lemma substring_prefix (s t : string) :
  String.substring 0 (String.length s) (s +:+ t) = s.
Proof.
  induction s as [|c s IH]; simpl.
  - by destruct t.
  - change (String c (String.substring 0 (String.length s) (s +:+ t))
            = String c s).
    by rewrite IH.
Qed.

Lemma hex_char_inj (a b : N) :
  a < 16 → b < 16 → hex_char a = hex_char b → a = b.
Proof.
  intros Ha Hb.
  assert (a = 0 ∨ a = 1 ∨ a = 2 ∨ a = 3 ∨ a = 4 ∨ a = 5 ∨ a = 6 ∨ a = 7 ∨
          a = 8 ∨ a = 9 ∨ a = 10 ∨ a = 11 ∨ a = 12 ∨ a = 13 ∨ a = 14 ∨
          a = 15) as Hcases by lia.
  assert (b = 0 ∨ b = 1 ∨ b = 2 ∨ b = 3 ∨ b = 4 ∨ b = 5 ∨ b = 6 ∨ b = 7 ∨
          b = 8 ∨ b = 9 ∨ b = 10 ∨ b = 11 ∨ b = 12 ∨ b = 13 ∨ b = 14 ∨
          b = 15) as Hcases' by lia.
  clear Ha Hb.
  repeat destruct Hcases as [->|Hcases]; try subst a;
    repeat destruct Hcases' as [->|Hcases']; try subst b;
    simpl; intros H; first [reflexivity | discriminate H].
Qed.

Lemma hex_digits_acc (width : nat) (n : N) (acc : string) :
  hex_digits width n acc = hex_digits width n "" +:+ acc.
Proof.
  revert n acc. induction width as [|k IH]; intros n acc; simpl; [done|].
  rewrite IH. rewrite (IH _ (String _ "")).
  by rewrite string_app_assoc.
Qed.

Lemma hex_digits_length (width : nat) (n : N) :
  String.length (hex_digits width n "") = width.
Proof.
  revert n. induction width as [|k IH]; intros n; simpl; [done|].
  rewrite hex_digits_acc, string_length_app, IH. simpl. lia.
Qed.

Lemma hex_digits_split (low high : nat) (n : N) (acc : string) :
  hex_digits (low + high) n acc
  = hex_digits high (n / 16 ^ N.of_nat low) (hex_digits low n acc).
Proof.
  revert n acc. induction low as [|k IH]; intros n acc.
  - simpl. by rewrite N.div_1_r.
  - rewrite Nat2N.inj_succ, N.pow_succ_r', <-N.Div0.div_div.
    change (hex_digits (S k + high) n acc)
      with (hex_digits (k + high) (n / 16)
              (String (hex_char (n mod 16)) acc)).
    by rewrite IH.
Qed.

Lemma hex_digits_inj (width : nat) (n m : N) :
  hex_digits width n "" = hex_digits width m "" →
  n mod 16 ^ N.of_nat width = m mod 16 ^ N.of_nat width.
Proof.
  revert n m. induction width as [|k IH]; intros n m Heq.
  - simpl. by rewrite !N.mod_1_r.
  - simpl in Heq. rewrite (hex_digits_acc k (n / 16)) in Heq.
    rewrite (hex_digits_acc k (m / 16)) in Heq.
    apply string_app_inj_length in Heq as [Hhigh Hlow];
      [|by rewrite !hex_digits_length].
    apply IH in Hhigh. injection Hlow as Hlow.
    apply hex_char_inj in Hlow; [|by apply N.mod_lt..].
    rewrite Nat2N.inj_succ, N.pow_succ_r'.
    rewrite !N.Div0.mod_mul_r. by rewrite Hhigh, Hlow.
Qed.

(** Forcing the version and the variant leaves the top 32 bits alone. *)
Lemma uuid_v4_of_int_top (x : N) : uuid_v4_of_int x / 2 ^ 96 = x / 2 ^ 96.
Proof.
  rewrite <-!N.shiftr_div_pow2. apply N.bits_inj. intros i.
  rewrite !N.shiftr_spec by lia. unfold uuid_v4_of_int.
  assert (∀ c k, N.log2 c + k < 96 →
            N.testbit (N.shiftl c k) (i + 96) = false) as Hmask.
  { intros c k Hck. rewrite N.shiftl_spec_high' by lia.
    apply N.bits_above_log2. lia. }
  rewrite N.lor_spec, N.ldiff_spec, N.lor_spec, N.ldiff_spec.
  rewrite !Hmask by (vm_compute; done).
  by rewrite !andb_true_r, !orb_false_r.
Qed.

Lemma session_id_of_random_top32 (r : N) :
  session_id_of_random r = "conv-" +:+ hex_digits 8 (top32 r) "".
Proof.
  unfold session_id_of_random, generated_session_id, uuid_hex, top32.
  f_equal. rewrite (hex_digits_split 24 8), hex_digits_acc.
  rewrite <-(hex_digits_length 8 (uuid_v4_of_int (r mod 2 ^ 128)
                                   / 16 ^ N.of_nat 24)) at 1.
  rewrite substring_prefix. f_equal.
  change (16 ^ N.of_nat 24) with (2 ^ 96). apply uuid_v4_of_int_top.
Qed.

Lemma top32_bound (r : N) : top32 r < 2 ^ 32.
Proof.
  unfold top32. apply N.Div0.div_lt_upper_bound.
  change (2 ^ 96 * 2 ^ 32) with (2 ^ 128). by apply N.mod_lt.
Qed.

Lemma session_id_of_random_eq (r r' : N) :
  session_id_of_random r = session_id_of_random r' ↔ top32 r = top32 r'.
Proof.
  rewrite !session_id_of_random_top32. split.
  - intros Heq. apply (inj (String.app "conv-")) in Heq.
    apply hex_digits_inj in Heq.
    change (16 ^ N.of_nat 8) with (2 ^ 32) in Heq.
    rewrite !N.mod_small in Heq by apply top32_bound. done.
  - by intros ->.
Qed.

Lemma session_id_of_random_length (r : N) :
  String.length (session_id_of_random r) = 13%nat.
Proof.
  rewrite session_id_of_random_top32, string_length_app, hex_digits_length.
  done.
Qed.

End Hex.

(** ** Counting the runs of draws in which two keys coincide *)

Section Collisions.

Context {A K : Type} `{EqDecision K}.
Variable key : A → K.
Variable U : list A.
Variable c : nat.

(** No key is shared by more than [c] values of [U]. *)
Hypothesis fibre : ∀ k, (length (filter (λ u, key u = k) U) ≤ c)%nat.

Local Open Scope nat_scope.

Lemma length_filter_or (P Q : A → Prop)
    `{∀ x, Decision (P x)} `{∀ x, Decision (Q x)} (l : list A) :
  length (filter (λ x, P x ∨ Q x) l)
  ≤ length (filter P l) + length (filter Q l).
Proof.
  induction l as [|x l IH]; [done|].
  rewrite !filter_cons.
  destruct (decide (P x ∨ Q x)) as [[HP|HQ]|Hno];
    destruct (decide (P x)); destruct (decide (Q x)); simpl; try lia;
    tauto.
Qed.

Lemma length_filter_fmap {B} (f : A → B) (P : B → Prop)
    `{∀ y, Decision (P y)} (l : list A) :
  length (filter P (f <$> l)) = length (filter (λ x, P (f x)) l).
Proof.
  induction l as [|x l IH]; [done|].
  rewrite fmap_cons, !filter_cons.
  destruct (decide (P (f x))); simpl; by rewrite IH.
Qed.

Lemma filter_none (l : list A) : filter (λ _ : A, False) l = [].
Proof.
  induction l as [|x l IH]; [done|].
  rewrite filter_cons. by destruct (decide False).
Qed.

(** The values of [U] whose key is among [ks]. *)
Lemma hits_bound (ks : list K) :
  length (filter (λ u, key u ∈ ks) U) ≤ c * length ks.
Proof.
  induction ks as [|k ks IH].
  - rewrite (list_filter_iff _ (λ _, False)) by (intros u; set_solver).
    rewrite filter_none. simpl. lia.
  - rewrite (list_filter_iff _ (λ u, key u = k ∨ key u ∈ ks))
      by (intros u; set_solver).
    etrans; [apply length_filter_or|]. specialize (fibre k). simpl. lia.
Qed.

Lemma collides_cons (u : A) (s : list A) :
  collides key (u :: s) ↔ key u ∈ key <$> s ∨ collides key s.
Proof.
  unfold collides. rewrite fmap_cons, NoDup_cons. split.
  - intros Hno. destruct (decide (key u ∈ key <$> s)); [by left|].
    right. intros Hnodup. by apply Hno.
  - intros [Hin|Hno] [Hnotin Hnodup]; [by apply Hnotin|by apply Hno].
Qed.

(** Extending one run by each value of [U]. *)
Lemma extensions_bound (s : list A) :
  length (filter (collides key) ((λ u, u :: s) <$> U))
  ≤ if decide (collides key s) then length U else c * length s.
Proof.
  rewrite length_filter_fmap.
  destruct (decide (collides key s)) as [Hs|Hs].
  - apply length_filter.
  - rewrite (list_filter_iff _ (λ u, key u ∈ key <$> s)).
    + etrans; [apply hits_bound|]. by rewrite length_fmap.
    + intros u. rewrite collides_cons. tauto.
Qed.

Lemma draws_length (n : nat) : length (draws U n) = length U ^ n.
Proof.
  induction n as [|n IH]; [done|].
  simpl draws. rewrite length_flat_map.
  rewrite Nat.pow_succ_r', <-IH. clear IH.
  induction (draws U n) as [|s l IHl]; simpl; [lia|].
  rewrite length_fmap, IHl. lia.
Qed.

Lemma draws_run_length (n : nat) (s : list A) :
  s ∈ draws U n → length s = n.
Proof.
  revert s. induction n as [|n IH]; intros s Hs.
  - apply list_elem_of_singleton in Hs. by subst.
  - simpl in Hs. apply list_elem_of_In, in_flat_map in Hs as (s' & Hs' & Hs).
    apply list_elem_of_In, list_elem_of_fmap in Hs as (u & -> & _).
    simpl. f_equal. apply IH. by apply list_elem_of_In.
Qed.

Lemma colliding_extensions (n : nat) (runs : list (list A)) :
  (∀ s, s ∈ runs → length s = n) →
  length (filter (collides key) (flat_map (λ s, (λ u, u :: s) <$> U) runs))
  ≤ length U * length (filter (collides key) runs) + c * n * length runs.
Proof.
  induction runs as [|s runs IH]; intros Hlen; [simpl; lia|].
  simpl flat_map. rewrite filter_app, length_app.
  pose proof (extensions_bound s) as Hs.
  rewrite (Hlen s) in Hs by left.
  specialize (IH (λ s' Hs', Hlen s' (list_elem_of_further _ _ _ Hs'))).
  rewrite filter_cons. simpl length.
  destruct (decide (collides key s)); simpl length; nia.
Qed.

(** Among the runs of [n] draws, those with two equal keys are at most
    [c * n * (n - 1) / 2] for every [length U] runs. *)
Lemma colliding_draws_bound (n : nat) :
  2 * length U * length (filter (collides key) (draws U n))
  ≤ c * n * (n - 1) * length (draws U n).
Proof.
  induction n as [|n IH].
  - change (draws U 0) with [[] : list A].
    rewrite filter_cons_False; [simpl; lia|].
    intros Hno. apply Hno. constructor.
  - pose proof (colliding_extensions n (draws U n)
                  (λ s, draws_run_length n s)) as Hstep.
    change (draws U (S n))
      with (flat_map (λ s, (λ u, u :: s) <$> U) (draws U n)) at 1.
    rewrite (draws_length (S n)), Nat.pow_succ_r', <-draws_length.
    set (d' := length (filter _ (flat_map _ _))) in *.
    set (d := length (filter _ (draws U n))) in *.
    set (t := length (draws U n)) in *.
    set (w := length U) in *.
    destruct n as [|m]; [simpl in *; nia|].
    replace (S (S m) - 1) with (S m) by lia.
    replace (S m - 1) with m in IH by lia.
    nia.
Qed.

End Collisions.

(** ** The sixteen random bytes *)

Lemma NoDup_values_below (V : Z) : NoDup (Z.to_N <$> seqZ 0 V).
Proof.
  apply NoDup_fmap_2_strong; [|apply NoDup_seqZ].
  intros x y Hx Hy Heq. apply elem_of_seqZ in Hx, Hy. lia.
Qed.

Lemma elem_of_values_below (V : Z) (r : N) :
  r ∈ Z.to_N <$> seqZ 0 V ↔ Z.of_N r < V.
Proof.
  rewrite list_elem_of_fmap. split.
  - intros (z & -> & Hz). apply elem_of_seqZ in Hz. lia.
  - intros Hr. exists (Z.of_N r). split; [lia|]. apply elem_of_seqZ. lia.
Qed.

Section Fibres.

Context {K : Type} `{EqDecision K}.
Variable f : N → K.
Variable V : Z.
Variable M : N.

(** Values below [V] with the same image under [f] lie in one block of
    [M] consecutive values. *)
Hypothesis same_block : ∀ r r' : N,
  r ∈ Z.to_N <$> seqZ 0 V → r' ∈ Z.to_N <$> seqZ 0 V →
  f r = f r' → (r / M = r' / M)%N.
Hypothesis block_size : (0 < M)%N.

Lemma fibre_bound (k : K) :
  (length (filter (λ r, f r = k) (Z.to_N <$> seqZ 0 V)) ≤ N.to_nat M)%nat.
Proof.
  destruct (filter (λ r, f r = k) (Z.to_N <$> seqZ 0 V))
    as [|r0 rest] eqn:Hfibre; [simpl; lia|].
  rewrite <-Hfibre.
  assert (r0 ∈ filter (λ r, f r = k) (Z.to_N <$> seqZ 0 V)) as Hr0
    by (rewrite Hfibre; left).
  apply list_elem_of_filter in Hr0 as [Hk0 Hr0].
  set (q := (r0 / M)%N).
  transitivity (length (Z.to_N <$> seqZ (Z.of_N (q * M)) (Z.of_N M))).
  - apply submseteq_length, NoDup_submseteq.
    + apply NoDup_filter, NoDup_values_below.
    + intros r Hr. apply list_elem_of_filter in Hr as [Hk Hr].
      assert (r / M = q)%N as Hq by (apply same_block; congruence).
      apply list_elem_of_fmap. exists (Z.of_N r). split; [lia|].
      apply elem_of_seqZ.
      pose proof (N.div_mod r M ltac:(lia)) as Hdiv.
      pose proof (N.mod_lt r M ltac:(lia)) as Hmod.
      rewrite Hq in Hdiv. clear Hq.
      generalize dependent (r `mod` M)%N. intros m Hdiv Hmod.
      clearbody q. lia.
  - rewrite length_fmap, length_seqZ. lia.
Qed.

End Fibres.

Lemma elem_of_sixteen_bytes (r : N) : r ∈ sixteen_bytes ↔ (r < 2 ^ 128)%N.
Proof. unfold sixteen_bytes. rewrite elem_of_values_below. lia. Qed.

Lemma length_sixteen_bytes :
  Z.of_nat (length sixteen_bytes) = 2 ^ 128.
Proof.
  unfold sixteen_bytes. rewrite length_fmap, length_seqZ. lia.
Qed.

Lemma session_id_fibre (id : string) :
  (length (filter (λ r, session_id_of_random r = id) sixteen_bytes)
   ≤ N.to_nat (2 ^ 96))%nat.
Proof.
  apply fibre_bound; [|done].
  intros r r' Hr Hr' Heq.
  apply elem_of_sixteen_bytes in Hr, Hr'.
  apply session_id_of_random_eq in Heq. unfold top32 in Heq.
  by rewrite !N.mod_small in Heq.
Qed.

(** ** Identifiers of sessions created without one *)

Section Identifiers.

Context {Store : Type}.
Variable serve : Store → Request → Store * Outcome.

Lemma create_conversation_fresh user_id metadata (w : World Store) :
  let sid := session_id_of_random (urandom w (urandom_reads w)) in
  ∃ store' req out,
    create_conversation serve user_id None metadata w
      = (exchanged (fst (uuid4 w)) store' req out,
         match out with
         | Failed reason => Raise (ConnectionError reason)
         | Replied response =>
             if is_error_status (status_code response)
             then Raise (HTTPError response)
             else Ok sid
         end) ∧
    session_id_sent req = Some sid.
Proof.
  pose proof (create_conversation_run serve user_id None metadata w) as Hrun.
  cbv zeta in Hrun. eexists _, _, _. split; [exact Hrun|done].
Qed.

Lemma repeated_create_conversation n user_id metadata (w : World Store) :
  ∃ new,
    wire (run_ops serve (replicate n (CreateConversation user_id None metadata))
            w) = wire w ++ new ∧
    ids_sent new
      = session_id_of_random <$> (urandom w <$> seq (urandom_reads w) n).
Proof.
  revert w. induction n as [|n IH]; intros w.
  - exists []. by rewrite app_nil_r.
  - destruct (create_conversation_fresh user_id metadata w)
      as (store' & req & out & Hrun & Hsent).
    simpl replicate. simpl run_ops. unfold bind at 1. rewrite Hrun.
    set (w1 := exchanged (fst (uuid4 w)) store' req out).
    assert (fst (let (w', r) := (w1, match out with
               | Replied response =>
                   if is_error_status (status_code response)
                   then Raise (HTTPError response)
                   else Ok (session_id_of_random (urandom w (urandom_reads w)))
               | Failed reason => Raise (ConnectionError reason)
               end) in
             match r with
             | Ok a => ret (PStr a) w'
             | Raise e => (w', Raise e)
             end) = w1) as ->.
    { destruct out as [r|reason];
        [destruct (is_error_status (status_code r))|]; done. }
    destruct (IH w1) as (new & Hwire & Hids).
    exists ((req, out) :: new). split.
    + rewrite Hwire. subst w1. simpl. by rewrite <-app_assoc.
    + unfold ids_sent in *. simpl omap. rewrite Hsent. simpl.
      f_equal. exact Hids.
Qed.

End Identifiers.

(** C8: a session created without an explicit identifier gets one that is
    not empty (["conv-"] and eight hexadecimal digits), determined by the
    sixteen random bytes read for it; [n] such calls in a row name the
    identifiers of [n] successive reads; two reads give the same identifier
    exactly when their first four bytes agree; and of all equally likely
    runs of 1000 reads, fewer than one in 8598 (at most 999000 in [2 ^ 33])
    contains two equal identifiers. *)
Theorem generated_session_ids_are_unique :
  (∀ r, session_id_of_random r ≠ "" ∧
        String.length (session_id_of_random r) = 13%nat) ∧
  (∀ {Store} (serve : Store → Request → Store * Outcome) user_id metadata w
     sid,
     snd (create_conversation serve user_id None metadata w) = Ok sid →
     sid = session_id_of_random (urandom w (urandom_reads w))) ∧
  (∀ {Store} (serve : Store → Request → Store * Outcome) n user_id metadata w,
     ∃ new,
       wire (run_ops serve
               (replicate n (CreateConversation user_id None metadata)) w)
         = wire w ++ new ∧
       ids_sent new
         = session_id_of_random <$> (urandom w <$> seq (urandom_reads w) n)) ∧
  (∀ r r',
     session_id_of_random r = session_id_of_random r' ↔ top32 r = top32 r') ∧
  2 ^ 33 * Z.of_nat (length (filter (collides session_id_of_random)
                               (draws sixteen_bytes 1000)))
    ≤ 999000 * Z.of_nat (length (draws sixteen_bytes 1000)).
Proof.
  split_and!.
  - intros r. split; [|apply session_id_of_random_length].
    rewrite session_id_of_random_top32. done.
  - intros Store serve user_id metadata w sid Hsid.
    destruct (create_conversation_fresh serve user_id metadata w)
      as (store' & req & out & Hrun & _).
    rewrite Hrun in Hsid. simpl in Hsid.
    destruct out as [r|reason]; [|done].
    destruct (is_error_status (status_code r)); by simplify_eq.
  - intros Store serve. apply repeated_create_conversation.
  - apply session_id_of_random_eq.
  - pose proof (colliding_draws_bound session_id_of_random sixteen_bytes
                  (N.to_nat (2 ^ 96)) session_id_fibre 1000) as Hbound.
    pose proof length_sixteen_bytes as Hlen.
    set (d := length (filter _ _)) in *.
    set (t := length (draws _ _)) in *.
    set (u := length sixteen_bytes) in *.
    clearbody d t u. nia.
Qed.

(** ** The stand-in service conforms *)

Module MockFacts.
Import Mock.

Lemma list_ascii_of_string_app (s1 s2 : string) :
  list_ascii_of_string (s1 +:+ s2)
  = list_ascii_of_string s1 ++ list_ascii_of_string s2.
Proof.
  induction s1 as [|c s1 IH]; [done|].
  change (c :: list_ascii_of_string (s1 +:+ s2)
          = c :: (list_ascii_of_string s1 ++ list_ascii_of_string s2)).
  by rewrite IH.
Qed.

Lemma decimal_digit (d : N) :
  (d < 10)%N →
  is_digit (pretty_N_char d) = true ∧ digit_value (pretty_N_char d) = d.
Proof.
  intros Hd.
  assert (d = 0 ∨ d = 1 ∨ d = 2 ∨ d = 3 ∨ d = 4 ∨ d = 5 ∨ d = 6 ∨ d = 7
          ∨ d = 8 ∨ d = 9)%N as Hcases by lia.
  repeat destruct Hcases as [->|Hcases]; try subst d; by vm_compute.
Qed.

(** The digits [pretty_N_go] writes in front of [s], read backwards. *)
Lemma pretty_N_go_digits (x : N) (s : string) :
  ∃ ds,
    rev (list_ascii_of_string (pretty_N_go x s))
      = rev (list_ascii_of_string s) ++ ds ∧
    forallb is_digit ds = true ∧
    lsf_value ds = x ∧
    ((0 < x)%N → ds ≠ []).
Proof.
  revert s. induction (N.lt_wf_0 x) as [x _ IH]; intros s.
  destruct (decide (x = 0%N)) as [->|Hx].
  - exists []. rewrite pretty_N_go_0, app_nil_r. split_and!; [done..|lia].
  - rewrite pretty_N_go_step by lia.
    destruct (IH (x `div` 10)%N) with
      (s := String (pretty_N_char (x `mod` 10)) s)
      as (ds & Hrev & Hdigits & Hvalue & _).
    { apply N.div_lt; lia. }
    destruct (decimal_digit (x `mod` 10)%N) as [Hd Hv].
    { apply N.mod_lt. lia. }
    exists (pretty_N_char (x `mod` 10) :: ds). split_and!.
    + rewrite Hrev. simpl. by rewrite <-app_assoc.
    + simpl. by rewrite Hd, Hdigits.
    + simpl. rewrite Hv, Hvalue.
      rewrite (N.div_mod x 10) at 3 by lia. lia.
    + done.
Qed.

Lemma span_digits_stop ds c rest :
  forallb is_digit ds = true → is_digit c = false →
  span_digits (ds ++ c :: rest) = (ds, c :: rest).
Proof.
  intros Hds Hc. induction ds as [|d ds IH]; simpl in *.
  - by rewrite Hc.
  - apply andb_prop in Hds as [Hd Hds]. rewrite Hd, IH by done. done.
Qed.

Lemma parse_lastn_url (path : string) (k : Z) :
  0 < k →
  parse_lastn (path +:+ "?lastn=" +:+ py_str_int k) = Some (path, Z.to_N k).
Proof.
  intros Hk. destruct k as [|p|p]; [lia| |lia].
  unfold py_str_int, pretty, pretty_Z, pretty, pretty_positive, pretty,
    pretty_N.
  rewrite decide_False by done.
  destruct (pretty_N_go_digits (N.pos p) "")
    as (ds & Hrev & Hdigits & Hvalue & Hne).
  unfold parse_lastn.
  rewrite !list_ascii_of_string_app, !rev_app_distr, Hrev.
  simpl rev at 1. rewrite app_nil_l.
  change (rev (list_ascii_of_string "?lastn="))
    with ("="%char :: rev (list_ascii_of_string "?lastn")).
  rewrite <-app_assoc. simpl app at 2.
  rewrite span_digits_stop by done.
  destruct ds as [|d ds]; [by destruct Hne|].
  change (strip_prefix _ _) with (Some (rev (list_ascii_of_string path))).
  cbv iota beta.
  rewrite rev_involutive, string_of_list_ascii_of_string.
  by rewrite Hvalue.
Qed.

Lemma serve_conforms : MemoryService serve held.
Proof.
  split.
  - intros st path hs entries st' r Hserve _.
    unfold serve in Hserve. simpl in Hserve.
    rewrite lookup_singleton_eq in Hserve. injection Hserve as <- _.
    unfold held. rewrite flat_map_app. simpl.
    by rewrite String.eqb_refl, app_nil_r.
  - intros st path hs k st' r Hk Hserve _.
    unfold serve in Hserve. simpl in Hserve.
    rewrite parse_lastn_url in Hserve by done.
    injection Hserve as _ <-. eexists. split; [reflexivity|].
    rewrite lookup_insert_eq. by rewrite Z_N_nat.
Qed.

End MockFacts.

(** * Concrete runs *)

Module Runs.
Import Mock.

(** The scenario of the specification, run against the stand-in service:
    the context of [s1] holds the two messages in the order given. *)
Example scenario_two_messages :
  ∃ context : dict,
    snd (get_conversation_context serve "s1" 10 world2) = Ok (PDict context) ∧
    context !! "messages" = Some (PList [entry_of hello; entry_of hi]) ∧
    (entry_of hello = PDict {[
       "role" := PStr "user"; "role_type" := PStr "user";
       "content" := PStr "hello"; "metadata" := PDict ∅ ]}).
Proof. eexists. split_and!; by vm_compute. Qed.

Lemma add_conversation_batch_preserves_order_witness :
  ∃ req out,
    sent (add_conversation_batch serve "s1" [hello; hi]) world0
      = [(req, out)] ∧
    json req = Some (PDict {[ "messages" := PList [
      PDict {[ "role" := PStr "user"; "role_type" := PStr "user";
               "content" := PStr "hello"; "metadata" := PDict ∅ ]};
      PDict {[ "role" := PStr "assistant"; "role_type" := PStr "assistant";
               "content" := PStr "hi"; "metadata" := PDict ∅ ]} ] ]}).
Proof.
  destruct (add_conversation_batch_preserves_order serve held "s1"
              [hello; hi] world0 world2
              (snd (add_conversation_batch serve "s1" [hello; hi] world0)))
    as (entries & req & out & Hsent & _ & _ & Hjson & Hlen & Hentry & _).
  - apply MockFacts.serve_conforms.
  - repeat constructor; by eexists.
  - apply surjective_pairing.
  - exists req, out. split; [exact Hsent|]. rewrite Hjson.
    destruct (Hentry 0%nat hello eq_refl)
      as (role0 & content0 & Hrole0 & Hcontent0 & Hentry0).
    destruct (Hentry 1%nat hi eq_refl)
      as (role1 & content1 & Hrole1 & Hcontent1 & Hentry1).
    vm_compute in Hrole0, Hcontent0, Hrole1, Hcontent1.
    injection Hrole0 as <-. injection Hcontent0 as <-.
    injection Hrole1 as <-. injection Hcontent1 as <-.
    destruct entries as [|entry0 [|entry1 [|entry2 entries]]];
      try discriminate Hlen.
    injection Hentry0 as ->. injection Hentry1 as ->.
    reflexivity.
Defined.

Lemma error_status_raises_http_error_witness :
  snd (run_op (always unauthorized) (GetUserConversations "u1") world1)
    = Raise (HTTPError unauthorized) ∧
  sent (run_op (always unauthorized) (GetUserConversations "u1")) world1
    = [(sessions_request, Replied unauthorized)].
Proof.
  apply error_status_raises_http_error.
  - vm_compute. left.
  - simpl. lia.
Defined.

(** C2 as stated fails: a reply with status 304 is not in the 2xx range, yet
    [create_conversation] returns normally, and [get_user_conversations]
    raises a decoding error that carries no status. *)
Lemma passing_status_returns_normally :
  sent (run_op (always not_modified)
          (CreateConversation "u1" (Some "s1") None)) world1
    = [(create_session_request, Replied not_modified)] ∧
  status_code not_modified = 304 ∧
  snd (run_op (always not_modified)
         (CreateConversation "u1" (Some "s1") None) world1)
    = Ok (PStr "s1") ∧
  snd (run_op (always not_modified) (GetUserConversations "u1") world1)
    = Raise (JSONDecodeError "").
Proof. split_and!; by vm_compute. Qed.

(** With an explicit [None] under the [metadata] key, which the caller's
    message type does not call for, the batch sends [null] where
    [add_message] sends an empty object. *)
Example explicit_none_metadata_is_sent_as_null :
  request_messages <$> (fst <$>
    sent (add_conversation_batch serve "s1"
            [<["metadata" := PNone]> hello]) world0)
    = [[PDict {[ "role" := PStr "user"; "role_type" := PStr "user";
                 "content" := PStr "hello"; "metadata" := PNone ]}]] ∧
  request_messages <$> (fst <$>
    sent (add_message serve "s1" "user" "hello" None) world0)
    = [[PDict {[ "role" := PStr "user"; "role_type" := PStr "user";
                 "content" := PStr "hello"; "metadata" := PDict ∅ ]}]].
Proof. split; by vm_compute. Qed.

Lemma create_conversation_returns_request_id_witness :
  snd (create_conversation (always created) "u1" (Some "s1") None world1)
    = Ok "s1".
Proof.
  destruct (create_conversation_returns_request_id (always created)
              "u1" (Some "s1") None world1 _ _ (surjective_pairing _))
    as (sid & req & out & Hsent & _ & _ & _ & Hres & _ & Hgiven & _).
  destruct (Hgiven "s1" eq_refl) as [-> _]; [done|].
  apply (Hres created); [|simpl; lia].
  vm_compute in Hsent. by injection Hsent.
Defined.

(** C5 as stated fails: an empty session identifier supplied by the caller
    is not returned; a generated one is. *)
Lemma empty_session_id_is_replaced :
  snd (create_conversation (always created) "u1" (Some "") None world1)
    = Ok "conv-01234567" ∧
  "conv-01234567" ≠ "".
Proof. split; [by vm_compute|done]. Qed.

Lemma context_has_at_most_last_n_witness :
  ∃ (d : dict) messages,
    PDict (context_s1 1) = PDict d ∧
    d !! "messages" = Some (PList messages) ∧
    Z.of_nat (length messages) ≤ 1.
Proof.
  apply (context_has_at_most_last_n serve held "s1" 1 world2
           (fst (get_conversation_context serve "s1" 1 world2))).
  - apply MockFacts.serve_conforms.
  - lia.
  - by vm_compute.
Defined.

Lemma summary_is_derived_from_context_witness :
  ∃ (summary : dict) w2,
    get_conversation_summary serve "s1" world2 = (w2, Ok (PDict summary)) ∧
    summary !! "message_count" = Some (PInt 2) ∧
    summary !! "last_updated" = Some (PStr "2024-01-02T03:04:05").
Proof.
  destruct (summary_is_derived_from_context serve "s1" world2
              (fst (get_conversation_context serve "s1" default_last_n world2))
              (context_s1 10) messages_s1)
    as (summary & w2 & Hrun & _ & _ & _ & Hcount & _ & _ & Hstamp & _).
  - by vm_compute.
  - by vm_compute.
  - exists summary, w2. split_and!; [done|exact Hcount|exact Hstamp].
Defined.

Lemma role_type_mirrors_role_witness :
  ∃ req out (e : dict),
    sent (add_conversation_batch serve "s1"
            [<["role_type" := PStr "system"]> hello]) world0
      = [(req, out)] ∧
    request_messages req = [PDict e] ∧
    e !! "role" = Some (PStr "user") ∧
    e !! "role_type" = Some (PStr "user").
Proof.
  destruct (role_type_mirrors_role serve) as (_ & Hbatch & _).
  destruct (Hbatch "s1" [<["role_type" := PStr "system"]> hello] world0)
    as (req & out & Hsent & Hlen & Hentry).
  - repeat constructor; by eexists.
  - destruct (Hentry 0%nat (<["role_type" := PStr "system"]> hello) eq_refl)
      as (e & role & Hat & Hrole & Hrole' & Htype).
    vm_compute in Hrole. injection Hrole as <-.
    exists req, out, e. split_and!; [exact Hsent| |exact Hrole'|exact Htype].
    destruct (request_messages req) as [|entry0 [|entry1 entries]];
      try discriminate Hlen.
    by injection Hat as ->.
Defined.

End Runs.

(** * Further properties of the client *)

Section ClientEffects.

Context {Store : Type}.
Variable serve : Store → Request → Store * Outcome.

Abbreviation M := (M Store).
Abbreviation World := (World Store).

Lemma round_trip_world req (w : World) :
  fst (round_trip serve req w)
  = exchanged w (fst (serve (remote w) req)) req (snd (serve (remote w) req)).
Proof. unfold round_trip. by destruct (serve (remote w) req). Qed.

Lemma round_trip_result req (w : World) :
  snd (round_trip serve req w) = decoded (snd (serve (remote w) req)).
Proof. unfold round_trip. by destruct (serve (remote w) req). Qed.

Lemma get_conversation_summary_clock session_id (w : World) :
  let w1 := fst (get_conversation_context serve session_id default_last_n w) in
  let w2 := fst (get_conversation_summary serve session_id w) in
  w2 = w1 ∨ w2 = fst (datetime_now w1).
Proof.
  unfold get_conversation_summary, bind. simpl.
  destruct (get_conversation_context serve session_id default_last_n w)
    as [w1 [context|e]]; [|by left].
  destruct context as [| | | | |d]; try by left.
  unfold py_get, ret.
  destruct (dict_get d "messages" (PList [])); simpl; by (left + right).
Qed.

(** What one call does to the world: either nothing at all (a batch with a
    message that lacks a mandatory field), or one exchange with the service,
    made with the headers of the client at a URL under its base URL, and at
    most one reading of the random source or of the clock. *)
Lemma run_op_effects (op : Op) (w : World) :
  let w' := fst (run_op serve op w) in
  (w' = w ∧ ∃ key, snd (run_op serve op w) = Raise (KeyError key)) ∨
  (∃ req path,
     wire w' = wire w ++ [(req, snd (serve (remote w) req))] ∧
     remote w' = fst (serve (remote w) req) ∧
     req_headers req = headers (self w) ∧
     url req = base_url (self w) +:+ path ∧
     urandom w' = urandom w ∧ clock w' = clock w ∧
     urandom_reads w'
       = match op with
         | CreateConversation _ session_id _ =>
             if truthy (opt_str session_id) then urandom_reads w
             else S (urandom_reads w)
         | _ => urandom_reads w
         end ∧
     match op with
     | GetConversationSummary _ =>
         clock_reads w' = clock_reads w ∨ clock_reads w' = S (clock_reads w)
     | _ => clock_reads w' = clock_reads w
     end).
Proof.
  destruct op as [user_id email first_name last_name metadata
                 |user_id session_id metadata
                 |session_id role content metadata
                 |session_id messages
                 |session_id last_n
                 |user_id
                 |user_id query
                 |session_id]; simpl.
  - right. rewrite create_user_run, round_trip_world.
    eexists _, _. by split_and!.
  - right.
    pose proof (create_conversation_run serve user_id session_id metadata w)
      as Hrun.
    cbv zeta in Hrun.
    assert (∀ (m : M string) (f : string → pyval),
              fst (bind m (λ a, ret (f a)) w) = fst (m w)) as Hfst.
    { intros m f. unfold bind, ret. by destruct (m w) as [w1 [a|e]]. }
    rewrite Hfst, Hrun. simpl.
    eexists _, _. split_and!; try done;
      by destruct (truthy (opt_str session_id)).
  - right. rewrite add_message_run, round_trip_world.
    eexists _, _. by split_and!.
  - destruct (decide (Forall well_formed messages)) as [Hall|Hbad].
    + right. rewrite add_conversation_batch_run, round_trip_world by done.
      eexists _, _. by split_and!.
    + left.
      destruct (add_conversation_batch_malformed serve session_id messages w
                  Hbad) as [key Hkey].
      rewrite Hkey. split; [done|by exists key].
  - right. rewrite get_conversation_context_run, round_trip_world.
    eexists _, _. by split_and!.
  - right. rewrite get_user_conversations_run, round_trip_world.
    eexists _, _. by split_and!.
  - right. rewrite search_conversations_run, get_user_conversations_run,
      round_trip_world.
    eexists _, _. by split_and!.
  - right.
    pose proof (get_conversation_summary_clock session_id w) as Hclock.
    simpl in Hclock.
    rewrite get_conversation_context_run, round_trip_world in Hclock.
    eexists _, _.
    destruct Hclock as [-> | ->]; split_and!; try done; by (left + right).
Qed.

Lemma run_op_sent (op : Op) (w : World) :
  sent (run_op serve op) w = [] ∨
  ∃ req path,
    sent (run_op serve op) w = [(req, snd (serve (remote w) req))] ∧
    req_headers req = headers (self w) ∧
    url req = base_url (self w) +:+ path.
Proof.
  destruct (run_op_effects op w)
    as [[Hw _]|(req & path & Hwire & _ & Hheaders & Hurl & _)].
  - left. by apply sent_nil.
  - right. exists req, path. split_and!; [|done..].
    unfold sent. by rewrite Hwire, drop_app_length.
Qed.

(** X1: the log of exchanges only grows, and by at most one exchange per
    call: after any sequence of calls the earlier exchanges are still
    there, followed by no more new ones than there were calls. *)
Theorem calls_make_at_most_one_request_each (ops : list Op) (w : World) :
  ∃ new,
    wire (run_ops serve ops w) = wire w ++ new ∧
    (length new ≤ length ops)%nat.
Proof.
  revert w. induction ops as [|op rest IH]; intros w; simpl.
  - exists []. by rewrite app_nil_r.
  - destruct (IH (fst (run_op serve op w))) as (new & Hwire & Hlen).
    destruct (run_op_effects op w) as [[Hw _]|(req & _ & Hop & _)].
    + exists new. rewrite Hwire, Hw. split; [done|lia].
    + eexists (_ :: new). rewrite Hwire, Hop, <-app_assoc.
      split; [done|simpl; lia].
Qed.

(** X2: every request of every call is made with the headers the client
    was constructed with, the API key and the JSON content type, and goes
    to a URL under the base URL of the client. *)
Theorem requests_carry_the_configuration
    (base key : string) (op : Op) (w : World) req out :
  self w = init base key →
  (req, out) ∈ sent (run_op serve op) w →
  req_headers req !! "Authorization" = Some ("Api-Key " +:+ key) ∧
  req_headers req !! "Content-Type" = Some "application/json" ∧
  size (req_headers req) = 2%nat ∧
  ∃ path, url req = base +:+ path.
Proof.
  intros Hself Hin.
  destruct (run_op_sent op w) as [Hnone|(req' & path & Hsent & Hh & Hurl)].
  - rewrite Hnone in Hin. by apply elem_of_nil in Hin.
  - rewrite Hsent in Hin. apply list_elem_of_singleton in Hin.
    injection Hin as -> _. rewrite Hh, Hurl, Hself. simpl.
    split_and!; [done|done|done|by exists path].
Qed.

(** X3: when the request of a call fails in transport, the call raises
    [ConnectionError] with the diagnostic of the failure; it neither
    returns a value nor tries again. *)
Theorem transport_failure_raises_connection_error
    (op : Op) (w : World) req reason :
  (req, Failed reason) ∈ sent (run_op serve op) w →
  snd (run_op serve op w) = Raise (ConnectionError reason) ∧
  sent (run_op serve op) w = [(req, Failed reason)].
Proof.
  intros Hin.
  destruct (run_op_cases serve op w)
    as [[Hnone _]|(req' & Hsent & Hfail & _)].
  - rewrite Hnone in Hin. by apply elem_of_nil in Hin.
  - simpl in *. rewrite Hsent in Hin. apply list_elem_of_singleton in Hin.
    injection Hin as -> Hout. rewrite Hsent, <-Hout. split; [|done].
    by apply Hfail.
Qed.

Lemma run_op_decoded (op : Op) (w : World) :
  returns_json op = true →
  sent (run_op serve op) w = [] ∨
  ∃ req,
    sent (run_op serve op) w = [(req, snd (serve (remote w) req))] ∧
    snd (run_op serve op w) = decoded (snd (serve (remote w) req)).
Proof.
  intros Hjson.
  destruct op as [user_id email first_name last_name metadata
                 |user_id session_id metadata
                 |session_id role content metadata
                 |session_id messages
                 |session_id last_n
                 |user_id
                 |user_id query
                 |session_id]; try discriminate Hjson; simpl.
  - right. eexists. unfold sent.
    rewrite create_user_run, round_trip_wire, round_trip_result.
    by rewrite drop_app_length.
  - right. eexists. unfold sent.
    rewrite add_message_run, round_trip_wire, round_trip_result.
    by rewrite drop_app_length.
  - destruct (decide (Forall well_formed messages)) as [Hall|Hbad].
    + right. eexists. unfold sent.
      rewrite add_conversation_batch_run, round_trip_wire, round_trip_result
        by done.
      by rewrite drop_app_length.
    + left.
      destruct (add_conversation_batch_malformed serve session_id messages w
                  Hbad) as [key Hkey].
      apply sent_nil. by rewrite Hkey.
  - right. eexists. unfold sent.
    rewrite get_conversation_context_run, round_trip_wire, round_trip_result.
    by rewrite drop_app_length.
  - right. eexists. unfold sent.
    rewrite get_user_conversations_run, round_trip_wire, round_trip_result.
    by rewrite drop_app_length.
  - right. eexists. unfold sent.
    rewrite search_conversations_run, get_user_conversations_run,
      round_trip_wire, round_trip_result.
    by rewrite drop_app_length.
Qed.

(** X4: the calls that return the body of the reply return it as decoded,
    without looking into it, whenever the status passes
    [raise_for_status]; a body that is not JSON makes them raise
    [JSONDecodeError] with the raw text, although the service accepted the
    request. *)
Theorem passing_reply_is_returned_as_decoded (op : Op) (w : World) req r :
  returns_json op = true →
  (req, Replied r) ∈ sent (run_op serve op) w →
  ¬ 400 ≤ status_code r < 600 →
  snd (run_op serve op w)
  = match payload r with
    | Some v => Ok v
    | None => Raise (JSONDecodeError (text r))
    end.
Proof.
  intros Hjson Hin Hstatus. apply passing_status in Hstatus.
  destruct (run_op_decoded op w Hjson) as [Hnone|(req' & Hsent & Hres)].
  - rewrite Hnone in Hin. by apply elem_of_nil in Hin.
  - rewrite Hsent in Hin. apply list_elem_of_singleton in Hin.
    injection Hin as -> Hout. rewrite Hres, <-Hout. simpl.
    by rewrite Hstatus.
Qed.

(** X5: a batch is checked as a whole before anything is sent: if some
    message lacks [role] or [content], the call raises [KeyError] for the
    first field missing in the first such message and makes no request,
    even when the messages before it were complete. *)
Theorem malformed_batch_sends_nothing
    session_id (good : list dict) (bad : dict) (rest : list dict) (w : World) :
  Forall well_formed good →
  ¬ well_formed bad →
  add_conversation_batch serve session_id (good ++ bad :: rest) w
  = (w, Raise (KeyError (if decide (is_Some (bad !! "role"))
                         then "content" else "role"))).
Proof.
  intros Hgood Hbad. unfold add_conversation_batch.
  cut (∀ formatted,
    format_messages (good ++ bad :: rest) formatted w
    = (w, Raise (KeyError (if decide (is_Some (bad !! "role"))
                           then "content" else "role")))).
  { intros Hloop. by erewrite bind_raise. }
  induction Hgood as [|msg good Hmsg _ IH]; intros formatted; simpl.
  - unfold bind, format_message, getitem, raise, ret.
    destruct (bad !! "role") as [role|] eqn:Hrole.
    + rewrite decide_True by by eexists.
      destruct (bad !! "content") as [content|] eqn:Hcontent; [|done].
      destruct Hbad. split; by eexists.
    + rewrite decide_False; [done|]. by intros [? ?].
  - erewrite bind_ok by by apply format_message_ok. apply IH.
Qed.

(** X6: a call reads the random source only to make up a session
    identifier, and the clock only to stamp a summary; the sources
    themselves are never replaced.  [create_conversation] draws its
    identifier even when the request then fails. *)
Theorem local_sources_are_read_sparingly (op : Op) (w : World) :
  let w' := fst (run_op serve op w) in
  urandom w' = urandom w ∧ clock w' = clock w ∧
  urandom_reads w'
    = match op with
      | CreateConversation _ session_id _ =>
          if truthy (opt_str session_id) then urandom_reads w
          else S (urandom_reads w)
      | _ => urandom_reads w
      end ∧
  match op with
  | GetConversationSummary _ =>
      clock_reads w' = clock_reads w ∨ clock_reads w' = S (clock_reads w)
  | _ => clock_reads w' = clock_reads w
  end.
Proof.
  destruct (run_op_effects op w)
    as [[Hw [key Hkey]]|(req & path & _ & _ & _ & _ & Hu & Hc & Hur & Hcr)].
  - simpl. rewrite Hw. split_and!; [done|done| |].
    + destruct op; try done.
      simpl in Hkey. unfold bind in Hkey.
      rewrite (create_conversation_run serve) in Hkey. simpl in Hkey.
      destruct (snd (serve _ _)) as [r|reason]; [|done].
      by destruct (is_error_status (status_code r)).
    + destruct op; try done. by left.
  - by split_and!.
Qed.

(** X7: when the context is not a JSON object (a list, a string, [null]),
    the summary raises [AttributeError] after its one request and does not
    read the clock. *)
Theorem summary_of_a_non_object_raises session_id (w w1 : World) context :
  get_conversation_context serve session_id default_last_n w
    = (w1, Ok context) →
  (∀ d, context ≠ PDict d) →
  get_conversation_summary serve session_id w = (w1, Raise (AttributeError "get")).
Proof.
  intros Hcontext Hnot. unfold get_conversation_summary.
  erewrite bind_ok by exact Hcontext.
  destruct context as [| | | | |d]; try done. by destruct (Hnot d).
Qed.

(** X8: the message count of a summary is [len] of whatever the context
    holds under [messages]: nothing counts as zero messages, a list by its
    length, a string by its characters (not its bytes) and an object by its
    keys; [null], a boolean or a number make the summary raise [TypeError]
    before the clock is read. *)
Theorem summary_counts_with_len session_id (w w1 : World) (context : dict) :
  get_conversation_context serve session_id default_last_n w
    = (w1, Ok (PDict context)) →
  match dict_get context "messages" (PList []) with
  | PList items =>
      ∃ summary : dict,
        snd (get_conversation_summary serve session_id w) = Ok (PDict summary) ∧
        summary !! "message_count" = Some (PInt (Z.of_nat (length items)))
  | PStr text =>
      ∃ summary : dict,
        snd (get_conversation_summary serve session_id w) = Ok (PDict summary) ∧
        summary !! "message_count"
          = Some (PInt (Z.of_nat (str_len text)))
  | PDict entries =>
      ∃ summary : dict,
        snd (get_conversation_summary serve session_id w) = Ok (PDict summary) ∧
        summary !! "message_count" = Some (PInt (Z.of_nat (size entries)))
  | PNone | PBool _ | PInt _ =>
      get_conversation_summary serve session_id w = (w1, Raise (TypeError "len"))
  end ∧
  (context !! "messages" = None →
   ∃ summary : dict,
     snd (get_conversation_summary serve session_id w) = Ok (PDict summary) ∧
     summary !! "message_count" = Some (PInt 0)).
Proof.
  intros Hcontext.
  assert (get_conversation_summary serve session_id w
          = bind (py_len (dict_get context "messages" (PList [])))
              (λ message_count,
                 bind (py_get (PDict context) "relevant_facts" (PList []))
                   (λ relevant_facts,
                      bind (py_get (PDict context) "context" (PStr ""))
                        (λ context_text,
                           bind datetime_now (λ now, ret (PDict {[
                             "session_id" := PStr session_id;
                             "message_count" := PInt message_count;
                             "relevant_facts" := relevant_facts;
                             "context" := context_text;
                             "last_updated" := PStr (isoformat now) ]})))))
              w1) as Hrun.
  { unfold get_conversation_summary. by erewrite bind_ok by exact Hcontext. }
  split.
  - rewrite Hrun.
    destruct (dict_get context "messages" (PList [])); try done;
      eexists; (split; [reflexivity|done]).
  - intros Hnone. rewrite Hrun. unfold dict_get at 1. rewrite Hnone.
    eexists. split; [reflexivity|done].
Qed.

Lemma add_conversation_batch_appends
    held session_id messages (w w1 : World) v :
  MemoryService serve held →
  Forall well_formed messages →
  add_conversation_batch serve session_id messages w = (w1, Ok v) →
  self w1 = self w ∧
  held (remote w1)
    (base_url (self w) +:+ "/sessions/" +:+ session_id +:+ "/memory")
  = held (remote w)
      (base_url (self w) +:+ "/sessions/" +:+ session_id +:+ "/memory")
    ++ (entry_of <$> messages).
Proof.
  intros Hservice Hall Hrun.
  rewrite add_conversation_batch_run in Hrun by done.
  unfold round_trip in Hrun.
  destruct (serve (remote w) _) as [store' out] eqn:Hserve.
  injection Hrun as <- Hres. split; [done|]. simpl.
  destruct out as [r|reason]; [|done]. simpl in Hres.
  destruct (is_error_status (status_code r)) eqn:Hok; [done|].
  by eapply (service_appends _ _ Hservice).
Qed.

(** X9: with a service that keeps messages in arrival order, two batches
    sent one after the other leave the session with the same history as the
    one batch made of both. *)
Theorem consecutive_batches_compose
    held session_id (a b : list dict) (w w1 w2 w12 : World) v1 v2 v12 :
  MemoryService serve held →
  Forall well_formed a → Forall well_formed b →
  add_conversation_batch serve session_id a w = (w1, Ok v1) →
  add_conversation_batch serve session_id b w1 = (w2, Ok v2) →
  add_conversation_batch serve session_id (a ++ b) w = (w12, Ok v12) →
  let path :=
    base_url (self w) +:+ "/sessions/" +:+ session_id +:+ "/memory" in
  held (remote w2) path = held (remote w12) path ∧
  held (remote w2) path
    = held (remote w) path ++ (entry_of <$> a) ++ (entry_of <$> b).
Proof.
  intros Hservice Ha Hb H1 H2 H12 path.
  destruct (add_conversation_batch_appends _ _ _ _ _ _ Hservice Ha H1)
    as [Hself1 Hheld1].
  destruct (add_conversation_batch_appends _ _ _ _ _ _ Hservice Hb H2)
    as [_ Hheld2].
  destruct (add_conversation_batch_appends _ _ _ _ _ _ Hservice
              (proj2 (Forall_app _ _ _) (conj Ha Hb)) H12) as [_ Hheld12].
  rewrite Hself1 in Hheld2. subst path.
  rewrite Hheld12, Hheld2, Hheld1, fmap_app, <-app_assoc. done.
Qed.

(** X10: a summary asks for the default ten messages, so with a service
    that honours [lastn] its message count is never above ten, however long
    the conversation is. *)
Theorem summary_counts_at_most_ten
    held session_id (w w2 : World) (summary : dict) :
  MemoryService serve held →
  get_conversation_summary serve session_id w = (w2, Ok (PDict summary)) →
  ∃ n, summary !! "message_count" = Some (PInt n) ∧ 0 ≤ n ≤ 10.
Proof.
  intros Hservice Hrun.
  destruct (get_conversation_context serve session_id default_last_n w)
    as [w1 res] eqn:Hcontext.
  destruct res as [context|e];
    [|by rewrite (get_conversation_summary_raises _ _ _ _ _ Hcontext) in Hrun].
  pose proof Hcontext as Hrt.
  rewrite get_conversation_context_run in Hrt. unfold round_trip in Hrt.
  destruct (serve (remote w) _) as [store' out] eqn:Hserve.
  injection Hrt as _ Hres.
  destruct out as [r|reason]; [|done]. simpl in Hres.
  destruct (is_error_status (status_code r)) eqn:Hok; [done|].
  edestruct (get_conversation_context_recalls serve held session_id
               default_last_n w) as (d & Hd & Hmessages);
    [done|done|exact Hcontext| |exact Hok|].
  { unfold sent. rewrite get_conversation_context_run, round_trip_wire.
    rewrite drop_app_length. by rewrite Hserve. }
  injection Hd as ->.
  erewrite get_conversation_summary_run in Hrun;
    [|exact Hcontext|unfold dict_get; by rewrite Hmessages].
  injection Hrun as _ <-. eexists. split; [reflexivity|].
  pose proof (last_n_of_length (Z.to_nat default_last_n)
    (held (remote w)
       (base_url (self w) +:+ "/sessions/" +:+ session_id +:+ "/memory"))).
  unfold default_last_n in *. lia.
Qed.

End ClientEffects.

Lemma hex_char_is_hex (d : N) :
  hex_char d ∈ list_ascii_of_string "0123456789abcdef".
Proof.
  unfold hex_char. apply list_elem_of_In.
  repeat case_match; simpl; tauto.
Qed.

Lemma hex_digits_are_hex (width : nat) (n : N) (acc : string) :
  Forall (λ c, c ∈ list_ascii_of_string "0123456789abcdef")
         (list_ascii_of_string acc) →
  Forall (λ c, c ∈ list_ascii_of_string "0123456789abcdef")
         (list_ascii_of_string (hex_digits width n acc)).
Proof.
  revert n acc. induction width as [|k IH]; intros n acc Hacc; [done|].
  simpl. apply IH. constructor; [apply hex_char_is_hex|done].
Qed.

(** X11: a generated session identifier is ["conv-"] followed by exactly
    eight lower-case hexadecimal digits, so it can be put into a URL path as
    it is. *)
Theorem generated_ids_are_lowercase_hex (r : N) :
  ∃ digits,
    session_id_of_random r = "conv-" +:+ digits ∧
    String.length digits = 8%nat ∧
    Forall (λ c, c ∈ list_ascii_of_string "0123456789abcdef")
           (list_ascii_of_string digits).
Proof.
  exists (hex_digits 8 (top32 r) ""). split_and!.
  - apply session_id_of_random_top32.
  - apply hex_digits_length.
  - apply hex_digits_are_hex. constructor.
Qed.

(** * Concrete runs of the further properties *)

(** ** Characters of a string *)

Lemma str_len_prefix (n : nat) (s : string) :
  str_len (str_prefix n s) = (n `min` str_len s)%nat.
Proof.
  revert n. induction s as [|c rest IH]; intros n; simpl.
  - by rewrite Nat.min_0_r.
  - destruct (is_continuation c) eqn:Hc; simpl.
    + by rewrite Hc.
    + destruct n as [|k]; simpl; [done|]. by rewrite Hc, IH.
Qed.

Lemma str_prefix_is_prefix (n : nat) (s : string) :
  ∃ rest, s = str_prefix n s +:+ rest.
Proof.
  revert n. induction s as [|c s IH]; intros n; simpl.
  - by exists "".
  - destruct (is_continuation c).
    + destruct (IH n) as [rest Hrest]. exists rest.
      change (String c s = String c (str_prefix n s +:+ rest)).
      by rewrite <-Hrest.
    + destruct n as [|k]; [by exists (String c s)|].
      destruct (IH k) as [rest Hrest]. exists rest.
      change (String c s = String c (str_prefix k s +:+ rest)).
      by rewrite <-Hrest.
Qed.

Lemma str_len_ascii (s : string) :
  Forall (λ c, is_continuation c = false) (list_ascii_of_string s) →
  str_len s = String.length s.
Proof.
  induction s as [|c rest IH]; simpl; [done|].
  intros [Hc Hrest]%Forall_cons. by rewrite Hc, IH.
Qed.

Module MoreRuns.
Import Mock Stubs.

Lemma requests_carry_the_configuration_witness :
  req_headers sessions_request !! "Authorization"
    = Some ("Api-Key " +:+ default_api_key) ∧
  req_headers sessions_request !! "Content-Type" = Some "application/json" ∧
  size (req_headers sessions_request) = 2%nat ∧
  ∃ path, url sessions_request = default_base_url +:+ path.
Proof.
  apply (requests_carry_the_configuration (always unauthorized)
           default_base_url default_api_key (GetUserConversations "u1")
           world1 sessions_request (Replied unauthorized)).
  - reflexivity.
  - vm_compute. left.
Defined.

Lemma transport_failure_raises_connection_error_witness :
  snd (run_op unreachable (GetUserConversations "u1") world1)
    = Raise (ConnectionError "connection refused") ∧
  sent (run_op unreachable (GetUserConversations "u1")) world1
    = [(sessions_request, Failed "connection refused")].
Proof.
  apply transport_failure_raises_connection_error.
  vm_compute. left.
Defined.

Lemma passing_reply_is_returned_as_decoded_witness :
  snd (run_op (always no_content) (GetUserConversations "u1") world1)
    = Raise (JSONDecodeError "").
Proof.
  apply (passing_reply_is_returned_as_decoded (always no_content)
           (GetUserConversations "u1") world1 sessions_request no_content).
  - reflexivity.
  - vm_compute. left.
  - simpl. lia.
Defined.

Lemma malformed_batch_sends_nothing_witness :
  add_conversation_batch serve "s1" [hello; only_role; hi] world0
    = (world0, Raise (KeyError "content")).
Proof.
  apply (malformed_batch_sends_nothing serve "s1" [hello] only_role [hi]).
  - repeat constructor; by eexists.
  - intros [_ [v Hv]]. vm_compute in Hv. discriminate Hv.
Defined.

Lemma summary_of_a_non_object_raises_witness :
  get_conversation_summary (always empty_array) "s1" world1
    = (fst (get_conversation_context (always empty_array) "s1"
              default_last_n world1),
       Raise (AttributeError "get")).
Proof.
  apply (summary_of_a_non_object_raises (always empty_array) "s1" world1 _
           (PList [])).
  - by vm_compute.
  - done.
Defined.

Lemma summary_counts_with_len_witness :
  ∃ summary : dict,
    snd (get_conversation_summary (always text_for_messages) "s1" world1)
      = Ok (PDict summary) ∧
    summary !! "message_count" = Some (PInt 5).
Proof.
  destruct (summary_counts_with_len (always text_for_messages) "s1" world1
              (fst (get_conversation_context (always text_for_messages) "s1"
                      default_last_n world1))
              {[ "messages" := PStr "héllo" ]})
    as [Hlen _].
  - by vm_compute.
  - exact Hlen.
Defined.

(** Counting and slicing go by characters, not by bytes. *)
Example len_counts_characters :
  str_len "héllo" = 5%nat ∧ String.length "héllo" = 6%nat ∧
  str_prefix 2 "héllo" = "hé" ∧ str_prefix 9 "héllo" = "héllo".
Proof. by split_and!. Qed.

Lemma consecutive_batches_compose_witness :
  held
    (remote (fst (add_conversation_batch serve "s1" [hi]
                    (fst (add_conversation_batch serve "s1" [hello] world0)))))
    "http://localhost:8000/api/v2/sessions/s1/memory"
  = held (remote world2) "http://localhost:8000/api/v2/sessions/s1/memory".
Proof.
  apply (consecutive_batches_compose serve held "s1" [hello] [hi] world0
           (fst (add_conversation_batch serve "s1" [hello] world0))
           (fst (add_conversation_batch serve "s1" [hi]
                   (fst (add_conversation_batch serve "s1" [hello] world0))))
           world2 (PDict ∅) (PDict ∅) (PDict ∅)).
  - apply MockFacts.serve_conforms.
  - repeat constructor; by eexists.
  - repeat constructor; by eexists.
  - by vm_compute.
  - by vm_compute.
  - by vm_compute.
Defined.

Lemma summary_counts_at_most_ten_witness :
  ∃ n, context_s1 10 !! "messages" = context_s1 10 !! "messages" ∧
       0 ≤ n ≤ 10.
Proof.
  destruct (summary_counts_at_most_ten serve held "s1" world2
              (fst (get_conversation_summary serve "s1" world2))
              {[ "session_id" := PStr "s1";
                 "message_count" := PInt 2;
                 "relevant_facts" := PList [];
                 "context" := PStr "";
                 "last_updated" := PStr "2024-01-02T03:04:05" ]})
    as (n & _ & Hn).
  - apply MockFacts.serve_conforms.
  - by vm_compute.
  - by exists n.
Defined.

End MoreRuns.

(** * Properties of the chat application *)

Module ChatAppFacts.
Import ChatApp.

Section AppFacts.

Context {Store : Type}.
Variable serve : Store → Request → Store * Outcome.
Variable repr : pyval → string.
Variable exn_str : exn → string.

Abbreviation Process := (Process (Store:=Store)).
Abbreviation App := (App (Store:=Store)).

(** ** Handlers *)

(** A handler that prints one line and returns a fixed value. *)
Lemma handler_run {A} (line : exn → string) (a : A) (e : exn) (p : Process) :
  abind (print (line e)) (λ _, aret a) p
  = ({| env := env p; app := app p; stdout := stdout p ++ [line e] |}, Ok a).
Proof. done. Qed.

(** Under such a handler nothing is raised, and a normal result of the body
    is kept. *)
Lemma try_except_total {A} (body : App A) (line : exn → string) (a : A)
    (p : Process) :
  ∃ v, snd (try_except body
              (λ e, abind (print (line e)) (λ _, aret a)) p) = Ok v ∧
       (v = a ∨ snd (body p) = Ok v).
Proof.
  unfold try_except. destruct (body p) as [p' [v|e]]; simpl.
  - exists v. split; [done|by right].
  - exists a. split; [done|by left].
Qed.

Lemma abind_ok_inv {A B} (m : App A) (k : A → App B) (p : Process) b :
  snd (abind m k p) = Ok b →
  ∃ a, snd (m p) = Ok a ∧ snd (k a (fst (m p))) = Ok b.
Proof.
  unfold abind. destruct (m p) as [p' [a|e]]; simpl; [|done].
  intros H. by exists a.
Qed.

Lemma abind_const_ok {A B} (m : App A) (b : B) (p : Process) v :
  snd (abind m (λ _, aret b) p) = Ok v → v = b.
Proof.
  intros H. apply abind_ok_inv in H as (a & _ & H).
  simpl in H. by injection H.
Qed.

(** X12: every method of the application except [start_conversation]
    catches what the client raises: [login_user] and [send_message] always
    return a boolean, and the three readers always return a value. *)
Theorem guarded_methods_never_raise (c : Call) (p : Process) :
  match c with
  | StartConversation _ => True
  | LoginUser _ _ _ | SendMessage _ _ =>
      ∃ b, snd (run_call serve repr exn_str c p) = Ok (PBool b)
  | _ => ∃ v, snd (run_call serve repr exn_str c p) = Ok v
  end.
Proof.
  destruct c as [user_id name email|topic|message role|limit| |]; simpl.
  - unfold login_user.
    edestruct (try_except_total (A:=pyval)) as (v & Hv & Hcases);
      rewrite Hv.
    destruct Hcases as [->|Hbody]; [by eexists|].
    exists true. f_equal.
    apply abind_ok_inv in Hbody as (this & _ & Hbody).
    apply abind_ok_inv in Hbody as (response & _ & Hbody).
    by apply abind_const_ok in Hbody.
  - done.
  - unfold send_message, abind at 1, get_app.
    destruct (negb (truthy (opt_str (current_session (app p))))).
    + by exists false.
    + edestruct (try_except_total (A:=pyval)) as (v & Hv & Hcases);
        rewrite Hv.
      destruct Hcases as [->|Hbody]; [by eexists|].
      exists true. f_equal.
      apply abind_ok_inv in Hbody as (now & _ & Hbody).
      apply abind_ok_inv in Hbody as (reply & _ & Hbody).
      by apply abind_const_ok in Hbody.
  - unfold get_conversation_history, abind at 1, get_app.
    destruct (negb (truthy (opt_str (current_session (app p)))));
      [by eexists|].
    edestruct (try_except_total (A:=pyval)) as (v & Hv & _).
    eexists. exact Hv.
  - unfold get_conversation_summary, abind at 1, get_app.
    destruct (negb (truthy (opt_str (current_session (app p)))));
      [by eexists|].
    edestruct (try_except_total (A:=pyval)) as (v & Hv & _).
    eexists. exact Hv.
  - unfold list_user_conversations, abind at 1, get_app.
    destruct (negb (truthy (current_user (app p)))); [by eexists|].
    edestruct (try_except_total (A:=pyval)) as (v & Hv & _).
    eexists. exact Hv.
Qed.

(** X13: a method that needs a logged-in user or a running conversation
    and finds none refuses: it makes no request, changes nothing, prints one
    line and returns [False], the empty list or [None]. *)
Theorem methods_refuse_without_user_or_session (c : Call) (p : Process) :
  match c with
  | LoginUser _ _ _ => False
  | StartConversation _ | ListUserConversations =>
      truthy (current_user (app p)) = false
  | _ => truthy (opt_str (current_session (app p))) = false
  end →
  ∃ line,
    run_call serve repr exn_str c p
    = ({| env := env p; app := app p; stdout := stdout p ++ [line] |},
       Ok (match c with
           | StartConversation _ | SendMessage _ _ => PBool false
           | GetSummary => PNone
           | _ => PList []
           end)).
Proof.
  destruct c as [user_id name email|topic|message role|limit| |]; simpl;
    intros Hguard; try done;
    unfold start_conversation, send_message, get_conversation_history,
      get_conversation_summary, list_user_conversations;
    unfold abind at 1, get_app; rewrite Hguard; simpl;
    by eexists.
Qed.

(** ** Starting a conversation *)

Lemma py_or_nonempty (d : dict) (key : string) (v : pyval) :
  py_or (opt_dict (Some (<[key := v]> d))) (PDict ∅) = PDict (<[key := v]> d).
Proof.
  unfold py_or, opt_dict, truthy.
  rewrite bool_decide_eq_false_2; [done|]. apply insert_non_empty.
Qed.

Lemma py_or_singleton (key : string) (v : pyval) :
  py_or (opt_dict (Some {[key := v]})) (PDict ∅) = PDict {[key := v]}.
Proof.
  unfold py_or, opt_dict, truthy.
  rewrite bool_decide_eq_false_2; [done|]. apply map_non_empty_singleton.
Qed.

Lemma truthy_dict_with_key (d : dict) (key : string) (v : pyval) :
  d !! key = Some v → truthy (PDict d) = true.
Proof.
  intros Hkey. unfold truthy.
  rewrite bool_decide_eq_false_2; [done|].
  intros ->. by rewrite lookup_empty in Hkey.
Qed.

Lemma abind_db_ok {A B} (m : M Store A) (k : A → App B) (p : Process) w' a :
  m (env p) = (w', Ok a) →
  abind (db m) k p = k a {| env := w'; app := app p; stdout := stdout p |}.
Proof. intros H. unfold abind, db. by rewrite H. Qed.

Lemma abind_db_raise {A B} (m : M Store A) (k : A → App B) (p : Process)
    w' e :
  m (env p) = (w', Raise e) →
  abind (db m) k p
  = ({| env := w'; app := app p; stdout := stdout p |}, Raise e).
Proof. intros H. unfold abind, db. by rewrite H. Qed.

Lemma abind_get_app {B} (k : SimpleChatApp → App B) (p : Process) :
  abind get_app k p = k (app p) p.
Proof. done. Qed.

Lemma create_conversation_dyn_run (user_id : pyval) (metadata : option dict)
    (w : World Store) :
  let sid := session_id_of_random (urandom w (urandom_reads w)) in
  let req :=
    {| method := POST; url := base_url (self w) +:+ "/sessions";
       req_headers := headers (self w);
       json := Some (PDict {[
         "user_id" := user_id;
         "session_id" := PStr sid;
         "metadata" := py_or (opt_dict metadata) (PDict ∅) ]}) |} in
  create_conversation_dyn serve user_id None metadata w
  = (exchanged (fst (uuid4 w)) (fst (serve (remote w) req)) req
       (snd (serve (remote w) req)),
     match snd (serve (remote w) req) with
     | Failed reason => Raise (ConnectionError reason)
     | Replied response =>
         if is_error_status (status_code response)
         then Raise (HTTPError response)
         else Ok sid
     end).
Proof.
  intros sid req. subst sid req.
  unfold create_conversation_dyn, bind, uuid4, ret, get_self, requests_post,
    http, session_id_of_random.
  simpl.
  match goal with
  | |- context [serve ?st ?rq] =>
      destruct (serve st rq) as [store' [response|reason]]
  end; simpl; try done.
  unfold raise_for_status, raise, ret.
  by destruct (is_error_status (status_code response)).
Qed.

Lemma start_conversation_run (topic : option string) (p : Process)
    (d : dict) (u : pyval) :
  current_user (app p) = PDict d →
  d !! "user_id" = Some u →
  let w := env p in
  let sid := session_id_of_random (urandom w (urandom_reads w)) in
  let req :=
    {| method := POST; url := base_url (self w) +:+ "/sessions";
       req_headers := headers (self w);
       json := Some (PDict {[
         "user_id" := u;
         "session_id" := PStr sid;
         "metadata" := PDict {[
           "topic" := opt_str topic;
           "started_at" := PStr (isoformat (clock w (clock_reads w))) ]} ]}) |} in
  let w2 :=
    exchanged (fst (uuid4 (fst (datetime_now w))))
      (fst (serve (remote w) req)) req (snd (serve (remote w) req)) in
  start_conversation serve topic p
  = match snd (serve (remote w) req) with
    | Failed reason =>
        ({| env := w2; app := app p; stdout := stdout p |},
         Raise (ConnectionError reason))
    | Replied r =>
        if is_error_status (status_code r)
        then ({| env := w2; app := app p; stdout := stdout p |},
              Raise (HTTPError r))
        else ({| env := w2;
                 app := {| current_user := PDict d;
                           current_session := Some sid |};
                 stdout := stdout p
                   ++ ["💬 Started new conversation: " +:+ sid]
                   ++ (if truthy (opt_str topic)
                       then ["📝 Topic: " +:+ default "" topic] else []) |},
              Ok (PBool true))
    end.
Proof.
  intros Huser Hid w sid req w2.
  unfold start_conversation. rewrite abind_get_app.
  rewrite Huser, (truthy_dict_with_key d "user_id" u Hid). cbn [negb].
  erewrite abind_db_ok
    by (unfold py_getitem, getitem; rewrite Hid; reflexivity).
  erewrite abind_db_ok by reflexivity.
  pose proof (create_conversation_dyn_run u
    (Some {[ "topic" := opt_str topic;
             "started_at" := PStr (isoformat (clock w (clock_reads w))) ]})
    (fst (datetime_now w))) as Hrun.
  cbv zeta in Hrun. rewrite py_or_nonempty in Hrun.
  change (remote (fst (datetime_now w))) with (remote w) in Hrun.
  change (self (fst (datetime_now w))) with (self w) in Hrun.
  change (session_id_of_random _) with sid in Hrun.
  fold req in Hrun.
  destruct (serve (remote w) req) as [store' [r|reason]] eqn:Hserve;
    simpl in Hrun; subst w2; simpl.
  - destruct (is_error_status (status_code r)).
    + by erewrite abind_db_raise by exact Hrun.
    + erewrite abind_db_ok by exact Hrun.
      unfold abind, set_current_session, print, aret. simpl. rewrite Huser.
      destruct (truthy (opt_str topic)); simpl; by rewrite <-?app_assoc.
  - by erewrite abind_db_raise by exact Hrun.
Qed.

(** X14: [start_conversation] is the one method that lets errors through.
    When the record of the logged-in user has no [user_id], [KeyError] is
    raised before any request.  Otherwise the method posts the new session
    to the service, and when the service cannot be reached or answers with
    an error status, [ConnectionError] or [HTTPError] reaches the caller; no
    session is recorded and nothing is printed. *)
Theorem start_conversation_lets_errors_through
    (topic : option string) (p : Process) (d : dict) :
  current_user (app p) = PDict d →
  d ≠ ∅ →
  let w := env p in
  let sid := session_id_of_random (urandom w (urandom_reads w)) in
  let p' := fst (start_conversation serve topic p) in
  (d !! "user_id" = None →
   start_conversation serve topic p = (p, Raise (KeyError "user_id"))) ∧
  (∀ u, d !! "user_id" = Some u →
   let req :=
     {| method := POST; url := base_url (self w) +:+ "/sessions";
        req_headers := headers (self w);
        json := Some (PDict {[
          "user_id" := u;
          "session_id" := PStr sid;
          "metadata" := PDict {[
            "topic" := opt_str topic;
            "started_at" := PStr (isoformat (clock w (clock_reads w))) ]} ]}) |} in
   let out := snd (serve (remote w) req) in
   wire (env p') = wire w ++ [(req, out)] ∧
   (∀ reason, out = Failed reason →
      snd (start_conversation serve topic p) = Raise (ConnectionError reason) ∧
      app p' = app p ∧ stdout p' = stdout p) ∧
   (∀ r, out = Replied r → is_error_status (status_code r) = true →
      snd (start_conversation serve topic p) = Raise (HTTPError r) ∧
      app p' = app p ∧ stdout p' = stdout p)).
Proof.
  intros Huser Hne w sid p'. split.
  - intros Hnone. unfold start_conversation. rewrite abind_get_app.
    rewrite Huser. unfold truthy. rewrite bool_decide_eq_false_2 by done.
    cbn [negb].
    erewrite abind_db_raise
      by (unfold py_getitem, getitem; rewrite Hnone; reflexivity).
    by destruct p.
  - intros u Hid req out.
    pose proof (start_conversation_run topic p d u Huser Hid) as Hrun.
    cbv zeta in Hrun. fold w sid req out in Hrun.
    subst p'. rewrite Hrun. clear Hrun. clearbody out. split_and!.
    + by destruct out as [r|reason];
        [destruct (is_error_status (status_code r))|].
    + by intros reason ->.
    + intros r -> Herror. by rewrite Herror.
Qed.

(** X15: when the service accepts the request, [start_conversation]
    records a freshly generated session identifier, never one chosen by the
    caller, sends the topic and the local time as metadata, keeps the user,
    and returns [True]. *)
Theorem start_conversation_records_a_generated_session
    (topic : option string) (p : Process) (d : dict) (u : pyval) :
  current_user (app p) = PDict d →
  d !! "user_id" = Some u →
  let w := env p in
  let sid := session_id_of_random (urandom w (urandom_reads w)) in
  let req :=
    {| method := POST; url := base_url (self w) +:+ "/sessions";
       req_headers := headers (self w);
       json := Some (PDict {[
         "user_id" := u;
         "session_id" := PStr sid;
         "metadata" := PDict {[
           "topic" := opt_str topic;
           "started_at" := PStr (isoformat (clock w (clock_reads w))) ]} ]}) |} in
  ∀ r, snd (serve (remote w) req) = Replied r →
       ¬ 400 ≤ status_code r < 600 →
  let p' := fst (start_conversation serve topic p) in
  snd (start_conversation serve topic p) = Ok (PBool true) ∧
  app p' = {| current_user := PDict d; current_session := Some sid |} ∧
  wire (env p') = wire w ++ [(req, Replied r)] ∧
  truthy (opt_str (current_session (app p'))) = true.
Proof.
  intros Huser Hid w sid req r Hout Hstatus.
  apply passing_status in Hstatus.
  pose proof (start_conversation_run topic p d u Huser Hid) as Hrun.
  cbv zeta in Hrun. fold w sid req in Hrun.
  rewrite Hout, Hstatus in Hrun. rewrite Hrun.
  assert (truthy (opt_str (Some sid)) = true) as Hsid.
  { subst sid. rewrite session_id_of_random_top32. done. }
  by split_and!.
Qed.

(** ** Sending a message *)

Lemma truthy_session (sid : string) :
  sid ≠ "" → truthy (opt_str (Some sid)) = true.
Proof. intros Hsid. simpl. by apply negb_true_iff, String.eqb_neq. Qed.

Lemma send_message_run (message role : string) (p : Process) (sid : string) :
  current_session (app p) = Some sid → sid ≠ "" →
  let w := env p in
  let req :=
    {| method := POST;
       url := base_url (self w) +:+ "/sessions/" +:+ sid +:+ "/memory";
       req_headers := headers (self w);
       json := Some (PDict {[
         "messages" := PList [ PDict {[
           "role" := PStr role;
           "role_type" := PStr role;
           "content" := PStr message;
           "metadata" := PDict {[
             "timestamp" := PStr (isoformat (clock w (clock_reads w))) ]} ]} ] ]}) |} in
  let w2 :=
    exchanged (fst (datetime_now w)) (fst (serve (remote w) req)) req
      (snd (serve (remote w) req)) in
  send_message serve exn_str message role p
  = match decoded (snd (serve (remote w) req)) with
    | Ok _ =>
        ({| env := w2; app := app p;
            stdout := stdout p
              ++ ["✅ Message sent: " +:+ str_prefix 50 message
                  +:+ "..."] |},
         Ok (PBool true))
    | Raise e =>
        ({| env := w2; app := app p;
            stdout := stdout p ++ ["❌ Failed to send message: " +:+ exn_str e] |},
         Ok (PBool false))
    end.
Proof.
  intros Hsession Hsid w req w2.
  unfold send_message. rewrite abind_get_app, Hsession.
  rewrite (truthy_session sid Hsid). cbn [negb].
  unfold try_except. erewrite abind_db_ok by reflexivity.
  pose proof (add_message_run serve sid role message
    (Some {[ "timestamp" := PStr (isoformat (clock w (clock_reads w))) ]})
    (fst (datetime_now w))) as Hrun.
  rewrite py_or_singleton in Hrun.
  change (self (fst (datetime_now w))) with (self w) in Hrun.
  fold req in Hrun. unfold round_trip in Hrun.
  change (remote (fst (datetime_now w))) with (remote w) in Hrun.
  subst w2.
  destruct (serve (remote w) req) as [store' out]. simpl fst. simpl snd.
  destruct (decoded out) as [v|e].
  - by erewrite abind_db_ok by exact Hrun.
  - by erewrite abind_db_raise by exact Hrun.
Qed.

(** X16: with a conversation running, [send_message] makes exactly one
    request, to the memory of that conversation, stamped with the local
    time, and leaves the application as it is.  It returns [True] exactly
    when the reply has a passing status and a JSON body: a reply such as
    [204 No Content] is reported as a failure although the service took the
    message. *)
Theorem send_message_reports_the_reply
    (message role : string) (p : Process) (sid : string) :
  current_session (app p) = Some sid → sid ≠ "" →
  let p' := fst (send_message serve exn_str message role p) in
  ∃ req,
    url req
      = base_url (self (env p)) +:+ "/sessions/" +:+ sid +:+ "/memory" ∧
    (∃ e : dict,
       request_messages req = [PDict e] ∧
       e !! "role" = Some (PStr role) ∧ e !! "role_type" = Some (PStr role) ∧
       e !! "content" = Some (PStr message)) ∧
    wire (env p')
      = wire (env p) ++ [(req, snd (serve (remote (env p)) req))] ∧
    app p' = app p ∧
    clock_reads (env p') = S (clock_reads (env p)) ∧
    (snd (send_message serve exn_str message role p) = Ok (PBool true) ↔
     ∃ r v, snd (serve (remote (env p)) req) = Replied r ∧
            is_error_status (status_code r) = false ∧
            payload r = Some v) ∧
    (snd (send_message serve exn_str message role p) = Ok (PBool true) ∨
     snd (send_message serve exn_str message role p) = Ok (PBool false)).
Proof.
  intros Hsession Hsid.
  pose proof (send_message_run message role p sid Hsession Hsid) as Hrun.
  cbv zeta in Hrun.
  match type of Hrun with
  | _ = match decoded (snd (serve _ ?rq)) with _ => _ end =>
      set (req := rq) in *
  end.
  exists req. simpl. rewrite Hrun.
  split_and!.
  - done.
  - eexists. split; [reflexivity|]. by split_and!.
  - by destruct (decoded _).
  - by destruct (decoded _).
  - by destruct (decoded _).
  - destruct (snd (serve (remote (env p)) req)) as [r|reason]; simpl.
    + destruct (is_error_status (status_code r)) eqn:Herr; simpl.
      * split; [done|]. intros (r' & v & [= <-] & Hr & _). congruence.
      * destruct (payload r) as [v|] eqn:Hpayload; simpl.
        -- split; [|done]. intros _. by exists r, v.
        -- split; [done|]. intros (r' & v & [= <-] & _ & Hv). congruence.
    + split; [done|]. by intros (r & v & Hr & _).
  - destruct (decoded _); by (left + right).
Qed.

(** ** Logging in *)

Lemma login_user_run (user_id : string) (name email : option string)
    (p : Process) :
  let w := env p in
  let lookup :=
    {| method := GET; url := base_url (self w) +:+ "/users/" +:+ user_id;
       req_headers := headers (self w); json := None |} in
  let w1 :=
    exchanged w (fst (serve (remote w) lookup)) lookup
      (snd (serve (remote w) lookup)) in
  let creation :=
    {| method := POST; url := base_url (self w) +:+ "/users";
       req_headers := headers (self w);
       json := Some (PDict {[
         "user_id" := PStr user_id;
         "email" := PStr (str_or email (user_id +:+ "@example.com"));
         "first_name" := PStr (str_or name user_id);
         "last_name" := PNone;
         "metadata" := PDict ∅ ]}) |} in
  let w2 :=
    exchanged w1 (fst (serve (remote w1) creation)) creation
      (snd (serve (remote w1) creation)) in
  let failed p' e :=
    ({| env := env p'; app := app p';
        stdout := stdout p' ++ ["❌ Login failed: " +:+ exn_str e] |},
     Ok (PBool false)) in
  let with_user v :=
    {| current_user := v; current_session := current_session (app p) |} in
  login_user serve repr exn_str user_id name email p
  = match snd (serve (remote w) lookup) with
    | Failed reason =>
        failed {| env := w1; app := app p; stdout := stdout p |}
               (ConnectionError reason)
    | Replied r =>
        if status_code r =? 200
        then
          match payload r with
          | None =>
              failed {| env := w1; app := app p; stdout := stdout p |}
                     (JSONDecodeError (text r))
          | Some (PDict d) =>
              ({| env := w1; app := with_user (PDict d);
                  stdout := stdout p
                    ++ ["✅ Welcome back, "
                        +:+ py_str repr (dict_get d "first_name" (PStr user_id))
                        +:+ "!"] |},
               Ok (PBool true))
          | Some v =>
              failed {| env := w1; app := with_user v; stdout := stdout p |}
                     (AttributeError "get")
          end
        else
          match decoded (snd (serve (remote w1) creation)) with
          | Ok v =>
              ({| env := w2; app := with_user v;
                  stdout := stdout p
                    ++ ["✅ New user created: " +:+ str_or name user_id] |},
               Ok (PBool true))
          | Raise e =>
              failed {| env := w2; app := app p; stdout := stdout p |} e
          end
    end.
Proof.
  intros w lookup w1 creation w2 failed with_user.
  unfold login_user, try_except.
  erewrite abind_db_ok by reflexivity.
  fold w.
  assert (requests_get serve (base_url (self w) +:+ "/users/" +:+ user_id)
            (headers (self w)) w
          = (w1, match snd (serve (remote w) lookup) with
                 | Replied r => Ok r
                 | Failed reason => Raise (ConnectionError reason)
                 end)) as Hget.
  { unfold requests_get, http. fold lookup. subst w1.
    by destruct (serve (remote w) lookup) as [store' [r|reason]]. }
  destruct (snd (serve (remote w) lookup)) as [r|reason] eqn:Hout.
  - erewrite abind_db_ok by exact Hget.
    destruct (status_code r =? 200).
    + unfold abind at 1.
      destruct (payload r) as [v|] eqn:Hpayload.
      * erewrite abind_db_ok
          by (unfold response_json; rewrite Hpayload; reflexivity).
        unfold abind at 1, set_current_user. cbn [env app stdout].
        rewrite abind_get_app. cbn [env app stdout current_user].
        destruct v as [| | | | |d];
          try by (erewrite abind_db_raise by reflexivity).
        by erewrite abind_db_ok by reflexivity.
      * by erewrite abind_db_raise
          by (unfold response_json; rewrite Hpayload; reflexivity).
    + unfold abind at 1.
      pose proof (create_user_run serve user_id
        (Some (str_or email (user_id +:+ "@example.com")))
        (Some (str_or name user_id)) None None w1) as Hcreate.
      change (self w1) with (self w) in Hcreate.
      change (py_or (opt_dict None) (PDict ∅)) with (PDict ∅) in Hcreate.
      change (opt_str None) with PNone in Hcreate.
      change (opt_str (Some ?x)) with (PStr x) in Hcreate.
      fold creation in Hcreate. unfold round_trip in Hcreate.
      subst w2.
      destruct (serve (remote w1) creation) as [store2 out2].
      cbn [fst snd].
      destruct (decoded out2) as [v|e].
      * by erewrite abind_db_ok by exact Hcreate.
      * by erewrite abind_db_raise by exact Hcreate.
  - by erewrite abind_db_raise by exact Hget.
Qed.

(** X17: when the lookup of the user is answered with status 200 and a
    JSON object, [login_user] makes no other request, records that object as
    the current user, greets by its [first_name] (the user identifier when
    there is none) and returns [True]; the conversation is untouched. *)
Theorem login_welcomes_a_known_user
    (user_id : string) (name email : option string) (p : Process) r (d : dict) :
  let w := env p in
  let lookup :=
    {| method := GET; url := base_url (self w) +:+ "/users/" +:+ user_id;
       req_headers := headers (self w); json := None |} in
  snd (serve (remote w) lookup) = Replied r →
  status_code r = 200 →
  payload r = Some (PDict d) →
  let p' := fst (login_user serve repr exn_str user_id name email p) in
  snd (login_user serve repr exn_str user_id name email p) = Ok (PBool true) ∧
  app p' = {| current_user := PDict d;
              current_session := current_session (app p) |} ∧
  wire (env p') = wire w ++ [(lookup, Replied r)] ∧
  stdout p'
    = stdout p ++ ["✅ Welcome back, "
                   +:+ py_str repr (dict_get d "first_name" (PStr user_id))
                   +:+ "!"].
Proof.
  intros w lookup Hout Hstatus Hpayload p'. subst p' lookup w.
  rewrite (login_user_run user_id name email p). cbv zeta.
  rewrite Hout, Hstatus, Hpayload. by simpl.
Qed.

(** X18: any other status of the lookup, a server error as much as
    [404], makes [login_user] try to create the user: a second request
    posts the identifier with the e-mail address (by default
    [user_id@example.com]) and the first name (by default the identifier).
    The login succeeds exactly when that creation returns a JSON body, which
    becomes the current user. *)
Theorem login_creates_the_user_on_any_other_status
    (user_id : string) (name email : option string) (p : Process) r :
  let w := env p in
  let lookup :=
    {| method := GET; url := base_url (self w) +:+ "/users/" +:+ user_id;
       req_headers := headers (self w); json := None |} in
  let creation :=
    {| method := POST; url := base_url (self w) +:+ "/users";
       req_headers := headers (self w);
       json := Some (PDict {[
         "user_id" := PStr user_id;
         "email" := PStr (str_or email (user_id +:+ "@example.com"));
         "first_name" := PStr (str_or name user_id);
         "last_name" := PNone;
         "metadata" := PDict ∅ ]}) |} in
  snd (serve (remote w) lookup) = Replied r →
  status_code r ≠ 200 →
  let out := snd (serve (fst (serve (remote w) lookup)) creation) in
  let p' := fst (login_user serve repr exn_str user_id name email p) in
  wire (env p') = wire w ++ [(lookup, Replied r); (creation, out)] ∧
  match decoded out with
  | Ok v =>
      snd (login_user serve repr exn_str user_id name email p)
        = Ok (PBool true) ∧
      current_user (app p') = v
  | Raise e =>
      snd (login_user serve repr exn_str user_id name email p)
        = Ok (PBool false) ∧
      app p' = app p
  end.
Proof.
  intros w lookup creation Hserve Hstatus out p'.
  subst p' out creation lookup w.
  rewrite (login_user_run user_id name email p). cbv zeta.
  rewrite Hserve.
  apply Z.eqb_neq in Hstatus. rewrite Hstatus.
  unfold exchanged at 1 2 3. cbn [remote].
  destruct (decoded _) as [v|e]; simpl; by rewrite <-app_assoc.
Qed.

(** X19: a lookup answered with status 200 and a JSON value that is not
    an object (a list, a string) makes [login_user] return [False], yet the
    value has already been recorded as the current user. *)
Theorem failed_login_can_leave_a_user
    (user_id : string) (name email : option string) (p : Process) r v :
  let w := env p in
  let lookup :=
    {| method := GET; url := base_url (self w) +:+ "/users/" +:+ user_id;
       req_headers := headers (self w); json := None |} in
  snd (serve (remote w) lookup) = Replied r →
  status_code r = 200 →
  payload r = Some v →
  (∀ d, v ≠ PDict d) →
  let p' := fst (login_user serve repr exn_str user_id name email p) in
  snd (login_user serve repr exn_str user_id name email p) = Ok (PBool false) ∧
  current_user (app p') = v.
Proof.
  intros w lookup Hout Hstatus Hpayload Hnot p'. subst p' lookup w.
  rewrite (login_user_run user_id name email p). cbv zeta.
  rewrite Hout, Hstatus, Hpayload. simpl.
  destruct v as [| | | | |d]; try done. by destruct (Hnot d).
Qed.

(** ** Reading back *)

(** X20: the history is the [messages] entry of the context as the
    service returned it; whatever goes wrong (no reply, an error status, a
    body that is not a JSON object) the caller gets the empty list, the same
    value as for a conversation without messages. *)
Theorem history_is_empty_on_any_failure
    (limit : Z) (p : Process) (sid : string) :
  current_session (app p) = Some sid → sid ≠ "" →
  let outcome := get_conversation_context serve sid limit (env p) in
  let p' := fst (get_conversation_history serve exn_str limit p) in
  env p' = fst outcome ∧ app p' = app p ∧
  snd (get_conversation_history serve exn_str limit p)
  = Ok (match snd outcome with
        | Ok (PDict d) => dict_get d "messages" (PList [])
        | _ => PList []
        end).
Proof.
  intros Hsession Hsid outcome p'. subst outcome p'.
  unfold get_conversation_history. rewrite abind_get_app, Hsession.
  rewrite (truthy_session sid Hsid). cbn [negb default].
  unfold try_except.
  destruct (get_conversation_context serve sid limit (env p))
    as [w' [context|e]] eqn:Hcontext.
  - erewrite abind_db_ok by exact Hcontext.
    unfold db. cbn [env app stdout].
    by destruct context as [| | | | |d].
  - by erewrite abind_db_raise by exact Hcontext.
Qed.

(** ** What a session of calls keeps *)

Lemma preserves_aret {X A} (f : Process → X) (a : A) : preserves f (aret a).
Proof. done. Qed.

Lemma preserves_abind {X A B} (f : Process → X) (m : App A) (k : A → App B) :
  preserves f m → (∀ a, preserves f (k a)) → preserves f (abind m k).
Proof.
  intros Hm Hk p. unfold abind. specialize (Hm p).
  destruct (m p) as [p' [a|e]]; simpl in *; [|done]. by rewrite Hk.
Qed.

Lemma preserves_try_except {X A} (f : Process → X) (body : App A)
    (handler : exn → App A) :
  preserves f body → (∀ e, preserves f (handler e)) →
  preserves f (try_except body handler).
Proof.
  intros Hbody Hhandler p. unfold try_except. specialize (Hbody p).
  destruct (body p) as [p' [a|e]]; simpl in *; [done|]. by rewrite Hhandler.
Qed.

Lemma preserves_get_app {X} (f : Process → X) : preserves f get_app.
Proof. done. Qed.

Lemma preserves_app_db {A} (m : M Store A) : preserves app (db m).
Proof. intros p. unfold db. by destruct (m (env p)). Qed.

Lemma preserves_app_print line : preserves (Store:=Store) app (print line).
Proof. done. Qed.

Lemma preserves_config_db {A} (m : M Store A) :
  keeps_self m → preserves (λ p, self (env p)) (db m).
Proof.
  intros Hm p. unfold db. specialize (Hm (env p)).
  by destruct (m (env p)).
Qed.

Lemma preserves_config_print line :
  preserves (Store:=Store) (λ p, self (env p)) (print line).
Proof. done. Qed.

Lemma preserves_config_set_current_user v :
  preserves (Store:=Store) (λ p, self (env p)) (set_current_user v).
Proof. done. Qed.

Lemma preserves_config_set_current_session sid :
  preserves (Store:=Store) (λ p, self (env p)) (set_current_session sid).
Proof. done. Qed.

Lemma keeps_self_py_getitem v key :
  keeps_self (Store:=Store) (py_getitem v key).
Proof. destruct v; try done. apply keeps_self_getitem. Qed.

Lemma keeps_self_requests_get u hs : keeps_self (requests_get serve u hs).
Proof. apply keeps_self_http. Qed.

Lemma keeps_self_requests_post u hs body :
  keeps_self (requests_post serve u hs body).
Proof. apply keeps_self_http. Qed.

Lemma keeps_self_create_conversation_dyn user_id session_id metadata :
  keeps_self (create_conversation_dyn serve user_id session_id metadata).
Proof.
  unfold create_conversation_dyn.
  repeat first
    [ apply keeps_self_bind; [|intros ?]
    | apply keeps_self_ret | apply keeps_self_uuid4 | apply keeps_self_get_self
    | apply keeps_self_requests_post | apply keeps_self_raise_for_status
    | match goal with
      | |- keeps_self (if ?b then _ else _) => destruct b
      end ].
Qed.

Lemma keeps_self_get_user_conversations_dyn user_id :
  keeps_self (get_user_conversations_dyn serve repr user_id).
Proof.
  unfold get_user_conversations_dyn.
  repeat first
    [ apply keeps_self_bind; [|intros ?]
    | apply keeps_self_get_self | apply keeps_self_requests_get
    | apply keeps_self_raise_for_status | apply keeps_self_response_json ].
Qed.

Create HintDb chat_app discriminated.
#[local] Hint Resolve preserves_aret preserves_get_app preserves_app_db
  preserves_app_print preserves_config_print preserves_config_set_current_user
  preserves_config_set_current_session : chat_app.
#[local] Hint Resolve keeps_self_get_self keeps_self_requests_get
  keeps_self_response_json keeps_self_py_get keeps_self_py_getitem
  keeps_self_datetime_now keeps_self_create_conversation_dyn
  keeps_self_get_user_conversations_dyn : chat_app.

(** Walks down the binds and handlers of a method. *)
Ltac preserves_chain :=
  repeat first
    [ progress auto with chat_app
    | apply preserves_abind; [|intros ?]
    | apply preserves_try_except; [|intros ?]
    | apply preserves_config_db
    | match goal with
      | |- preserves _ (if ?b then _ else _) => destruct b
      end ].

Lemma run_call_keeps_configuration (c : Call) :
  preserves (λ p, self (env p)) (run_call serve repr exn_str c).
Proof.
  destruct c as [user_id name email|topic|message role|limit| |]; simpl;
    unfold login_user, start_conversation, send_message,
      get_conversation_history, get_conversation_summary,
      list_user_conversations;
    preserves_chain.
  - apply (keeps_self_run_op serve (CreateUser _ _ _ _ _)).
  - apply (keeps_self_run_op serve (AddMessage _ _ _ _)).
  - apply (keeps_self_run_op serve (GetConversationContext _ _)).
  - apply (keeps_self_run_op serve (GetConversationSummary _)).
Qed.

Lemma readers_keep_the_application (c : Call) :
  match c with
  | LoginUser _ _ _ | StartConversation _ => True
  | _ => preserves app (run_call serve repr exn_str c)
  end.
Proof.
  destruct c as [user_id name email|topic|message role|limit| |]; simpl;
    try done;
    unfold send_message, get_conversation_history, get_conversation_summary,
      list_user_conversations;
    preserves_chain.
Qed.

Lemma login_user_keeps_the_session user_id name email (p : Process) :
  current_session (app (fst (login_user serve repr exn_str user_id name email p)))
  = current_session (app p).
Proof.
  rewrite (login_user_run user_id name email p). cbv zeta.
  destruct (snd (serve _ _)) as [r|reason]; [|done].
  destruct (status_code r =? 200).
  - destruct (payload r) as [[| | | | |d]|]; done.
  - by destruct (decoded _).
Qed.

Lemma start_conversation_session topic (p : Process) :
  app (fst (start_conversation serve topic p)) = app p ∨
  ∃ r, current_session (app (fst (start_conversation serve topic p)))
       = Some (session_id_of_random r).
Proof.
  destruct (current_user (app p)) as [| | | | |d] eqn:Huser;
    try (left; unfold start_conversation; rewrite abind_get_app, Huser;
         simpl;
         repeat match goal with
                | |- context [if ?b then _ else _] => destruct b
                end; done).
  destruct (d !! "user_id") as [u|] eqn:Hid.
  - rewrite (start_conversation_run topic p d u Huser Hid). cbv zeta.
    destruct (snd (serve _ _)) as [r|reason]; [|by left].
    destruct (is_error_status (status_code r)); [by left|].
    right. by eexists.
  - left. unfold start_conversation. rewrite abind_get_app, Huser.
    destruct (negb (truthy (PDict d))); [done|].
    by erewrite abind_db_raise
      by (unfold py_getitem, getitem; rewrite Hid; reflexivity).
Qed.

(** X21: through any sequence of calls of the application, whether they
    succeed, fail or raise, the configuration of the database client stays
    what it was, and the recorded conversation, once there is one, always
    has an identifier generated by the client. *)
Theorem application_keeps_its_invariants (calls : list Call) (p : Process) :
  session_generated (app p) →
  let p' := run_calls serve repr exn_str calls p in
  session_generated (app p') ∧
  self (env p') = self (env p).
Proof.
  revert p. induction calls as [|c rest IH]; intros p Hsession; [done|].
  simpl.
  destruct (IH (fst (run_call serve repr exn_str c p))) as [Hs Hc].
  - pose proof (readers_keep_the_application c) as Hkeep.
    destruct c as [user_id name email|topic|message role|limit| |];
      simpl in Hkeep; cbn [run_call];
      try (unfold session_generated; rewrite (Hkeep p); exact Hsession).
    + unfold session_generated.
      by rewrite login_user_keeps_the_session.
    + destruct (start_conversation_session topic p) as [->|[r Hr]];
        [done|].
      right. by exists r.
  - split; [done|]. rewrite Hc. apply run_call_keeps_configuration.
Qed.

End AppFacts.


End ChatAppFacts.

(** * Properties of the smoke test *)

Module TestZepFacts.
Import TestZep.

Section ScriptFacts.

Context {Store : Type}.
Variable serve : Store → Request → Store * Outcome.
Variable repr : pyval → string.

Abbreviation Run := (Run (Store:=Store)).
Abbreviation Script := (Script (Store:=Store)).

Lemma sbind_print {B} (line : string) (k : unit → Script B) (s : Run) :
  sbind (print line) k s
  = k tt {| world := world s; printed := printed s ++ [line] |}.
Proof. done. Qed.

Lemma sbind_call_ok {A B} (m : M Store A) (k : A → Script B) (s : Run) w' a :
  m (world s) = (w', Ok a) →
  sbind (call m) k s = k a {| world := w'; printed := printed s |}.
Proof. intros H. unfold sbind, call. by rewrite H. Qed.

Lemma sbind_call_raise {A B} (m : M Store A) (k : A → Script B) (s : Run)
    w' e :
  m (world s) = (w', Raise e) →
  sbind (call m) k s = ({| world := w'; printed := printed s |}, Raise e).
Proof. intros H. unfold sbind, call. by rewrite H. Qed.

Lemma http_run (req : Request) (w : World Store) :
  http serve req w
  = (exchanged w (fst (serve (remote w) req)) req (snd (serve (remote w) req)),
     match snd (serve (remote w) req) with
     | Replied r => Ok r
     | Failed reason => Raise (ConnectionError reason)
     end).
Proof. unfold http. by destruct (serve (remote w) req) as [st [r|reason]]. Qed.

(** ** The health check *)

Lemma test_health_run (s : Run) :
  let w := world s in
  let req :=
    {| method := GET; url := "http://localhost:8000/healthz";
       req_headers := ∅; json := None |} in
  let w1 :=
    exchanged w (fst (serve (remote w) req)) req (snd (serve (remote w) req)) in
  test_health serve s
  = match snd (serve (remote w) req) with
    | Failed reason =>
        ({| world := w1;
            printed := printed s ++ ["🔍 Testing Zep API health..."] |},
         Raise (ConnectionError reason))
    | Replied r =>
        ({| world := w1;
            printed := printed s ++ ["🔍 Testing Zep API health..."]
              ++ [if status_code r =? 200 then "✅ Zep API is healthy!"
                  else "❌ Zep API health check failed: "
                       +:+ py_str_int (status_code r)] |},
         Ok (PBool (status_code r =? 200)))
    end.
Proof.
  intros w req w1. unfold test_health. rewrite sbind_print.
  pose proof (http_run req w) as Hhttp. fold w1 in Hhttp.
  destruct (snd (serve (remote w) req)) as [r|reason].
  - erewrite sbind_call_ok by exact Hhttp.
    destruct (status_code r =? 200); rewrite sbind_print;
      unfold sret; simpl; by rewrite <-app_assoc.
  - by erewrite sbind_call_raise by exact Hhttp.
Qed.

(** X22: the health check asks the root of the service, outside the
    versioned API and without the API key, and answers [True] exactly for
    status 200; when the service cannot be reached it does not answer
    [False]: the transport error escapes. *)
Theorem health_check_is_unauthenticated (s : Run) :
  ∃ out,
    wire (world (fst (test_health serve s)))
      = wire (world s)
        ++ [({| method := GET; url := "http://localhost:8000/healthz";
                req_headers := ∅; json := None |}, out)] ∧
    snd (test_health serve s)
      = match out with
        | Replied r => Ok (PBool (status_code r =? 200))
        | Failed reason => Raise (ConnectionError reason)
        end.
Proof.
  rewrite (test_health_run s). cbv zeta.
  exists (snd (serve (remote (world s))
            {| method := GET; url := "http://localhost:8000/healthz";
               req_headers := ∅; json := None |})).
  by destruct (snd (serve _ _)) as [r|reason].
Qed.

(** ** Stretches without requests *)

Lemma quiet_sret {A} (a : A) : quiet (Store:=Store) (sret a).
Proof. done. Qed.

Lemma quiet_print line : quiet (Store:=Store) (print line).
Proof. done. Qed.

Lemma quiet_sbind {A B} (m : Script A) (k : A → Script B) :
  quiet m → (∀ a, quiet (k a)) → quiet (sbind m k).
Proof.
  intros Hm Hk s. unfold sbind. specialize (Hm s).
  destruct (m s) as [s' [a|e]]; simpl in *; [|done].
  destruct (Hk a s') as [Hw Hr]. by rewrite Hw, Hr.
Qed.

Lemma quiet_call {A} (m : M Store A) :
  (∀ w, wire (fst (m w)) = wire w ∧ remote (fst (m w)) = remote w) →
  quiet (call m).
Proof.
  intros Hm s. unfold call. specialize (Hm (world s)).
  by destruct (m (world s)).
Qed.

Lemma quiet_uuid4 : quiet (Store:=Store) (call uuid4).
Proof. by apply quiet_call. Qed.

Lemma quiet_response_json r : quiet (Store:=Store) (call (response_json r)).
Proof.
  apply quiet_call. intros w. unfold response_json. by destruct (payload r).
Qed.

Lemma quiet_py_getitem v key : quiet (Store:=Store) (call (py_getitem v key)).
Proof.
  apply quiet_call. intros w. destruct v; try done.
  unfold py_getitem, getitem. by destruct (_ !! _).
Qed.

Lemma quiet_py_get v key default :
  quiet (Store:=Store) (call (py_get v key default)).
Proof. apply quiet_call. intros w. by destruct v. Qed.

Lemma quiet_py_len v : quiet (Store:=Store) (call (py_len v)).
Proof. apply quiet_call. intros w. by destruct v. Qed.

Create HintDb script discriminated.
#[local] Hint Resolve quiet_sret quiet_print quiet_uuid4 quiet_response_json
  quiet_py_getitem quiet_py_get quiet_py_len : script.

Ltac quiet_chain :=
  repeat first
    [ progress auto with script
    | apply quiet_sbind; [|intros ?]
    | match goal with
      | |- quiet (if ?b then _ else _) => destruct b
      end ].

Lemma quiet_count_of memory key : quiet (Store:=Store) (count_of memory key).
Proof. unfold count_of. quiet_chain. Qed.
#[local] Hint Resolve quiet_count_of : script.

(** ** One step of the script *)

(** A request followed by a test of the status: the step makes one
    exchange, and hands on a truthy value only when the status was the
    expected one. *)
Lemma step_after_request (req : Request) (expected : Z)
    (good bad : Response → Script pyval) (s : Run) :
  (∀ r, quiet (good r)) → (∀ r, quiet (bad r)) →
  (∀ r s' v, snd (bad r s') = Ok v → truthy v = false) →
  let f :=
    sbind (call (http serve req))
      (λ response,
         if status_code response =? expected
         then good response else bad response) in
  let e := (req, snd (serve (remote (world s)) req)) in
  wire (world (fst (f s))) = wire (world s) ++ [e] ∧
  (∀ v, snd (f s) = Ok v → truthy v = true → status_of e = Some expected).
Proof.
  intros Hgood Hbad Hfalsy f e. subst f e.
  pose proof (http_run req (world s)) as Hhttp.
  destruct (snd (serve (remote (world s)) req)) as [r|reason] eqn:Hout.
  - erewrite sbind_call_ok by exact Hhttp.
    destruct (status_code r =? expected) eqn:Hstatus.
    + split.
      * by rewrite (proj1 (Hgood r _)).
      * intros _ _ _. unfold status_of. simpl. f_equal. lia.
    + split.
      * by rewrite (proj1 (Hbad r _)).
      * intros v Hv Htruthy. apply Hfalsy in Hv. congruence.
  - erewrite sbind_call_raise by exact Hhttp.
    split; [done|]. intros v Hv. discriminate Hv.
Qed.

(** What each of the five steps of [main] does to the log. *)
Lemma steps_make_one_exchange (s : Run) (v0 : pyval) :
  ∀ f expected,
    (f, expected) ∈ [ (test_health serve, 200);
                      (create_user serve repr, 201);
                      (create_session serve repr v0, 201);
                      (add_memory serve repr v0, 201);
                      (get_memory serve repr v0, 200) ] →
    ∃ e,
      wire (world (fst (f s))) = wire (world s) ++ [e] ∧
      (∀ v, snd (f s) = Ok v → truthy v = true →
         status_of e = Some expected).
Proof.
  intros f expected Hin.
  assert (∀ (req : Request) (good bad : Response → Script pyval) (s1 : Run),
    wire (world s1) = wire (world s) →
    (∀ r, quiet (good r)) → (∀ r, quiet (bad r)) →
    (∀ r s' v, snd (bad r s') = Ok v → truthy v = false) →
    ∃ e,
      wire (world (fst (sbind (call (http serve req))
              (λ response,
                 if status_code response =? expected
                 then good response else bad response) s1)))
        = wire (world s) ++ [e] ∧
      (∀ v, snd (sbind (call (http serve req))
                   (λ response,
                      if status_code response =? expected
                      then good response else bad response) s1) = Ok v →
            truthy v = true → status_of e = Some expected)) as Hstep.
  { intros req good bad s1 Hwire Hgood Hbad Hfalsy. rewrite <-Hwire.
    eexists. by apply step_after_request. }
  repeat (apply elem_of_cons in Hin as [[= -> ->]|Hin]);
    [| | | | |by apply elem_of_nil in Hin].
  - unfold test_health. rewrite sbind_print.
    apply Hstep; [done|intros r; quiet_chain..|].
    intros r s' v. rewrite sbind_print. by intros [= <-].
  - unfold create_user. rewrite sbind_print.
    erewrite sbind_call_ok by reflexivity.
    apply Hstep; [done|intros r; quiet_chain..|].
    intros r s' v. rewrite sbind_print. by intros [= <-].
  - unfold create_session. rewrite sbind_print.
    erewrite sbind_call_ok by reflexivity.
    apply Hstep; [done|intros r; quiet_chain..|].
    intros r s' v. rewrite sbind_print. by intros [= <-].
  - unfold add_memory. rewrite sbind_print.
    apply Hstep; [done|intros r; quiet_chain..|].
    intros r s' v. rewrite sbind_print. by intros [= <-].
  - unfold get_memory. rewrite sbind_print.
    apply Hstep; [done|intros r; quiet_chain..|].
    intros r s' v. rewrite sbind_print. by intros [= <-].
Qed.

(** A reply with another status than the expected one takes the step to
    its failure branch. *)
Lemma step_on_another_status (req : Request) (expected : Z)
    (good bad : Response → Script pyval) (s : Run) r0 :
  (∀ r, quiet (good r)) → (∀ r, quiet (bad r)) →
  (∀ r s', ∃ v, snd (bad r s') = Ok v ∧ truthy v = false) →
  let f :=
    sbind (call (http serve req))
      (λ response,
         if status_code response =? expected
         then good response else bad response) in
  snd <$> last (wire (world (fst (f s)))) = Some (Replied r0) →
  status_code r0 ≠ expected →
  ∃ v, snd (f s) = Ok v ∧ truthy v = false.
Proof.
  intros Hgood Hbad Hfalsy f Hlast Hstatus.
  destruct (step_after_request req expected good bad s Hgood Hbad)
    as [Hwire _].
  { intros r s' v Hv. destruct (Hfalsy r s') as (v' & Hv' & Hf). congruence. }
  fold f in Hwire. rewrite Hwire, last_snoc in Hlast. simpl in Hlast.
  injection Hlast as Hout. subst f.
  pose proof (http_run req (world s)) as Hhttp. rewrite Hout in Hhttp.
  erewrite sbind_call_ok by exact Hhttp.
  assert ((status_code r0 =? expected) = false) as -> by lia.
  apply Hfalsy.
Qed.

(** X23: no step of the script raises on a status.  A reply with any other
    status than the one the step waits for, [200] for a user that exists
    already as much as [500], makes the step print a line and hand on a
    falsy value, on which [main] stops. *)
Theorem steps_fail_quietly_on_any_other_status (s : Run) (v0 : pyval) :
  ∀ f expected r,
    (f, expected) ∈ [ (test_health serve, 200);
                      (create_user serve repr, 201);
                      (create_session serve repr v0, 201);
                      (add_memory serve repr v0, 201);
                      (get_memory serve repr v0, 200) ] →
    snd <$> last (wire (world (fst (f s)))) = Some (Replied r) →
    status_code r ≠ expected →
    ∃ v, snd (f s) = Ok v ∧ truthy v = false.
Proof.
  intros f expected r Hin.
  repeat (apply elem_of_cons in Hin as [[= -> ->]|Hin]);
    [| | | | |by apply elem_of_nil in Hin].
  - unfold test_health. rewrite sbind_print.
    apply step_on_another_status; [intros ?; quiet_chain..|].
    intros r' s'. rewrite sbind_print. by eexists.
  - unfold create_user. rewrite sbind_print.
    erewrite sbind_call_ok by reflexivity.
    apply step_on_another_status; [intros ?; quiet_chain..|].
    intros r' s'. rewrite sbind_print. by eexists.
  - unfold create_session. rewrite sbind_print.
    erewrite sbind_call_ok by reflexivity.
    apply step_on_another_status; [intros ?; quiet_chain..|].
    intros r' s'. rewrite sbind_print. by eexists.
  - unfold add_memory. rewrite sbind_print.
    apply step_on_another_status; [intros ?; quiet_chain..|].
    intros r' s'. rewrite sbind_print. by eexists.
  - unfold get_memory. rewrite sbind_print.
    apply step_on_another_status; [intros ?; quiet_chain..|].
    intros r' s'. rewrite sbind_print. by eexists.
Qed.

(** ** The whole script *)

Lemma guarded_sbind (f : Script pyval) (rest : pyval → Script unit) (s : Run) :
  sbind f (λ x, if negb (truthy x) then sret tt else rest x) s
  = match f s with
    | (s', Ok v) => if truthy v then rest v s' else (s', Ok tt)
    | (s', Raise e) => (s', Raise e)
    end.
Proof.
  unfold sbind. destruct (f s) as [s' [v|e]]; [|done].
  by destruct (truthy v).
Qed.

Lemma on_track_nil : on_track [].
Proof. done. Qed.

(** X24: [main] never goes past a step that failed: it makes at most five
    requests, and every request but the last one made was answered with the
    status that step waits for (200 for the health check, 201 for the three
    posts). *)
Theorem main_stops_at_the_first_failed_step (s : Run) :
  ∃ before last,
    wire (world (fst (main serve repr s)))
      = wire (world s) ++ before ++ [last] ∧
    on_track before ∧
    (length before ≤ 4)%nat.
Proof.
  unfold main. rewrite !sbind_print.
  match goal with
  | |- context [sbind _ _ ?st] => set (s0 := st)
  end.
  assert (wire (world s) = wire (world s0)) as -> by done.
  clearbody s0.
  rewrite guarded_sbind.
  destruct (steps_make_one_exchange s0 PNone (test_health serve) 200)
    as (e1 & Hw1 & Hs1); [set_solver|].
  destruct (test_health serve s0) as [s1 [v1|x1]]; simpl in Hw1, Hs1;
    [|exists [], e1; simpl; rewrite Hw1;
      split_and!; [done|done|simpl; lia]].
  destruct (truthy v1) eqn:Ht1; [|exists [], e1; simpl; rewrite Hw1;
      split_and!; [done|done|simpl; lia]].
  specialize (Hs1 v1 eq_refl Ht1).
  rewrite guarded_sbind.
  destruct (steps_make_one_exchange s1 PNone (create_user serve repr) 201)
    as (e2 & Hw2 & Hs2); [set_solver|].
  destruct (create_user serve repr s1) as [s2 [v2|x2]];
    simpl in Hw2, Hs2; rewrite Hw1 in Hw2;
    [|exists [e1], e2; simpl; rewrite Hw2, <-app_assoc;
      split_and!; [done|by unfold on_track; simpl; rewrite Hs1|simpl; lia]].
  destruct (truthy v2) eqn:Ht2;
    [|exists [e1], e2; simpl; rewrite Hw2, <-app_assoc;
      split_and!; [done|by unfold on_track; simpl; rewrite Hs1|simpl; lia]].
  specialize (Hs2 v2 eq_refl Ht2).
  rewrite guarded_sbind.
  destruct (steps_make_one_exchange s2 v2 (create_session serve repr v2) 201)
    as (e3 & Hw3 & Hs3); [set_solver|].
  destruct (create_session serve repr v2 s2) as [s3 [v3|x3]];
    simpl in Hw3, Hs3; rewrite Hw2 in Hw3;
    [|exists [e1; e2], e3; simpl; rewrite Hw3, <-!app_assoc;
      split_and!;
      [done|by unfold on_track; simpl; rewrite Hs1, Hs2|simpl; lia]].
  destruct (truthy v3) eqn:Ht3;
    [|exists [e1; e2], e3; simpl; rewrite Hw3, <-!app_assoc;
      split_and!;
      [done|by unfold on_track; simpl; rewrite Hs1, Hs2|simpl; lia]].
  specialize (Hs3 v3 eq_refl Ht3).
  rewrite guarded_sbind.
  destruct (steps_make_one_exchange s3 v3 (add_memory serve repr v3) 201)
    as (e4 & Hw4 & Hs4); [set_solver|].
  destruct (add_memory serve repr v3 s3) as [s4 [v4|x4]];
    simpl in Hw4, Hs4; rewrite Hw3 in Hw4;
    [|exists [e1; e2; e3], e4; simpl; rewrite Hw4, <-!app_assoc;
      split_and!;
      [done|by unfold on_track; simpl; rewrite Hs1, Hs2, Hs3|simpl; lia]].
  destruct (truthy v4) eqn:Ht4;
    [|exists [e1; e2; e3], e4; simpl; rewrite Hw4, <-!app_assoc;
      split_and!;
      [done|by unfold on_track; simpl; rewrite Hs1, Hs2, Hs3|simpl; lia]].
  specialize (Hs4 v4 eq_refl Ht4).
  destruct (steps_make_one_exchange s4 v3 (get_memory serve repr v3) 200)
    as (e5 & Hw5 & _); [set_solver|].
  rewrite Hw4 in Hw5.
  exists [e1; e2; e3; e4], e5.
  split_and!;
    [|by unfold on_track; simpl; rewrite Hs1, Hs2, Hs3, Hs4|simpl; lia].
  rewrite <-!app_assoc in Hw5. cbn [app] in Hw5 |- *.
  rewrite <-Hw5. unfold sbind at 1.
  destruct (get_memory serve repr v3 s4) as [s5 [memory|x5]]; [|done].
  simpl.
  assert (quiet (Store:=Store)
    (if truthy memory
     then
       sbind (print (nl +:+ "🎉 All tests passed! Zep Community Edition is working correctly."))
         (λ _, sbind (print (nl +:+ "📊 Summary:"))
         (λ _, sbind (print ("   - User ID: " +:+ py_str repr v2))
         (λ _, sbind (print ("   - Session ID: " +:+ py_str repr v3))
         (λ _, sbind (count_of memory "messages")
         (λ messages, sbind (print ("   - Messages stored: " +:+ messages))
         (λ _, sbind (count_of memory "relevant_facts")
         (λ facts, sbind (print ("   - Facts extracted: " +:+ facts))
         (λ _, sbind (print (nl +:+ "🌐 Access points:"))
         (λ _, sbind (print "   - Zep API: http://localhost:8000")
         (λ _, sbind (print "   - Neo4j Browser: http://localhost:7474")
         (λ _, print "   - Graphiti Service: http://localhost:8003")))))))))))
     else print (nl +:+ "❌ Some tests failed. Check the logs above.")))
    as Hquiet by quiet_chain.
  by destruct (Hquiet s5) as [-> _].
Qed.

(** ** What the script prints *)

Lemma says_sret P {A} (a : A) : says_only (Store:=Store) P (sret a).
Proof. intros s. exists []. by rewrite app_nil_r. Qed.

Lemma says_print (P : string → Prop) line :
  P line → says_only (Store:=Store) P (print line).
Proof. intros HP s. exists [line]. split; [done|]. by constructor. Qed.

Lemma says_call P {A} (m : M Store A) : says_only P (call m).
Proof.
  intros s. exists []. unfold call. destruct (m (world s)).
  by rewrite app_nil_r.
Qed.

Lemma says_sbind P {A B} (m : Script A) (k : A → Script B) :
  says_only P m → (∀ a, says_only P (k a)) → says_only P (sbind m k).
Proof.
  intros Hm Hk s. unfold sbind. destruct (Hm s) as (new & Hnew & HP).
  destruct (m s) as [s' [a|e]]; simpl in *; [|by exists new].
  destruct (Hk a s') as (new' & Hnew' & HP').
  exists (new ++ new'). rewrite Hnew', Hnew, <-app_assoc.
  split; [done|]. by apply Forall_app.
Qed.

(** Two lines differ when their first five characters do. *)
Ltac other_line :=
  let Heq := fresh in
  intros Heq; apply (f_equal (String.substring 0 5)) in Heq;
  vm_compute in Heq; discriminate Heq.

Ltac in_steps :=
  by repeat first [apply list_elem_of_here | apply list_elem_of_further].

Ltac says_chain :=
  repeat first
    [ apply says_sret
    | apply says_call
    | apply says_print; other_line
    | apply says_sbind; [|intros ?]
    | match goal with
      | |- says_only _ (if ?b then _ else _) => destruct b
      end ].

Lemma steps_do_not_report_success (v0 : pyval) :
  ∀ f, f ∈ [ test_health serve; create_user serve repr;
             create_session serve repr v0; add_memory serve repr v0;
             get_memory serve repr v0 ] →
       says_only (λ line, line ≠ pass_line) f.
Proof.
  intros f Hin.
  repeat (apply elem_of_cons in Hin as [->|Hin]);
    [| | | | |by apply elem_of_nil in Hin].
  - unfold test_health. says_chain.
  - unfold create_user. says_chain.
  - unfold create_session. says_chain.
  - unfold add_memory. says_chain.
  - unfold get_memory, count_of. says_chain.
Qed.

Lemma sound_from_print n line (m : Script unit) :
  line ≠ pass_line → sound_from n m → sound_from n (sbind (print line) (λ _, m)).
Proof.
  intros Hline Hm s. rewrite sbind_print.
  destruct (Hm {| world := world s; printed := printed s ++ [line] |})
    as (exchanges & new & Hwire & Hnew & Hpass). simpl in Hwire, Hnew.
  exists exchanges, (line :: new). split_and!; [done| |].
  - by rewrite Hnew, <-app_assoc.
  - intros [?|Hin]%elem_of_cons; [done|]. by apply Hpass.
Qed.

Lemma sound_from_step n expected (v0 : pyval) (f : Script pyval)
    (rest : pyval → Script unit) :
  (f, expected) ∈ [ (test_health serve, 200);
                    (create_user serve repr, 201);
                    (create_session serve repr v0, 201);
                    (add_memory serve repr v0, 201);
                    (get_memory serve repr v0, 200) ] →
  expected_statuses !! n = Some expected →
  (∀ v, truthy v = true → sound_from (S n) (rest v)) →
  (∀ v, truthy v = false → says_only (λ line, line ≠ pass_line) (rest v) ∧
                           quiet (rest v)) →
  sound_from n (sbind f rest).
Proof.
  intros Hin Hnth Hrest Hstop s.
  destruct (steps_make_one_exchange s v0 f expected Hin) as (e & Hwire & Hok).
  assert (f ∈ [ test_health serve; create_user serve repr;
                create_session serve repr v0; add_memory serve repr v0;
                get_memory serve repr v0 ]) as Hin'.
  { exact (list_elem_of_fmap_2 fst _ _ Hin). }
  destruct (steps_do_not_report_success v0 f Hin' s)
    as (new & Hnew & Hother). clear Hin'.
  unfold sbind. destruct (f s) as [s1 [v|x]]; simpl in *.
  - destruct (truthy v) eqn:Htruthy.
    + destruct (Hrest v Htruthy s1) as (exchanges & new' & Hw & Hn & Hpass).
      exists (e :: exchanges), (new ++ new').
      rewrite Hw, Hwire, Hn, Hnew, <-!app_assoc. split_and!; [done..|].
      intros [Hin'|Hin']%elem_of_app.
      { exfalso. by eapply (proj1 (Forall_forall _ _) Hother). }
      rewrite (drop_S _ _ _ Hnth), fmap_cons, fmap_cons.
      by rewrite (Hok v eq_refl Htruthy), (Hpass Hin').
    + destruct (Hstop v Htruthy) as [Hsays Hquiet].
      destruct (Hsays s1) as (new' & Hn & Hother').
      exists [e], (new ++ new').
      rewrite (proj1 (Hquiet s1)), Hwire, Hn, Hnew, <-!app_assoc.
      split_and!; [done..|].
      intros [Hin'|Hin']%elem_of_app; exfalso.
      * by eapply (proj1 (Forall_forall _ _) Hother).
      * by eapply (proj1 (Forall_forall _ _) Hother').
  - exists [e], new. split_and!; [done..|].
    intros Hin'. exfalso. by eapply (proj1 (Forall_forall _ _) Hother).
Qed.

(** X25: the line that reports success is printed only by a run that made
    all five requests and got 200, 201, 201, 201 and 200 for them, in this
    order. *)
Theorem success_is_reported_only_after_five_expected_replies (s : Run) :
  pass_line ∈ drop (length (printed s)) (printed (fst (main serve repr s))) →
  ∃ exchanges,
    wire (world (fst (main serve repr s))) = wire (world s) ++ exchanges ∧
    status_of <$> exchanges = Some <$> expected_statuses.
Proof.
  assert (sound_from 0 (main serve repr)) as Hsound.
  { unfold main.
    apply sound_from_print; [other_line|].
    apply sound_from_print; [other_line|].
    assert (∀ n (v0 : pyval) (f : Script pyval) expected
              (rest : pyval → Script unit),
      (f, expected) ∈ [ (test_health serve, 200);
                        (create_user serve repr, 201);
                        (create_session serve repr v0, 201);
                        (add_memory serve repr v0, 201);
                        (get_memory serve repr v0, 200) ] →
      expected_statuses !! n = Some expected →
      (∀ v, sound_from (S n) (rest v)) →
      sound_from n
        (sbind f (λ x, if negb (truthy x) then sret tt else rest x)))
      as Hguard.
    { intros n v0 f expected rest Hin Hnth Hrest.
      eapply sound_from_step; [exact Hin|exact Hnth|..].
      - intros v ->. apply Hrest.
      - intros v ->. split; [apply says_sret|apply quiet_sret]. }
    apply (Hguard 0%nat PNone _ 200); [in_steps|done|]. intros healthy.
    apply (Hguard 1%nat PNone _ 201); [in_steps|done|]. intros user_id.
    apply (Hguard 2%nat user_id _ 201); [in_steps|done|].
    intros session_id.
    apply (Hguard 3%nat session_id _ 201); [in_steps|done|]. intros added.
    eapply (sound_from_step 4 200 session_id); [in_steps|done|..].
    - intros memory ->. cbv iota. intros s1.
      match goal with
      | |- context [?m s1] =>
          assert (quiet (Store:=Store) m) as Hquiet by quiet_chain;
          exists [], (drop (length (printed s1)) (printed (fst (m s1))));
          assert (says_only (λ _, True) m) as Hsays
      end.
      { repeat first
          [ apply says_sret | apply says_call | apply says_print; exact I
          | apply says_sbind; [|intros ?] | progress unfold count_of ]. }
      destruct (Hsays s1) as (new & Hnew & _).
      rewrite (proj1 (Hquiet s1)), Hnew, drop_app_length, app_nil_r.
      by split_and!.
    - intros memory ->. split; [|quiet_chain].
      apply says_print. other_line. }
  intros Hpass. destruct (Hsound s) as (exchanges & new & Hwire & Hnew & Hp).
  exists exchanges. split; [done|]. apply Hp.
  by rewrite Hnew, drop_app_length in Hpass.
Qed.

End ScriptFacts.

End TestZepFacts.

(** * Runs of the application and of the smoke test *)

Module AppRuns.
Import Mock Stubs ChatApp.

Lemma methods_refuse_without_user_or_session_witness :
  ∃ line,
    run_call (always created) repr exn_str (SendMessage "hi" "user") started
    = ({| env := env started; app := app started;
          stdout := stdout started ++ [line] |}, Ok (PBool false)).
Proof.
  apply (ChatAppFacts.methods_refuse_without_user_or_session
           (always created) repr exn_str (SendMessage "hi" "user") started).
  reflexivity.
Defined.

Lemma start_conversation_lets_errors_through_witness :
  snd (start_conversation (always unauthorized) None logged_in)
    = Raise (HTTPError unauthorized) ∧
  app (fst (start_conversation (always unauthorized) None logged_in))
    = app logged_in ∧
  stdout (fst (start_conversation (always unauthorized) None logged_in)) = [].
Proof.
  destruct (ChatAppFacts.start_conversation_lets_errors_through
              (always unauthorized) None logged_in u1)
    as [_ Hsent].
  - reflexivity.
  - apply map_non_empty_singleton.
  - destruct (Hsent (PStr "u1") eq_refl) as (_ & _ & Herror).
    apply (Herror unauthorized); reflexivity.
Defined.

Lemma start_conversation_records_a_generated_session_witness :
  snd (start_conversation (always created) (Some "shoes") logged_in)
    = Ok (PBool true) ∧
  current_session
    (app (fst (start_conversation (always created) (Some "shoes") logged_in)))
    = Some "conv-01234567".
Proof.
  destruct (ChatAppFacts.start_conversation_records_a_generated_session
              (always created) (Some "shoes") logged_in u1 (PStr "u1")
              eq_refl eq_refl created eq_refl)
    as (Hret & Happ & _).
  - simpl. lia.
  - split; [exact Hret|]. rewrite Happ. reflexivity.
Defined.

Lemma send_message_reports_the_reply_witness :
  snd (send_message (always created) exn_str "hi" "user" talking)
    = Ok (PBool true) ∨
  snd (send_message (always created) exn_str "hi" "user" talking)
    = Ok (PBool false).
Proof.
  destruct (ChatAppFacts.send_message_reports_the_reply
              (always created) exn_str "hi" "user" talking "s1")
    as (req & _ & _ & _ & _ & _ & _ & Hbool).
  - reflexivity.
  - discriminate.
  - exact Hbool.
Defined.

Lemma login_welcomes_a_known_user_witness :
  snd (login_user (always empty_object) repr exn_str "u1" None None started)
    = Ok (PBool true) ∧
  stdout (fst (login_user (always empty_object) repr exn_str "u1" None None
                 started))
    = ["✅ Welcome back, u1!"].
Proof.
  destruct (ChatAppFacts.login_welcomes_a_known_user
              (always empty_object) repr exn_str "u1" None None started
              empty_object ∅)
    as (Hret & _ & _ & Hout).
  - reflexivity.
  - reflexivity.
  - reflexivity.
  - split; [exact Hret|]. rewrite Hout. reflexivity.
Defined.

Lemma login_creates_the_user_on_any_other_status_witness :
  snd (login_user (always unauthorized) repr exn_str "u1" None None started)
    = Ok (PBool false) ∧
  app (fst (login_user (always unauthorized) repr exn_str "u1" None None
              started))
    = app started.
Proof.
  destruct (ChatAppFacts.login_creates_the_user_on_any_other_status
              (always unauthorized) repr exn_str "u1" None None started
              unauthorized)
    as [_ Hdecoded].
  - reflexivity.
  - simpl. lia.
  - exact Hdecoded.
Defined.

Lemma failed_login_can_leave_a_user_witness :
  snd (login_user (always empty_array) repr exn_str "u1" None None started)
    = Ok (PBool false) ∧
  current_user
    (app (fst (login_user (always empty_array) repr exn_str "u1" None None
                 started)))
    = PList [].
Proof.
  apply (ChatAppFacts.failed_login_can_leave_a_user
           (always empty_array) repr exn_str "u1" None None started
           empty_array (PList [])).
  - reflexivity.
  - reflexivity.
  - reflexivity.
  - discriminate.
Defined.

Lemma history_is_empty_on_any_failure_witness :
  snd (get_conversation_history (always unauthorized) exn_str 10 talking)
    = Ok (PList []).
Proof.
  destruct (ChatAppFacts.history_is_empty_on_any_failure
              (always unauthorized) exn_str 10 talking "s1")
    as (_ & _ & Hret).
  - reflexivity.
  - discriminate.
  - rewrite Hret. reflexivity.
Defined.

Lemma application_keeps_its_invariants_witness :
  session_generated
    (app (run_calls (always created) repr exn_str
            [LoginUser "u1" None None; StartConversation None;
             SendMessage "hi" "user"] started)) ∧
  self (env (run_calls (always created) repr exn_str
               [LoginUser "u1" None None; StartConversation None;
                SendMessage "hi" "user"] started))
    = self (env started).
Proof.
  apply (ChatAppFacts.application_keeps_its_invariants
           (always created) repr exn_str
           [LoginUser "u1" None None; StartConversation None;
            SendMessage "hi" "user"] started).
  by left.
Defined.

End AppRuns.

Module ScriptRuns.
Import Stubs TestZep.

Lemma success_is_reported_only_after_five_expected_replies_witness :
  ∃ exchanges,
    wire (world (fst (main (in_turn passing) repr run0)))
      = wire (world run0) ++ exchanges ∧
    status_of <$> exchanges = Some <$> expected_statuses.
Proof.
  apply TestZepFacts.success_is_reported_only_after_five_expected_replies.
  apply (bool_decide_unpack _). by vm_compute.
Defined.

Lemma steps_fail_quietly_on_any_other_status_witness :
  ∃ v, snd (create_user (in_turn user_exists) repr
              (fst (test_health (in_turn user_exists) run0))) = Ok v ∧
       truthy v = false.
Proof.
  apply (TestZepFacts.steps_fail_quietly_on_any_other_status
           (in_turn user_exists) repr
           (fst (test_health (in_turn user_exists) run0)) PNone
           (create_user (in_turn user_exists) repr) 201
           {| status_code := 200; text := object_text "user_id" "u1";
              payload := Some (PDict u1) |}).
  - apply list_elem_of_further, list_elem_of_here.
  - by vm_compute.
  - simpl. lia.
Defined.

End ScriptRuns.
